(** * RexOS emulator bridge: launch configuration, process supervision and
      CPU-usage sampling

    Shallow embedding of [ffi/emulator-bridge/src/emulator_bridge.c] and of
    [calculate_cpu_usage] from [ffi/emulator-bridge/src/performance.c],
    together with the properties of the lifecycle manager.

    Conventions of the embedding:
    - a C [int], [pid_t] or [long] is a [Z]; the 64-bit unsigned counters of
      performance.c wrap modulo [2^64], written out with [Z.modulo];
    - a [char] array is a [list ascii] of the array's size, and the C string
      it holds is the run of characters before the first NUL ([cstr]);
    - a [char*] argument that may be [NULL] is an [option string];
    - an array updated by index is a list with stdpp's [<[i:=x]>];
    - system calls are answered by a [world] value that also records the
      calls issued, in order. *)

From Stdlib Require Import ZArith String Ascii List Lia Bool.
From Stdlib Require Import Floats.SpecFloat.
From Equations Require Import Equations.
From stdpp Require Import base list strings.

Open Scope Z_scope.

(* ====================================================================== *)
(** ** C strings and character arrays *)
(* ====================================================================== *)

Module CString.

Definition NUL : ascii := Ascii.zero.

Definition is_nul (c : ascii) : bool :=
  if Ascii.ascii_dec c NUL then true else false.

(** The characters of a buffer before its first NUL: what [strdup],
    [strlen] or a ["%s"] conversion read from it. *)
Fixpoint until_nul (buf : list ascii) : list ascii :=
  match buf with
  | [] => []
  | c :: rest => if is_nul c then [] else c :: until_nul rest
  end.

Definition cstr (buf : list ascii) : string :=
  string_of_list_ascii (until_nul buf).

(** [buf[0]] read as a C truth value. *)
Definition first_char_set (buf : list ascii) : bool :=
  match buf with
  | [] => false
  | c :: _ => negb (is_nul c)
  end.

(** [strncpy(dest, src, n)]: exactly [n] cells of [dest] are written, the
    characters of [src] up to its terminator and NUL padding after them;
    no terminator is written when [src] has [n] characters or more. *)
Definition strncpy (dest : list ascii) (src : string) (n : nat) : list ascii :=
  take n (until_nul (list_ascii_of_string src) ++ replicate n NUL) ++ drop n dest.

(** A zero-filled array of [n] characters, as [memset] leaves it. *)
Definition zeroed (n : nat) : list ascii := replicate n NUL.

(** A string without an embedded NUL: the content of a C string. *)
Definition nul_free (s : string) : Prop :=
  Forall (fun c => c <> NUL) (list_ascii_of_string s).

Definition nul_freeb (s : string) : bool :=
  forallb (fun c => negb (is_nul c)) (list_ascii_of_string s).

(** The first [n] characters of a string. *)
Definition str_take (n : nat) (s : string) : string :=
  string_of_list_ascii (take n (list_ascii_of_string s)).

(** The digits a ["%d"] conversion produces for a non-negative value:
    the last digit is [n % 10], the digits before it render [n / 10]. *)
Definition digit_char (d : Z) : ascii := ascii_of_nat (48 + Z.to_nat d).

Equations? decimal_digits (n : Z) : list ascii by wf (Z.to_nat n) lt :=
  decimal_digits n with Z_lt_dec n 10 => {
    | left _ => [digit_char n];
    | right _ => decimal_digits (n / 10) ++ [digit_char (n mod 10)] }.
Proof.
  assert (n / 10 < n) by (apply Z.div_lt; lia).
  assert (0 <= n / 10) by (apply Z.div_pos; lia).
  lia.
Qed.

(** ["%d"] applied to [v]. *)
Definition decimal (v : Z) : string :=
  string_of_list_ascii
    (if v <? 0 then "-"%char :: decimal_digits (- v) else decimal_digits v).

(** [snprintf(buf, size, "%d", v)] followed by a read of [buf]: the decimal
    rendering of [v], cut to [size - 1] characters. *)
Definition snprintf_d (size : nat) (v : Z) : string :=
  str_take (size - 1) (decimal v).

End CString.
Export CString.

(* ====================================================================== *)
(** ** emulator_bridge.h: constants, enumerations, structures *)
(* ====================================================================== *)

Definition REXOS_MAX_PATH : Z := 4096.
Definition REXOS_MAX_ARGS : Z := 64.
Definition REXOS_MAX_ENV : Z := 128.

Inductive rexos_error_t :=
| REXOS_OK
| REXOS_ERR_INVALID_ARG
| REXOS_ERR_NOT_FOUND
| REXOS_ERR_PERMISSION
| REXOS_ERR_FORK_FAILED
| REXOS_ERR_EXEC_FAILED
| REXOS_ERR_TIMEOUT
| REXOS_ERR_MEMORY
| REXOS_ERR_IO
| REXOS_ERR_INTERNAL.

(** The enumerators' integer values. *)
Definition rexos_error_code (e : rexos_error_t) : Z :=
  match e with
  | REXOS_OK => 0
  | REXOS_ERR_INVALID_ARG => -1
  | REXOS_ERR_NOT_FOUND => -2
  | REXOS_ERR_PERMISSION => -3
  | REXOS_ERR_FORK_FAILED => -4
  | REXOS_ERR_EXEC_FAILED => -5
  | REXOS_ERR_TIMEOUT => -6
  | REXOS_ERR_MEMORY => -7
  | REXOS_ERR_IO => -8
  | REXOS_ERR_INTERNAL => -100
  end.

Inductive rexos_emulator_type_t :=
| REXOS_EMU_RETROARCH
| REXOS_EMU_STANDALONE
| REXOS_EMU_PPSSPP
| REXOS_EMU_DRASTIC
| REXOS_EMU_CUSTOM.

Inductive rexos_proc_state_t :=
| REXOS_PROC_UNKNOWN
| REXOS_PROC_RUNNING
| REXOS_PROC_SLEEPING
| REXOS_PROC_STOPPED
| REXOS_PROC_ZOMBIE
| REXOS_PROC_DEAD.

(** [char key[256]; char value[1024]]. *)
Record rexos_env_var_t := {
  key : list ascii;
  value : list ascii
}.

Definition ENV_KEY_SIZE : nat := 256.
Definition ENV_VALUE_SIZE : nat := 1024.

Record rexos_launch_config_t := {
  type : rexos_emulator_type_t;
  executable : list ascii;
  rom_path : list ascii;
  core_path : list ascii;
  config_path : list ascii;
  args : list (option string);      (* char* args[REXOS_MAX_ARGS] *)
  arg_count : Z;
  env : list rexos_env_var_t;       (* rexos_env_var_t env[REXOS_MAX_ENV] *)
  env_count : Z;
  fullscreen : bool;
  verbose : bool;
  use_32bit : bool;
  load_state_slot : Z;
  cpu_affinity : Z;
  nice_value : Z;
  realtime_priority : bool
}.

Record rexos_process_info_t := {
  pi_pid : Z;
  pi_state : rexos_proc_state_t;
  pi_exit_code : Z;
  pi_start_time : Z;
  pi_cpu_time_ms : Z;
  pi_memory_kb : Z
}.

(* ====================================================================== *)
(** ** Launch configuration *)
(* ====================================================================== *)

Definition zero_env_var : rexos_env_var_t :=
  {| key := zeroed ENV_KEY_SIZE; value := zeroed ENV_VALUE_SIZE |}.

(** The structure after [memset(config, 0, sizeof *config)] and the default
    assignments of [rexos_launch_config_init]. *)
Definition default_config : rexos_launch_config_t :=
  {| type := REXOS_EMU_RETROARCH;
     executable := zeroed (Z.to_nat REXOS_MAX_PATH);
     rom_path := zeroed (Z.to_nat REXOS_MAX_PATH);
     core_path := zeroed (Z.to_nat REXOS_MAX_PATH);
     config_path := zeroed (Z.to_nat REXOS_MAX_PATH);
     args := replicate (Z.to_nat REXOS_MAX_ARGS) None;
     arg_count := 0;
     env := replicate (Z.to_nat REXOS_MAX_ENV) zero_env_var;
     env_count := 0;
     fullscreen := true;
     verbose := false;
     use_32bit := false;
     load_state_slot := -1;
     cpu_affinity := -1;
     nice_value := 0;
     realtime_priority := false |}.

(** [config] is the pointee, [None] a null pointer. *)
Definition rexos_launch_config_init (config : option rexos_launch_config_t)
  : option rexos_launch_config_t :=
  match config with
  | None => None
  | Some _ => Some default_config
  end.

Definition set_args (c : rexos_launch_config_t) (a : list (option string)) :=
  {| type := type c; executable := executable c; rom_path := rom_path c;
     core_path := core_path c; config_path := config_path c;
     args := a; arg_count := arg_count c;
     env := env c; env_count := env_count c;
     fullscreen := fullscreen c; verbose := verbose c; use_32bit := use_32bit c;
     load_state_slot := load_state_slot c; cpu_affinity := cpu_affinity c;
     nice_value := nice_value c; realtime_priority := realtime_priority c |}.

Definition set_arg_count (c : rexos_launch_config_t) (n : Z) :=
  {| type := type c; executable := executable c; rom_path := rom_path c;
     core_path := core_path c; config_path := config_path c;
     args := args c; arg_count := n;
     env := env c; env_count := env_count c;
     fullscreen := fullscreen c; verbose := verbose c; use_32bit := use_32bit c;
     load_state_slot := load_state_slot c; cpu_affinity := cpu_affinity c;
     nice_value := nice_value c; realtime_priority := realtime_priority c |}.

Definition set_env (c : rexos_launch_config_t) (e : list rexos_env_var_t) :=
  {| type := type c; executable := executable c; rom_path := rom_path c;
     core_path := core_path c; config_path := config_path c;
     args := args c; arg_count := arg_count c;
     env := e; env_count := env_count c;
     fullscreen := fullscreen c; verbose := verbose c; use_32bit := use_32bit c;
     load_state_slot := load_state_slot c; cpu_affinity := cpu_affinity c;
     nice_value := nice_value c; realtime_priority := realtime_priority c |}.

Definition set_env_count (c : rexos_launch_config_t) (n : Z) :=
  {| type := type c; executable := executable c; rom_path := rom_path c;
     core_path := core_path c; config_path := config_path c;
     args := args c; arg_count := arg_count c;
     env := env c; env_count := n;
     fullscreen := fullscreen c; verbose := verbose c; use_32bit := use_32bit c;
     load_state_slot := load_state_slot c; cpu_affinity := cpu_affinity c;
     nice_value := nice_value c; realtime_priority := realtime_priority c |}.

(** [strdup]: [None] when the allocation fails. *)
Definition strdup (alloc_ok : bool) (s : string) : option string :=
  if alloc_ok then Some s else None.

(** [rexos_launch_config_add_arg]. The result is the returned [int] and the
    configuration after the call. [alloc_ok] tells whether [strdup] finds
    memory. *)
Definition rexos_launch_config_add_arg (alloc_ok : bool)
    (config : option rexos_launch_config_t) (arg : option string)
  : Z * option rexos_launch_config_t :=
  match config, arg with
  | Some c, Some a =>
      if arg_count c >=? REXOS_MAX_ARGS - 1 then (-1, Some c)
      else
        let c1 := set_args c (<[Z.to_nat (arg_count c) := strdup alloc_ok a]> (args c)) in
        match args c1 !! Z.to_nat (arg_count c1) with
        | Some (Some _) => (0, Some (set_arg_count c1 (arg_count c1 + 1)))
        | _ => (-1, Some c1)
        end
  | _, _ => (-1, config)
  end.

(** [rexos_launch_config_add_env]. *)
Definition rexos_launch_config_add_env
    (config : option rexos_launch_config_t) (k v : option string)
  : Z * option rexos_launch_config_t :=
  match config, k, v with
  | Some c, Some ks, Some vs =>
      if env_count c >=? REXOS_MAX_ENV then (-1, Some c)
      else
        let i := Z.to_nat (env_count c) in
        let slot := default zero_env_var (env c !! i) in
        let slot1 := {| key := strncpy (key slot) ks (ENV_KEY_SIZE - 1);
                        value := value slot |} in
        let slot2 := {| key := key slot1;
                        value := strncpy (value slot1) vs (ENV_VALUE_SIZE - 1) |} in
        let c1 := set_env c (<[i := slot2]> (env c)) in
        (0, Some (set_env_count c1 (env_count c1 + 1)))
  | _, _, _ => (-1, config)
  end.

(* ====================================================================== *)
(** ** Argument vector *)
(* ====================================================================== *)

(** The array under construction and the write index [argc]. *)
Record argv_builder := {
  argv : list (option string);
  argc : Z
}.

(** [argv[argc++] = p]. *)
Definition argv_push (p : option string) (b : argv_builder) : argv_builder :=
  {| argv := <[Z.to_nat (argc b) := p]> (argv b); argc := argc b + 1 |}.

(** [strdup(config->args[i])]. *)
Definition dup_arg (strdup_ok : bool) (c : rexos_launch_config_t) (i : Z)
  : option string :=
  match args c !! Z.to_nat i with
  | Some (Some s) => strdup strdup_ok s
  | _ => None
  end.

(** [for (i = ...; i < config->arg_count && argc < max_args - 2; i++)
       argv[argc++] = strdup(config->args[i]);] *)
Equations? custom_args_loop (strdup_ok : bool) (c : rexos_launch_config_t)
    (max_args : Z) (i : Z) (b : argv_builder) : argv_builder
    by wf (Z.to_nat (arg_count c - i)) lt :=
  custom_args_loop strdup_ok c max_args i b with Z_lt_dec i (arg_count c) => {
    | left _ =>
        if argc b <? max_args - 2
        then custom_args_loop strdup_ok c max_args (i + 1)
               (argv_push (dup_arg strdup_ok c i) b)
        else b;
    | right _ => b }.
Proof. lia. Qed.

(** The block [if (config->type == REXOS_EMU_RETROARCH) { ... }] of
    [build_argv]; [slot_str] has 8 cells. *)
Definition retroarch_args (strdup_ok : bool) (c : rexos_launch_config_t)
    (b : argv_builder) : argv_builder :=
  let b :=
    if first_char_set (core_path c)
    then argv_push (strdup strdup_ok (cstr (core_path c)))
           (argv_push (strdup strdup_ok "-L") b)
    else b in
  let b :=
    if first_char_set (config_path c)
    then argv_push (strdup strdup_ok (cstr (config_path c)))
           (argv_push (strdup strdup_ok "--config") b)
    else b in
  let b :=
    if fullscreen c then argv_push (strdup strdup_ok "--fullscreen") b else b in
  let b :=
    if verbose c then argv_push (strdup strdup_ok "-v") b else b in
  if load_state_slot c >=? 0
  then argv_push (strdup strdup_ok (snprintf_d 8 (load_state_slot c)))
         (argv_push (strdup strdup_ok "-e") b)
  else b.

(** [build_argv]: [None] when [calloc] fails, otherwise the array of
    [32 + arg_count] cells. The results of [strdup] are stored unchecked, as
    in the source: a failed [strdup] leaves a null cell. *)
Definition build_argv (calloc_ok strdup_ok : bool) (c : rexos_launch_config_t)
  : option (list (option string)) :=
  let max_args := 32 + arg_count c in
  if negb calloc_ok then None
  else
    let b := {| argv := replicate (Z.to_nat max_args) None; argc := 0 |} in
    let b := argv_push (strdup strdup_ok (cstr (executable c))) b in
    let b :=
      match type c with
      | REXOS_EMU_RETROARCH => retroarch_args strdup_ok c b
      | _ => b
      end in
    let b := custom_args_loop strdup_ok c max_args 0 b in
    let b :=
      if first_char_set (rom_path c)
      then argv_push (strdup strdup_ok (cstr (rom_path c))) b
      else b in
    Some (<[Z.to_nat (argc b) := None]> (argv b)).

(** The argument vector a consumer such as [execvp] or [free_argv] sees:
    the entries before the first null pointer. *)
Fixpoint argv_strings (a : list (option string)) : list string :=
  match a with
  | Some s :: rest => s :: argv_strings rest
  | _ => []
  end.

(** A caller storing a path in one of the [REXOS_MAX_PATH] arrays. *)
Definition path_buffer (s : string) : list ascii :=
  strncpy (zeroed (Z.to_nat REXOS_MAX_PATH)) s (Z.to_nat REXOS_MAX_PATH - 1).

Definition with_paths (c : rexos_launch_config_t) (exe core rom cfg : string) :=
  {| type := type c; executable := path_buffer exe; rom_path := path_buffer rom;
     core_path := path_buffer core; config_path := path_buffer cfg;
     args := args c; arg_count := arg_count c;
     env := env c; env_count := env_count c;
     fullscreen := fullscreen c; verbose := verbose c; use_32bit := use_32bit c;
     load_state_slot := load_state_slot c; cpu_affinity := cpu_affinity c;
     nice_value := nice_value c; realtime_priority := realtime_priority c |}.

Definition with_slot (c : rexos_launch_config_t) (slot : Z) :=
  {| type := type c; executable := executable c; rom_path := rom_path c;
     core_path := core_path c; config_path := config_path c;
     args := args c; arg_count := arg_count c;
     env := env c; env_count := env_count c;
     fullscreen := fullscreen c; verbose := verbose c; use_32bit := use_32bit c;
     load_state_slot := slot; cpu_affinity := cpu_affinity c;
     nice_value := nice_value c; realtime_priority := realtime_priority c |}.

Definition snes_config : rexos_launch_config_t :=
  with_paths default_config "/bin/retroarch" "/cores/snes.so" "/roms/game.sfc" "".

(* ====================================================================== *)
(** ** The operating system as seen by the bridge *)
(* ====================================================================== *)

(** Constants of the Linux headers the bridge includes. *)
Definition INT_MAX : Z := 2147483647.
Definition WNOHANG : Z := 1.
Definition X_OK : Z := 1.
Definition SIGKILL : Z := 9.
Definition SIGTERM : Z := 15.
Definition EPERM : Z := 1.
Definition ESRCH : Z := 3.
Definition PRIO_PROCESS : Z := 0.
Definition STDIN_FILENO : Z := 0.

(** [WIFEXITED] and [WEXITSTATUS] of <sys/wait.h>. *)
Definition WIFEXITED (status : Z) : bool := Z.land status 127 =? 0.
Definition WEXITSTATUS (status : Z) : Z := Z.shiftr (Z.land status 65280) 8.

Inductive syscall :=
| sys_access (path : string) (mode : Z)
| sys_fork
| sys_waitpid (pid options : Z)
| sys_usleep (usec : Z)
| sys_kill (pid sig : Z)
| sys_fopen (path : string)
| sys_setpriority (which who prio : Z)
| sys_sched_setaffinity (cpu : Z)
| sys_sched_setscheduler_fifo
| sys_setenv (name val : string)
| sys_setsid
| sys_close (fd : Z)
| sys_open (path : string)
| sys_execvp (file : option string) (av : list string)
| sys_exit (status : Z).

(** The fields [rexos_get_process_info] scans out of [/proc/<pid>/stat]. *)
Record proc_stat_t := {
  st_state : ascii;
  st_utime : Z;
  st_stime : Z;
  st_vsize : Z;
  st_rss : Z
}.

(** How the system answers, and what it has been asked so far. *)
Record world := {
  trace : list syscall;              (* calls issued, oldest first *)
  children : list Z;                 (* processes created for the caller *)
  access_result : string -> Z -> Z;  (* access(path, mode) *)
  calloc_ok : bool;
  strdup_ok : bool;
  fork_result : Z;                   (* what the next fork returns *)
  waitpid_script : list (Z * Z);     (* successive waitpid answers:
                                        return value, status *)
  kill_result : Z -> Z -> Z * Z;     (* kill(pid, sig): return value, errno *)
  proc_files : string -> option proc_stat_t;  (* fopen + fscanf of a stat file *)
  clk_tck : Z;                       (* sysconf(_SC_CLK_TCK) *)
  pagesize : Z;                      (* sysconf(_SC_PAGESIZE) *)
  execvp_ok : bool
}.

Definition OS (A : Type) : Type := world -> A * world.

Definition ret {A} (a : A) : OS A := fun w => (a, w).

Definition bind {A B} (m : OS A) (f : A -> OS B) : OS B :=
  fun w => let (a, w1) := m w in f a w1.

Notation "x <- m ;; k" := (bind m (fun x => k))
  (at level 100, m at next level, right associativity).
Notation "m ;;; k" := (bind m (fun _ => k))
  (at level 100, right associativity).

Definition with_trace (w : world) (t : list syscall) : world :=
  {| trace := t; children := children w; access_result := access_result w;
     calloc_ok := calloc_ok w; strdup_ok := strdup_ok w;
     fork_result := fork_result w; waitpid_script := waitpid_script w;
     kill_result := kill_result w; proc_files := proc_files w;
     clk_tck := clk_tck w; pagesize := pagesize w; execvp_ok := execvp_ok w |}.

Definition with_children (w : world) (c : list Z) : world :=
  {| trace := trace w; children := c; access_result := access_result w;
     calloc_ok := calloc_ok w; strdup_ok := strdup_ok w;
     fork_result := fork_result w; waitpid_script := waitpid_script w;
     kill_result := kill_result w; proc_files := proc_files w;
     clk_tck := clk_tck w; pagesize := pagesize w; execvp_ok := execvp_ok w |}.

Definition with_script (w : world) (s : list (Z * Z)) : world :=
  {| trace := trace w; children := children w; access_result := access_result w;
     calloc_ok := calloc_ok w; strdup_ok := strdup_ok w;
     fork_result := fork_result w; waitpid_script := s;
     kill_result := kill_result w; proc_files := proc_files w;
     clk_tck := clk_tck w; pagesize := pagesize w; execvp_ok := execvp_ok w |}.

Definition emit (c : syscall) : OS unit :=
  fun w => (tt, with_trace w (trace w ++ [c])).

Definition access (path : string) (mode : Z) : OS Z :=
  emit (sys_access path mode) ;;; fun w => (access_result w path mode, w).

(** [fork] in the calling process: a positive answer is a new child. *)
Definition fork : OS Z :=
  emit sys_fork ;;;
  fun w =>
    let r := fork_result w in
    (r, if r >? 0 then with_children w (children w ++ [r]) else w).

(** [waitpid(pid, &status, options)]: the next scripted answer; with the
    script exhausted there is nothing to wait for and the call fails. *)
Definition waitpid (pid options : Z) : OS (Z * Z) :=
  emit (sys_waitpid pid options) ;;;
  fun w =>
    (hd (-1, 0) (waitpid_script w), with_script w (tl (waitpid_script w))).

Definition usleep (usec : Z) : OS unit := emit (sys_usleep usec).

Definition kill (pid sig : Z) : OS (Z * Z) :=
  emit (sys_kill pid sig) ;;; fun w => (kill_result w pid sig, w).

Definition fopen_proc_stat (path : string) : OS (option proc_stat_t) :=
  emit (sys_fopen path) ;;; fun w => (proc_files w path, w).

(* ====================================================================== *)
(** ** Process management *)
(* ====================================================================== *)

(** [for (i = 0; i < config->env_count; i++) setenv(key, value, 1);] over
    the entries the loop visits. *)
Fixpoint setenv_all (vars : list rexos_env_var_t) : OS unit :=
  match vars with
  | [] => ret tt
  | v :: rest =>
      emit (sys_setenv (cstr (key v)) (cstr (value v))) ;;; setenv_all rest
  end.

(** [setup_child_process]: the calls the child issues before [exec]; their
    results are ignored, as in the source. *)
Definition setup_child_process (c : rexos_launch_config_t) : OS unit :=
  (if negb (nice_value c =? 0)
   then emit (sys_setpriority PRIO_PROCESS 0 (nice_value c)) else ret tt) ;;;
  (if cpu_affinity c >=? 0
   then emit (sys_sched_setaffinity (cpu_affinity c)) else ret tt) ;;;
  (if realtime_priority c
   then emit sys_sched_setscheduler_fifo else ret tt) ;;;
  setenv_all (take (Z.to_nat (env_count c)) (env c)) ;;;
  emit sys_setsid.

(** How a call of [rexos_launch] ends: it returns to its caller (with the
    content of [*pid] after the call), or it is the forked child, which
    never returns: it becomes the emulator or leaves through [_exit]. *)
Inductive launch_result :=
| launch_returned (err : rexos_error_t) (pid : option Z)
| launch_child_exec (file : option string) (av : list string)
| launch_child_exit (status : Z).

(** The branch [child_pid == 0] of [rexos_launch]: the code the forked
    child runs on the argument vector [a]. *)
Definition child_process (c : rexos_launch_config_t) (a : list (option string))
  : OS launch_result :=
  setup_child_process c ;;;
  emit (sys_close STDIN_FILENO) ;;;
  emit (sys_open "/dev/null") ;;;
  emit (sys_execvp (default None (a !! 0%nat)) (argv_strings a)) ;;;
  ok <- (fun w => (execvp_ok w, w)) ;;
  if ok
  then ret (launch_child_exec (default None (a !! 0%nat)) (argv_strings a))
  else emit (sys_exit 127) ;;; ret (launch_child_exit 127).

(** [rexos_launch]. [pid] is the content of the caller's output cell,
    [None] a null pointer. [free_argv] releases memory only and has no
    counterpart here. *)
Definition rexos_launch (config : option rexos_launch_config_t)
    (pid : option Z) : OS launch_result :=
  match config, pid with
  | Some c, Some _ =>
      if negb (first_char_set (executable c))
      then ret (launch_returned REXOS_ERR_INVALID_ARG pid)
      else
        r <- access (cstr (executable c)) X_OK ;;
        if negb (r =? 0) then ret (launch_returned REXOS_ERR_NOT_FOUND pid)
        else
          av <- (fun w => (build_argv (calloc_ok w) (strdup_ok w) c, w)) ;;
          match av with
          | None => ret (launch_returned REXOS_ERR_MEMORY pid)
          | Some a =>
              child_pid <- fork ;;
              if child_pid <? 0
              then ret (launch_returned REXOS_ERR_FORK_FAILED pid)
              else if child_pid =? 0
              then child_process c a
              else ret (launch_returned REXOS_OK (Some child_pid))
          end
  | _, _ => ret (launch_returned REXOS_ERR_INVALID_ARG pid)
  end.

(** [if (exit_code && WIFEXITED(status)) *exit_code = WEXITSTATUS(status);] *)
Definition store_exit_code (exit_code : option Z) (status : Z) : option Z :=
  match exit_code with
  | Some old => if WIFEXITED status then Some (WEXITSTATUS status) else Some old
  | None => None
  end.

(** How a call of [rexos_wait] ends: it returns (with the content of
    [*exit_code] after the call), or [elapsed += 10] leaves the range of
    [int], where C gives the program no meaning. *)
Inductive wait_result :=
| wait_returned (err : rexos_error_t) (exit_code : option Z)
| wait_overflow.

(** The polling loop of [rexos_wait], entered with the current [elapsed]. *)
Equations? wait_poll_loop (pid timeout_ms : Z) (exit_code : option Z)
    (elapsed : Z) (w : world) : wait_result * world
    by wf (Z.to_nat (timeout_ms - elapsed)) lt :=
  wait_poll_loop pid timeout_ms exit_code elapsed w
    with Z_lt_dec elapsed timeout_ms => {
    | right _ => (wait_returned REXOS_ERR_TIMEOUT exit_code, w);
    | left _ with waitpid pid WNOHANG w => {
      | (rs, w1) =>
          if fst rs =? pid
          then (wait_returned REXOS_OK (store_exit_code exit_code (snd rs)), w1)
          else if fst rs <? 0
          then (wait_returned REXOS_ERR_IO exit_code, w1)
          else
            if elapsed + 10 >? INT_MAX
            then (wait_overflow, snd (usleep 10000 w1))
            else wait_poll_loop pid timeout_ms exit_code (elapsed + 10)
                   (snd (usleep 10000 w1)) } }.
Proof. lia. Qed.

(** The single [waitpid] after the mode selection of [rexos_wait]. *)
Definition wait_once (pid options : Z) (exit_code : option Z) : OS wait_result :=
  rs <- waitpid pid options ;;
  if fst rs =? pid
  then ret (wait_returned REXOS_OK (store_exit_code exit_code (snd rs)))
  else if (fst rs =? 0) && negb (Z.land options WNOHANG =? 0)
  then ret (wait_returned REXOS_ERR_TIMEOUT exit_code)
  else ret (wait_returned REXOS_ERR_IO exit_code).

(** [rexos_wait]. [exit_code] is the content of the caller's output cell,
    [None] a null pointer. *)
Definition rexos_wait (pid timeout_ms : Z) (exit_code : option Z)
  : OS wait_result :=
  if pid <=? 0 then ret (wait_returned REXOS_ERR_INVALID_ARG exit_code)
  else if timeout_ms =? 0 then wait_once pid WNOHANG exit_code
  else if timeout_ms >? 0 then wait_poll_loop pid timeout_ms exit_code 0
  else wait_once pid 0 exit_code.

Definition u64 (z : Z) : Z := z mod 2 ^ 64.

Definition proc_state_of_char (c : ascii) : rexos_proc_state_t :=
  if Ascii.eqb c "R" then REXOS_PROC_RUNNING
  else if Ascii.eqb c "S" then REXOS_PROC_SLEEPING
  else if Ascii.eqb c "T" then REXOS_PROC_STOPPED
  else if Ascii.eqb c "Z" then REXOS_PROC_ZOMBIE
  else REXOS_PROC_UNKNOWN.

Definition zero_info : rexos_process_info_t :=
  {| pi_pid := 0; pi_state := REXOS_PROC_UNKNOWN; pi_exit_code := 0;
     pi_start_time := 0; pi_cpu_time_ms := 0; pi_memory_kb := 0 |}.

(** [rexos_get_process_info]. [info] is the content of the caller's
    structure, [None] a null pointer; the result carries its content after
    the call. The path is formatted into [char path[64]]. The sum and product
    of the tick counts are [unsigned long] (64 bits); the product
    [rss * page_size] is a [long], divided with truncation and converted to
    [uint64_t]. The product of the two [long]s is taken in [Z]: it is the
    source's as long as it lies in the range of [long], beyond which C
    gives the multiplication no meaning. *)
Definition rexos_get_process_info (pid : Z) (info : option rexos_process_info_t)
  : OS (rexos_error_t * option rexos_process_info_t) :=
  match info with
  | None => ret (REXOS_ERR_INVALID_ARG, info)
  | Some _ =>
      if pid <=? 0 then ret (REXOS_ERR_INVALID_ARG, info)
      else
        let i0 := {| pi_pid := pid; pi_state := pi_state zero_info;
                     pi_exit_code := pi_exit_code zero_info;
                     pi_start_time := pi_start_time zero_info;
                     pi_cpu_time_ms := pi_cpu_time_ms zero_info;
                     pi_memory_kb := pi_memory_kb zero_info |} in
        let path := str_take 63 ("/proc/" ++ decimal pid ++ "/stat") in
        f <- fopen_proc_stat path ;;
        match f with
        | None =>
            ret (REXOS_OK,
                 Some {| pi_pid := pi_pid i0; pi_state := REXOS_PROC_DEAD;
                         pi_exit_code := pi_exit_code i0;
                         pi_start_time := pi_start_time i0;
                         pi_cpu_time_ms := pi_cpu_time_ms i0;
                         pi_memory_kb := pi_memory_kb i0 |})
        | Some st =>
            fun w =>
              let ticks_per_sec := clk_tck w in
              let cpu := u64 (u64 (u64 (st_utime st + st_stime st) * 1000)
                              / u64 ticks_per_sec) in
              let page_size := pagesize w in
              let mem := u64 (Z.quot (st_rss st * page_size) 1024) in
              ((REXOS_OK,
                Some {| pi_pid := pi_pid i0;
                        pi_state := proc_state_of_char (st_state st);
                        pi_exit_code := pi_exit_code i0;
                        pi_start_time := pi_start_time i0;
                        pi_cpu_time_ms := cpu;
                        pi_memory_kb := mem |}), w)
        end
  end.

(** [rexos_signal]: the second component of the answer of [kill] is
    [errno]. *)
Definition rexos_signal (pid sig : Z) : OS rexos_error_t :=
  if pid <=? 0 then ret REXOS_ERR_INVALID_ARG
  else
    r <- kill pid sig ;;
    if fst r =? 0 then ret REXOS_OK
    else if snd r =? ESRCH then ret REXOS_ERR_NOT_FOUND
    else if snd r =? EPERM then ret REXOS_ERR_PERMISSION
    else ret REXOS_ERR_IO.

Definition rexos_stop (pid : Z) : OS rexos_error_t := rexos_signal pid SIGTERM.

Definition rexos_kill (pid : Z) : OS rexos_error_t := rexos_signal pid SIGKILL.

(* ====================================================================== *)
(** ** performance.c: CPU usage *)
(* ====================================================================== *)

Module Performance.

(** IEEE 754 binary32, the C [float]: 24 bits of precision. *)
Definition float := spec_float.
Definition prec : Z := 24.
Definition emax : Z := 128.

(** [(float)n] for an unsigned integer, rounded to nearest even. *)
Definition float_of_u64 (n : Z) : float := binary_normalize prec emax n 0 false.
Definition fdiv (x y : float) : float := SFdiv prec emax x y.
Definition fmul (x y : float) : float := SFmul prec emax x y.
Definition f0 : float := S754_zero false.          (* 0.0f *)
Definition f100 : float := float_of_u64 100.        (* 100.0f *)

(** The seven counters of the first line of [/proc/stat]. *)
Record cpu_counters := {
  user : Z; nice : Z; system : Z; idle : Z;
  iowait : Z; irq : Z; softirq : Z
}.

(** The file-scope variables [prev_user] ... [prev_softirq]. *)
Record cpu_prev := {
  prev_user : Z; prev_nice : Z; prev_system : Z; prev_idle : Z;
  prev_iowait : Z; prev_irq : Z; prev_softirq : Z
}.

(** Their initial values at program start. *)
Definition cpu_prev_initial : cpu_prev :=
  {| prev_user := 0; prev_nice := 0; prev_system := 0; prev_idle := 0;
     prev_iowait := 0; prev_irq := 0; prev_softirq := 0 |}.

(** [calculate_cpu_usage]. [line] is the outcome of opening [/proc/stat]
    and scanning its first line ([None] when the file cannot be opened or
    read); [p] holds the file-scope variables, returned updated. *)
Definition calculate_cpu_usage (line : option cpu_counters) (p : cpu_prev)
  : float * cpu_prev :=
  match line with
  | None => (f0, p)
  | Some s =>
      let d_user := u64 (user s - prev_user p) in
      let d_nice := u64 (nice s - prev_nice p) in
      let d_system := u64 (system s - prev_system p) in
      let d_idle := u64 (idle s - prev_idle p) in
      let d_iowait := u64 (iowait s - prev_iowait p) in
      let d_irq := u64 (irq s - prev_irq p) in
      let d_softirq := u64 (softirq s - prev_softirq p) in
      let total := u64 (d_user + d_nice + d_system + d_idle
                        + d_iowait + d_irq + d_softirq) in
      let busy := u64 (d_user + d_nice + d_system + d_irq + d_softirq) in
      let p' := {| prev_user := user s; prev_nice := nice s;
                   prev_system := system s; prev_idle := idle s;
                   prev_iowait := iowait s; prev_irq := irq s;
                   prev_softirq := softirq s |} in
      if total =? 0 then (f0, p')
      else (fmul (fdiv (float_of_u64 busy) (float_of_u64 total)) f100, p')
  end.

(** A counter value an [unsigned long long] can hold. *)
Definition is_u64 (z : Z) : Prop := 0 <= z < 2 ^ 64.

(** A first line of [/proc/stat] on which only [user] has advanced. *)
Definition first_sample : cpu_counters :=
  {| user := 1; nice := 0; system := 0; idle := 0;
     iowait := 0; irq := 0; softirq := 0 |}.

End Performance.

(* ====================================================================== *)
(** ** Vocabulary of the properties *)
(* ====================================================================== *)

(** The arrays of a configuration have their declared sizes and the counts
    are not negative. *)
Definition arrays_ok (c : rexos_launch_config_t) : Prop :=
  length (args c) = Z.to_nat REXOS_MAX_ARGS /\
  length (env c) = Z.to_nat REXOS_MAX_ENV /\
  0 <= arg_count c /\ 0 <= env_count c.

(** A character array of [n] cells whose last cell is NUL. *)
Definition terminated (n : nat) (buf : list ascii) : Prop :=
  length buf = n /\ buf !! (n - 1)%nat = Some NUL.

(** Every environment slot still ends in the NUL that [memset] put there. *)
Definition env_terminated (c : rexos_launch_config_t) : Prop :=
  Forall (fun e => terminated ENV_KEY_SIZE (key e) /\
                   terminated ENV_VALUE_SIZE (value e)) (env c).

(** The extra arguments stored so far are [extra], in insertion order:
    [args[i]] points to the [i]-th of them and [arg_count] is their number. *)
Definition holds_args (c : rexos_launch_config_t) (extra : list string) : Prop :=
  arg_count c = Z.of_nat (length extra) /\
  take (length extra) (args c) = Some <$> extra.

(** The configuration after a successful [rexos_launch_config_add_arg]. *)
Definition push_arg (c : rexos_launch_config_t) (a : string) : rexos_launch_config_t :=
  match rexos_launch_config_add_arg true (Some c) (Some a) with
  | (_, Some c1) => c1
  | (_, None) => c
  end.

(** The argument sequence the specification prescribes for the
    retroarch-with-core variant, [slot_text] being the rendering of the
    save-state slot. *)
Definition spec_retroarch_flags (c : rexos_launch_config_t) (slot_text : string)
  : list string :=
  (if first_char_set (core_path c) then ["-L"; cstr (core_path c)] else [])
  ++ (if first_char_set (config_path c)
      then ["--config"; cstr (config_path c)] else [])
  ++ (if fullscreen c then ["--fullscreen"] else [])
  ++ (if verbose c then ["-v"] else [])
  ++ (if load_state_slot c >=? 0 then ["-e"; slot_text] else []).

Definition spec_retroarch_argv (c : rexos_launch_config_t) (slot_text : string)
    (extra : list string) : list string :=
  [cstr (executable c)]
  ++ spec_retroarch_flags c slot_text
  ++ extra
  ++ (if first_char_set (rom_path c) then [cstr (rom_path c)] else []).

(** A configuration holding 63 extra arguments, built through the API. *)
Definition config_63_args : rexos_launch_config_t :=
  Nat.iter 63 (fun c => push_arg c "x") default_config.

(** A key of 256 characters. *)
Definition key_256 : string := string_of_list_ascii (replicate 256 "k"%char).

(** A system in which every call succeeds: the executable is there, memory
    is available, [fork] yields process 4242, and no process has an entry
    in [/proc]. *)
Definition quiet_world : world :=
  {| trace := []; children := [];
     access_result := fun _ _ => 0;
     calloc_ok := true; strdup_ok := true;
     fork_result := 4242;
     waitpid_script := [];
     kill_result := fun _ _ => (0, 0);
     proc_files := fun _ => None;
     clk_tck := 100; pagesize := 4096;
     execvp_ok := true |}.

(** The same system without the executable: [access] fails. *)
Definition missing_exe_world : world :=
  {| trace := []; children := [];
     access_result := fun _ _ => -1;
     calloc_ok := true; strdup_ok := true;
     fork_result := 4242;
     waitpid_script := [];
     kill_result := fun _ _ => (0, 0);
     proc_files := fun _ => None;
     clk_tck := 100; pagesize := 4096;
     execvp_ok := true |}.

(** An array whose first cells point to the strings [l] and whose remaining
    [k] cells are null, with the write index after the last string. *)
Definition filled (l : list string) (k : nat) : argv_builder :=
  {| argv := (Some <$> l) ++ replicate k None; argc := Z.of_nat (length l) |}.

(** The answer the next [waitpid] gets. *)
Definition next_answer (w : world) : Z * Z := hd (-1, 0) (waitpid_script w).

(** The wait status of a process that left through [exit(code)]. *)
Definition exited_status (code : Z) : Z := code * 256.

(** A system whose process 4242 is found running by two polls and, by the
    third, has left through [exit(3)]. *)
Definition wait_world : world :=
  with_script quiet_world [(0, 0); (0, 0); (4242, exited_status 3)].

(** A system whose process 4242 is found running by the poll made at the
    call and has left through [exit(3)] by the time of the next poll, 10 ms
    later. *)
Definition late_exit_world : world :=
  with_script quiet_world [(0, 0); (4242, exited_status 3)].

(** [n] rounds of the polling loop that found the process running. *)
Definition idle_polls (pid : Z) (n : nat) : list syscall :=
  concat (replicate n [sys_waitpid pid WNOHANG; sys_usleep 10000]).

(** The answers of a run of polls all say "still running". *)
Definition all_running (answers : list (Z * Z)) : Prop :=
  Forall (fun a => fst a = 0) answers.

(** No [kill] with a non-positive target among the calls. *)
Definition no_wide_kill (t : list syscall) : Prop :=
  Forall (fun c => match c with sys_kill p _ => 0 < p | _ => True end) t.

(* ====================================================================== *)
(** ** emulator_bridge.c: utility functions *)
(* ====================================================================== *)

(** [rexos_strerror]: the argument is the integer value the [switch]
    inspects. *)
Definition rexos_strerror (err : Z) : string :=
  match err with
  | 0 => "Success"
  | -1 => "Invalid argument"
  | -2 => "Not found"
  | -3 => "Permission denied"
  | -4 => "Fork failed"
  | -5 => "Exec failed"
  | -6 => "Timeout"
  | -7 => "Memory allocation failed"
  | -8 => "I/O error"
  | -100 => "Internal error"
  | _ => "Unknown error"
  end.

(** The file-scope flag [g_initialized] and the handlers the bridge has
    installed: each entry is one
    [sigaction(SIGCHLD, {SIG_IGN, SA_NOCLDWAIT}, NULL)]. *)
Inductive bridge_call :=
| call_sigaction_sigchld_ignore.

Record bridge := {
  g_initialized : bool;
  bridge_calls : list bridge_call
}.

(** The state at program start. *)
Definition bridge_initial : bridge :=
  {| g_initialized := false; bridge_calls := [] |}.

Definition rexos_init (b : bridge) : rexos_error_t * bridge :=
  if g_initialized b then (REXOS_OK, b)
  else (REXOS_OK,
        {| g_initialized := true;
           bridge_calls := bridge_calls b ++ [call_sigaction_sigchld_ignore] |}).

Definition rexos_cleanup (b : bridge) : bridge :=
  {| g_initialized := false; bridge_calls := bridge_calls b |}.

(* ====================================================================== *)
(** ** performance.c: statistics, governor and frequency limits *)
(* ====================================================================== *)

Module Sysfs.

Import Performance.

(** What the three [sscanf] patterns of [get_memory_info] make of a line of
    [/proc/meminfo]; the patterns start with different words, so a line
    matches at most one of them. *)
Inductive meminfo_line :=
| line_MemTotal (kb : Z)
| line_MemFree (kb : Z)
| line_MemAvailable (kb : Z)
| line_other.

(** The files as performance.c meets them, and the texts it has written.
    Reading changes nothing; a write adds to [written]. *)
Record sysfs := {
  int_files : string -> option (option Z);
    (* fopen(path, "r"), [None] when it fails; then fscanf("%d"), [None]
       when no integer is read *)
  text_files : string -> option string;
    (* fopen(path, "r") and the content, for the files read with fgets *)
  meminfo : option (list meminfo_line);   (* /proc/meminfo, line by line *)
  stat_line : option cpu_counters;        (* the first line of /proc/stat *)
  writable : string -> bool;              (* access(path, W_OK) == 0 *)
  openable : string -> bool;              (* fopen(path, "w") succeeds *)
  written : list (string * string)        (* path and text of each write *)
}.

Definition CPU_TEMP_PATH : string := "/sys/class/thermal/thermal_zone0/temp".
Definition CPU_FREQ_PATH : string :=
  "/sys/devices/system/cpu/cpu0/cpufreq/scaling_cur_freq".
Definition BATTERY_CAPACITY_PATH : string :=
  "/sys/class/power_supply/battery/capacity".
Definition BATTERY_STATUS_PATH : string :=
  "/sys/class/power_supply/battery/status".
Definition BATTERY_TEMP_PATH : string := "/sys/class/power_supply/battery/temp".

Definition read_sysfs_int (fs : sysfs) (path : string) : Z :=
  match int_files fs path with
  | None => -1
  | Some None => -1
  | Some (Some value) => value
  end.

Definition newline : ascii := ascii_of_nat 10.

(** The characters [fgets] stores from the start of a file: up to [room]
    of them, ending after the first newline. *)
Fixpoint line_chars (room : nat) (content : list ascii) : list ascii :=
  match room, content with
  | S room', c :: rest =>
      if Ascii.eqb c newline then [c] else c :: line_chars room' rest
  | _, _ => []
  end.

(** [fgets(buf, len, f)] on a freshly opened file: [None] at end of file,
    else the characters stored in [buf] before the terminator [fgets]
    appends. A NUL byte of the file is stored like any other character. *)
Definition fgets (len : nat) (content : string) : option (list ascii) :=
  match content with
  | EmptyString => None
  | _ => Some (line_chars (len - 1) (list_ascii_of_string content))
  end.

(** [slen = strlen(buf); if (slen > 0 && buf[slen - 1] == '\n')
    buf[slen - 1] = '\0';] followed by a read of [buf] as a C string:
    [strlen] counts up to the first NUL of the buffer, and so does every
    later reader. *)
Definition strip_newline (buf : list ascii) : list ascii :=
  let s := until_nul buf in
  match last s with
  | Some c => if Ascii.eqb c newline then take (length s - 1) s else s
  | None => s
  end.

(** [read_sysfs_string]: [None] stands for the result -1, [Some s] for 0
    with [s] the C string the buffer then holds. *)
Definition read_sysfs_string (fs : sysfs) (path : string) (len : nat)
  : option string :=
  match text_files fs path with
  | None => None
  | Some content =>
      match fgets len content with
      | None => None
      | Some buf => Some (string_of_list_ascii (strip_newline buf))
      end
  end.

Definition log_write (fs : sysfs) (path text : string) : sysfs :=
  {| int_files := int_files fs; text_files := text_files fs;
     meminfo := meminfo fs; stat_line := stat_line fs;
     writable := writable fs; openable := openable fs;
     written := written fs ++ [(path, text)] |}.

Definition write_sysfs_string (path value : string) (fs : sysfs) : Z * sysfs :=
  if openable fs path then (0, log_write fs path value) else (-1, fs).

Definition write_sysfs_int (path : string) (value : Z) (fs : sysfs) : Z * sysfs :=
  if openable fs path then (0, log_write fs path (decimal value)) else (-1, fs).

(** The loop of [get_memory_info] over the lines, on the three outputs
    [(total, free, available)]. *)
Fixpoint scan_meminfo (lines : list meminfo_line) (acc : Z * Z * Z) : Z * Z * Z :=
  match lines with
  | [] => acc
  | l :: rest =>
      let '(total, free, available) := acc in
      scan_meminfo rest
        match l with
        | line_MemTotal v => (v, free, available)
        | line_MemFree v => (total, v, available)
        | line_MemAvailable v => (total, free, v)
        | line_other => acc
        end
  end.

Definition get_memory_info (fs : sysfs) : Z * Z * Z :=
  match meminfo fs with
  | None => (0, 0, 0)
  | Some lines => scan_meminfo lines (0, 0, 0)
  end.

Record rexos_perf_stats_t := {
  cpu_usage_percent : float;
  cpu_temperature : Z;
  cpu_frequency : Z;
  mem_total_kb : Z;
  mem_used_kb : Z;
  mem_free_kb : Z;
  battery_percent : Z;
  battery_charging : bool;
  battery_temp : Z;
  gpu_usage_percent : float;
  gpu_temperature : Z;
  fps : float;
  frame_time_ms : float
}.

Definition gpu_paths : list string :=
  ["/sys/class/devfreq/ffa30000.gpu/load";
   "/sys/kernel/gpu/gpu_busy";
   "/sys/class/kgsl/kgsl-3d0/gpu_busy_percentage"]%string.

Definition gpu_temp_paths : list string :=
  ["/sys/class/thermal/thermal_zone1/temp";
   "/sys/class/kgsl/kgsl-3d0/temp"]%string.

(** [for (i = 0; paths[i]; i++) { v = read_sysfs_int(paths[i]);
      if (v >= 0) { ... = v; break; } }]: the value the loop stops at. *)
Fixpoint first_readable (fs : sysfs) (paths : list string) : option Z :=
  match paths with
  | [] => None
  | p :: rest =>
      let v := read_sysfs_int fs p in
      if v >=? 0 then Some v else first_readable fs rest
  end.

(** [rexos_get_perf_stats]: the result, the content of [*stats] after the
    call and the file-scope variables of [calculate_cpu_usage]. *)
Definition rexos_get_perf_stats (fs : sysfs) (stats : option rexos_perf_stats_t)
    (p : cpu_prev) : rexos_error_t * option rexos_perf_stats_t * cpu_prev :=
  match stats with
  | None => (REXOS_ERR_INVALID_ARG, None, p)
  | Some _ =>
      let '(usage, p1) := calculate_cpu_usage (stat_line fs) p in
      let temp := read_sysfs_int fs CPU_TEMP_PATH in
      let freq := read_sysfs_int fs CPU_FREQ_PATH in
      let '(mem_total, mem_free, mem_available) := get_memory_info fs in
      let free_kb := if mem_available >? 0 then mem_available else mem_free in
      let bat := read_sysfs_int fs BATTERY_CAPACITY_PATH in
      let bat_temp := read_sysfs_int fs BATTERY_TEMP_PATH in
      (REXOS_OK,
       Some {| cpu_usage_percent := usage;
               cpu_temperature := if temp >=? 0 then Z.quot temp 1000 else 0;
               cpu_frequency := if freq >=? 0 then Z.quot freq 1000 else 0;
               mem_total_kb := mem_total;
               mem_used_kb := u64 (mem_total - free_kb);
               mem_free_kb := free_kb;
               battery_percent := if bat <? 0 then 100 else bat;
               battery_charging :=
                 match read_sysfs_string fs BATTERY_STATUS_PATH 32 with
                 | Some status => String.eqb status "Charging"
                 | None => false
                 end;
               battery_temp := if bat_temp >=? 0 then Z.quot bat_temp 10 else 0;
               gpu_usage_percent :=
                 match first_readable fs gpu_paths with
                 | Some load => float_of_u64 load
                 | None => f0
                 end;
               gpu_temperature :=
                 match first_readable fs gpu_temp_paths with
                 | Some t => Z.quot t 1000
                 | None => 0
                 end;
               fps := f0;
               frame_time_ms := f0 |},
       p1)
  end.

Definition valid_governors : list string :=
  ["performance"; "powersave"; "schedutil"; "ondemand"; "conservative";
   "userspace"]%string.

(** [for (i = 0; valid[i]; i++) if (strcmp(governor, valid[i]) == 0) ...] *)
Definition is_valid_governor (governor : string) : bool :=
  existsb (String.eqb governor) valid_governors.

(** The CPU numbers the loops [for (cpu = 0; cpu < 8; cpu++)] visit. *)
Definition cpu_numbers : list Z := [0; 1; 2; 3; 4; 5; 6; 7].

(** [snprintf(path, sizeof(path), ".../cpu%d/cpufreq/<file>", cpu)] into
    [char path[128]]. *)
Definition cpufreq_path (file : string) (cpu : Z) : string :=
  str_take 127 ("/sys/devices/system/cpu/cpu" ++ decimal cpu ++ "/cpufreq/" ++ file).

(** The loop of [rexos_set_cpu_governor] over the remaining CPUs. *)
Fixpoint governor_loop (cpus : list Z) (governor : string) (fs : sysfs)
  : rexos_error_t * sysfs :=
  match cpus with
  | [] => (REXOS_OK, fs)
  | cpu :: rest =>
      let path := cpufreq_path "scaling_governor" cpu in
      if negb (writable fs path) then governor_loop rest governor fs
      else
        let '(r, fs1) := write_sysfs_string path governor fs in
        if negb (r =? 0)
        then if cpu =? 0 then (REXOS_ERR_PERMISSION, fs1) else (REXOS_OK, fs1)
        else governor_loop rest governor fs1
  end.

Definition rexos_set_cpu_governor (governor : option string) (fs : sysfs)
  : rexos_error_t * sysfs :=
  match governor with
  | None => (REXOS_ERR_INVALID_ARG, fs)
  | Some g =>
      if negb (is_valid_governor g) then (REXOS_ERR_INVALID_ARG, fs)
      else governor_loop cpu_numbers g fs
  end.

(** A [uint32_t] passed where an [int] is expected. *)
Definition int_of_uint32 (v : Z) : Z := if v <? 2 ^ 31 then v else v - 2 ^ 32.

(** The loop of [rexos_set_cpu_freq]; the results of the writes are not
    looked at. *)
Fixpoint freq_loop (cpus : list Z) (min_freq max_freq : Z) (fs : sysfs) : sysfs :=
  match cpus with
  | [] => fs
  | cpu :: rest =>
      let fs1 :=
        if min_freq >? 0
        then let path := cpufreq_path "scaling_min_freq" cpu in
             if writable fs path
             then snd (write_sysfs_int path (int_of_uint32 min_freq) fs) else fs
        else fs in
      let fs2 :=
        if max_freq >? 0
        then let path := cpufreq_path "scaling_max_freq" cpu in
             if writable fs1 path
             then snd (write_sysfs_int path (int_of_uint32 max_freq) fs1) else fs1
        else fs1 in
      freq_loop rest min_freq max_freq fs2
  end.

Definition rexos_set_cpu_freq (min_freq max_freq : Z) (fs : sysfs)
  : rexos_error_t * sysfs :=
  (REXOS_OK, freq_loop cpu_numbers min_freq max_freq fs).

(** A device on which nothing can be read or written. *)
Definition bare_sysfs : sysfs :=
  {| int_files := fun _ => None; text_files := fun _ => None;
     meminfo := None; stat_line := None;
     writable := fun _ => false; openable := fun _ => false;
     written := [] |}.

(** A device with four CPUs whose cpufreq files can all be written, a
    battery at 80 percent that is charging, and 4 GB of memory. *)
Definition handheld_sysfs : sysfs :=
  {| int_files := fun p =>
       if String.eqb p BATTERY_CAPACITY_PATH then Some (Some 80)
       else if String.eqb p CPU_TEMP_PATH then Some (Some 45500)
       else None;
     text_files := fun p =>
       if String.eqb p BATTERY_STATUS_PATH
       then Some (String.append "Charging" (String newline EmptyString))
       else None;
     meminfo := Some [line_MemTotal 4000000; line_MemFree 1000000;
                      line_other; line_MemAvailable 2500000];
     stat_line := None;
     writable := fun p =>
       existsb (fun cpu =>
                  String.eqb p (cpufreq_path "scaling_governor" cpu)
                  || String.eqb p (cpufreq_path "scaling_min_freq" cpu)
                  || String.eqb p (cpufreq_path "scaling_max_freq" cpu))
               [0; 1; 2; 3];
     openable := fun _ => true;
     written := [] |}.

(** The counters of [/proc/meminfo] fit the [unsigned long long] they are
    scanned into. *)
Definition line_u64 (l : meminfo_line) : Prop :=
  match l with
  | line_MemTotal v | line_MemFree v | line_MemAvailable v => 0 <= v < 2 ^ 64
  | line_other => True
  end.

(** The integer files hold values of type [int]. *)
Definition int_files_ok (fs : sysfs) : Prop :=
  forall path v, int_files fs path = Some (Some v) -> - 2 ^ 31 <= v < 2 ^ 31.

(** The same files with [l] as the texts written. *)
Definition with_written (fs : sysfs) (l : list (string * string)) : sysfs :=
  {| int_files := int_files fs; text_files := text_files fs;
     meminfo := meminfo fs; stat_line := stat_line fs;
     writable := writable fs; openable := openable fs;
     written := l |}.

(** The files answer as before; only texts have been written. *)
Definition same_files (fs fs1 : sysfs) : Prop :=
  int_files fs1 = int_files fs /\ text_files fs1 = text_files fs /\
  meminfo fs1 = meminfo fs /\ stat_line fs1 = stat_line fs /\
  writable fs1 = writable fs /\ openable fs1 = openable fs.

(** A write of [text] to the file [file] of one of the eight CPUs. *)
Definition cpufreq_write (file text : string) (e : string * string) : Prop :=
  snd e = text /\ exists cpu, In cpu cpu_numbers /\ fst e = cpufreq_path file cpu.

(** No line of the kind of [MemAvailable] (resp. [MemFree]) in a list. *)
Definition no_MemAvailable (lines : list meminfo_line) : Prop :=
  Forall (fun l => match l with line_MemAvailable _ => False | _ => True end) lines.

Definition no_MemFree (lines : list meminfo_line) : Prop :=
  Forall (fun l => match l with line_MemFree _ => False | _ => True end) lines.

(** The entries [rexos_set_cpu_freq] asks to write for one CPU: the lower
    limit, then the upper limit, each only when it is not zero. *)
Definition freq_requests (min_freq max_freq : Z) (cpu : Z)
  : list (string * string) :=
  (if min_freq >? 0
   then [(cpufreq_path "scaling_min_freq" cpu, decimal min_freq)] else [])
  ++ (if max_freq >? 0
      then [(cpufreq_path "scaling_max_freq" cpu, decimal max_freq)] else []).

(** The file of an entry passes [access(path, W_OK)] and can be opened. *)
Definition can_write (fs : sysfs) (e : string * string) : bool :=
  writable fs (fst e) && openable fs (fst e).

(** The status file of the battery holds [content]. *)
Definition with_status (fs : sysfs) (content : string) : sysfs :=
  {| int_files := int_files fs;
     text_files := fun p =>
       if String.eqb p BATTERY_STATUS_PATH then Some content else text_files fs p;
     meminfo := meminfo fs; stat_line := stat_line fs;
     writable := writable fs; openable := openable fs;
     written := written fs |}.

(** The cpufreq files of CPU 0 pass [access] but cannot be opened. *)
Definition locked_sysfs : sysfs :=
  {| int_files := fun _ => None; text_files := fun _ => None;
     meminfo := None; stat_line := None;
     writable := fun _ => true; openable := fun _ => false;
     written := [] |}.

(** [stats] as a caller may pass it: any content. *)
Definition stale_stats : rexos_perf_stats_t :=
  {| cpu_usage_percent := f100; cpu_temperature := 7; cpu_frequency := 7;
     mem_total_kb := 7; mem_used_kb := 7; mem_free_kb := 7;
     battery_percent := 7; battery_charging := true; battery_temp := 7;
     gpu_usage_percent := f100; gpu_temperature := 7; fps := f100;
     frame_time_ms := f100 |}.

End Sysfs.

(* ====================================================================== *)
(** ** retroarch_hook.c: display brightness *)
(* ====================================================================== *)

Module Display.

Import Sysfs.

Definition BRIGHTNESS_PATH : string :=
  "/sys/class/backlight/backlight/brightness".
Definition BRIGHTNESS_MAX_PATH : string :=
  "/sys/class/backlight/backlight/max_brightness".

(** retroarch_hook.c has its own static [read_sysfs_int] and
    [write_sysfs_int]; their text is that of the two functions of
    performance.c, embedded as [Sysfs.read_sysfs_int] and
    [Sysfs.write_sysfs_int]. *)
Definition rexos_get_brightness (fs : sysfs) : Z :=
  read_sysfs_int fs BRIGHTNESS_PATH.

Definition rexos_set_brightness (brightness : Z) (fs : sysfs)
  : rexos_error_t * sysfs :=
  let max_brightness := read_sysfs_int fs BRIGHTNESS_MAX_PATH in
  let max_brightness := if max_brightness <? 0 then 255 else max_brightness in
  let brightness := if brightness <? 0 then 0 else brightness in
  let brightness :=
    if brightness >? max_brightness then max_brightness else brightness in
  let '(r, fs1) := write_sysfs_int BRIGHTNESS_PATH brightness fs in
  if negb (r =? 0) then (REXOS_ERR_PERMISSION, fs1) else (REXOS_OK, fs1).

(** The upper bound [rexos_set_brightness] works with. *)
Definition brightness_limit (fs : sysfs) : Z :=
  if read_sysfs_int fs BRIGHTNESS_MAX_PATH <? 0 then 255
  else read_sysfs_int fs BRIGHTNESS_MAX_PATH.

(** A panel at brightness 100 of 200 whose files can be written. *)
Definition panel_sysfs : sysfs :=
  {| int_files := fun p =>
       if String.eqb p BRIGHTNESS_MAX_PATH then Some (Some 200)
       else if String.eqb p BRIGHTNESS_PATH then Some (Some 100)
       else None;
     text_files := fun _ => None;
     meminfo := None; stat_line := None;
     writable := fun _ => true; openable := fun _ => true;
     written := [] |}.

End Display.

(* ====================================================================== *)
(** ** input_remap.c: deadzone and button map *)
(* ====================================================================== *)

Module InputRemap.

Record rexos_button_map_t := { from : Z; to : Z }.

(** The file-scope variables [g_deadzone], [g_button_map[32]] and
    [g_button_map_count]. *)
Record input_state := {
  g_deadzone : Z;
  g_button_map : list rexos_button_map_t;
  g_button_map_count : Z
}.

Definition BUTTON_MAP_SIZE : Z := 32.

Definition input_initial : input_state :=
  {| g_deadzone := 4096;
     g_button_map := replicate (Z.to_nat BUTTON_MAP_SIZE) {| from := 0; to := 0 |};
     g_button_map_count := 0 |}.

(** What [rexos_set_deadzone] meets when it opens the RetroArch
    configuration: whether [fopen] succeeds, and whether the [malloc] of the
    buffer for its content does. *)
Record ra_config := {
  cfg_opens : bool;
  cfg_malloc_ok : bool
}.

Definition rexos_get_deadzone (s : input_state) : Z := g_deadzone s.

(** [rexos_set_deadzone]: the content read from the file is searched with
    [strstr] and then freed; nothing is written. *)
Definition rexos_set_deadzone (deadzone : Z) (cfg : ra_config) (s : input_state)
  : rexos_error_t * input_state :=
  if (deadzone <? 0) || (deadzone >? 32767) then (REXOS_ERR_INVALID_ARG, s)
  else
    let s1 := {| g_deadzone := deadzone; g_button_map := g_button_map s;
                 g_button_map_count := g_button_map_count s |} in
    if negb (cfg_opens cfg) then (REXOS_OK, s1)
    else if negb (cfg_malloc_ok cfg) then (REXOS_ERR_MEMORY, s1)
    else (REXOS_OK, s1).

(** [rexos_apply_button_map]. [map] is the caller's array, [None] a null
    pointer. [memcpy] reads [count] entries of it: with fewer entries in the
    array the read leaves it, and the result is [None]. *)
Definition rexos_apply_button_map (map : option (list rexos_button_map_t))
    (count : Z) (s : input_state) : option (rexos_error_t * input_state) :=
  match map, count >? 0 with
  | None, true => Some (REXOS_ERR_INVALID_ARG, s)
  | _, _ =>
      let count := if count >? BUTTON_MAP_SIZE then BUTTON_MAP_SIZE else count in
      if count >? 0
      then match map with
           | Some m =>
               let n := Z.to_nat count in
               if (n <=? length m)%nat
               then Some (REXOS_OK,
                          {| g_deadzone := g_deadzone s;
                             g_button_map := take n m ++ drop n (g_button_map s);
                             g_button_map_count := count |})
               else None
           | None => Some (REXOS_ERR_INVALID_ARG, s)
           end
      else Some (REXOS_OK,
                 {| g_deadzone := g_deadzone s;
                    g_button_map := g_button_map s;
                    g_button_map_count := count |})
  end.

(** The loop of [apply_mapping] over the entries in use; the entry's [to]
    is returned as an [unsigned short]. *)
Fixpoint mapping_loop (entries : list rexos_button_map_t) (code : Z) : Z :=
  match entries with
  | [] => code
  | e :: rest =>
      if from e =? code then to e mod 2 ^ 16 else mapping_loop rest code
  end.

Definition apply_mapping (code : Z) (s : input_state) : Z :=
  mapping_loop (take (Z.to_nat (g_button_map_count s)) (g_button_map s)) code.

(** The table has its 32 cells. *)
Definition table_ok (s : input_state) : Prop :=
  length (g_button_map s) = Z.to_nat BUTTON_MAP_SIZE.

(** Swap of the buttons A and B, followed by a second entry for A. *)
Definition swap_a_b : list rexos_button_map_t :=
  [ {| from := 304; to := 305 |}; {| from := 305; to := 304 |};
    {| from := 304; to := 307 |} ].

End InputRemap.

(* ====================================================================== *)
(** ** launcher.c: monitoring and stopping *)
(* ====================================================================== *)

Module Launcher.

(** The lines launcher.c prints to [stderr]; each ends with
    [strerror(errno)], which is not carried here. *)
Inductive diagnostic :=
| diag_wait_failed (pid : Z)
| diag_sigterm_failed (pid : Z)
| diag_sigkill_failed (pid : Z).

(** The system and what has been printed to [stderr]. *)
Record process := {
  os : world;
  stderr_lines : list diagnostic
}.

Definition lift {A} (m : OS A) (p : process) : A * process :=
  let (a, w) := m (os p) in
  (a, {| os := w; stderr_lines := stderr_lines p |}).

Definition complain (d : diagnostic) (p : process) : process :=
  {| os := os p; stderr_lines := stderr_lines p ++ [d] |}.

Definition monitor_emulator (pid : Z) (p : process) : Z * process :=
  if pid <=? 0 then (-1, p)
  else
    let (rs, p1) := lift (waitpid pid 0) p in
    if fst rs =? -1 then (-1, complain (diag_wait_failed pid) p1)
    else if WIFEXITED (snd rs) then (WEXITSTATUS (snd rs), p1)
    else (-1, p1).

Definition stop_emulator (pid : Z) (p : process) : Z * process :=
  if pid <=? 0 then (-1, p)
  else
    let (r, p1) := lift (kill pid SIGTERM) p in
    if fst r =? -1 then (-1, complain (diag_sigterm_failed pid) p1)
    else (0, p1).

Definition kill_emulator (pid : Z) (p : process) : Z * process :=
  if pid <=? 0 then (-1, p)
  else
    let (r, p1) := lift (kill pid SIGKILL) p in
    if fst r =? -1 then (-1, complain (diag_sigkill_failed pid) p1)
    else (0, p1).

(** [kill] answers 0 or -1, as POSIX has it. *)
Definition kill_posix (w : world) : Prop :=
  forall pid sig, fst (kill_result w pid sig) = 0
                  \/ fst (kill_result w pid sig) = -1.

(** A process that has printed nothing yet. *)
Definition fresh (w : world) : process := {| os := w; stderr_lines := [] |}.

End Launcher.

(* ====================================================================== *)
(** ** Vocabulary of the further properties *)
(* ====================================================================== *)

(** The argument sequence of the variants other than retroarch. *)
Definition spec_plain_argv (c : rexos_launch_config_t) (extra : list string)
  : list string :=
  [cstr (executable c)]
  ++ extra
  ++ (if first_char_set (rom_path c) then [cstr (rom_path c)] else []).

(** A configuration after a series of [rexos_launch_config_add_arg]. *)
Definition push_args (c : rexos_launch_config_t) (l : list string)
  : rexos_launch_config_t :=
  fold_left push_arg l c.

(** The configuration after a [rexos_launch_config_add_env], and after a
    series of them. *)
Definition push_env (c : rexos_launch_config_t) (kv : string * string)
  : rexos_launch_config_t :=
  match rexos_launch_config_add_env (Some c) (Some (fst kv)) (Some (snd kv)) with
  | (_, Some c1) => c1
  | (_, None) => c
  end.

Definition push_envs (c : rexos_launch_config_t) (l : list (string * string))
  : rexos_launch_config_t :=
  fold_left push_env l c.

(** The environment entries stored so far read back as [vars], in insertion
    order, and every slot still ends in NUL. *)
Definition holds_env (c : rexos_launch_config_t) (vars : list (string * string))
  : Prop :=
  env_count c = Z.of_nat (length vars) /\
  (fun e => (cstr (key e), cstr (value e))) <$> take (length vars) (env c) = vars.

(** What [rexos_launch_config_add_env] keeps of a pair. *)
Definition truncated_var (kv : string * string) : string * string :=
  (str_take 255 (fst kv), str_take 1023 (snd kv)).

(** The scheduling calls of [setup_child_process]. *)
Definition scheduling_calls (c : rexos_launch_config_t) : list syscall :=
  (if negb (nice_value c =? 0)
   then [sys_setpriority PRIO_PROCESS 0 (nice_value c)] else [])
  ++ (if cpu_affinity c >=? 0
      then [sys_sched_setaffinity (cpu_affinity c)] else [])
  ++ (if realtime_priority c then [sys_sched_setscheduler_fifo] else []).

(** The launch options [rexos_launch_config_add_arg] and
    [rexos_launch_config_add_env] leave alone. *)
Definition same_options (c c1 : rexos_launch_config_t) : Prop :=
  type c1 = type c /\ executable c1 = executable c /\
  rom_path c1 = rom_path c /\ core_path c1 = core_path c /\
  config_path c1 = config_path c /\ fullscreen c1 = fullscreen c /\
  verbose c1 = verbose c /\ load_state_slot c1 = load_state_slot c /\
  cpu_affinity c1 = cpu_affinity c /\ nice_value c1 = nice_value c /\
  realtime_priority c1 = realtime_priority c.

(** The strings [build_argv] is to produce for a configuration. *)
Definition spec_argv (c : rexos_launch_config_t) (extra : list string)
  : list string :=
  match type c with
  | REXOS_EMU_RETROARCH =>
      spec_retroarch_argv c (snprintf_d 8 (load_state_slot c)) extra
  | _ => spec_plain_argv c extra
  end.

(** A standalone emulator with two extra arguments. *)
Definition standalone_config : rexos_launch_config_t :=
  let c := push_args (with_paths default_config "/bin/ppsspp" "" "/roms/game.iso" "")
             ["--escape-exit"; "--pause-menu-exit"]%string in
  {| type := REXOS_EMU_STANDALONE; executable := executable c;
     rom_path := rom_path c; core_path := core_path c;
     config_path := config_path c; args := args c; arg_count := arg_count c;
     env := env c; env_count := env_count c; fullscreen := fullscreen c;
     verbose := verbose c; use_32bit := use_32bit c;
     load_state_slot := load_state_slot c; cpu_affinity := cpu_affinity c;
     nice_value := nice_value c; realtime_priority := realtime_priority c |}.

(** The [setenv] call that exports an environment slot. *)
Definition setenv_of_slot (e : rexos_env_var_t) : syscall :=
  sys_setenv (cstr (key e)) (cstr (value e)).

(** The [setenv] call for a pair as [rexos_launch_config_add_env] keeps it. *)
Definition setenv_of_var (kv : string * string) : syscall :=
  sys_setenv (fst (truncated_var kv)) (snd (truncated_var kv)).

(** Key and value are C strings. *)
Definition var_nul_free (kv : string * string) : Prop :=
  nul_free (fst kv) /\ nul_free (snd kv).

(** A retroarch configuration with a nice value and two variables. *)
Definition env_config : rexos_launch_config_t :=
  let c := push_envs snes_config
             [("SDL_VIDEODRIVER", "kmsdrm"); ("HOME", "/home/ark")]%string in
  {| type := type c; executable := executable c;
     rom_path := rom_path c; core_path := core_path c;
     config_path := config_path c; args := args c; arg_count := arg_count c;
     env := env c; env_count := env_count c; fullscreen := fullscreen c;
     verbose := verbose c; use_32bit := use_32bit c;
     load_state_slot := load_state_slot c; cpu_affinity := cpu_affinity c;
     nice_value := -5; realtime_priority := realtime_priority c |}.

(** The system as the forked child sees it: [fork] has returned 0. *)
Definition child_world : world :=
  {| trace := []; children := [];
     access_result := fun _ _ => 0;
     calloc_ok := true; strdup_ok := true;
     fork_result := 0;
     waitpid_script := [];
     kill_result := fun _ _ => (0, 0);
     proc_files := fun _ => None;
     clk_tck := 100; pagesize := 4096;
     execvp_ok := false |}.

(** A system short of memory for strings: [calloc] succeeds, every
    [strdup] fails. *)
Definition no_strdup_world : world :=
  {| trace := []; children := [];
     access_result := fun _ _ => 0;
     calloc_ok := true; strdup_ok := false;
     fork_result := 4242;
     waitpid_script := [];
     kill_result := fun _ _ => (0, 0);
     proc_files := fun _ => None;
     clk_tck := 100; pagesize := 4096;
     execvp_ok := true |}.

(** The wait status of a process ended by signal [sig] (1 to 126, no core
    dump): the signal number sits in the low seven bits. *)
Definition signaled_status (sig : Z) : Z := sig.

(** A system whose process 4242 is found running once and then has been
    ended by [SIGKILL]. *)
Definition killed_world : world :=
  with_script quiet_world [(0, 0); (4242, signaled_status SIGKILL)].

(** A system in which process 4242 has an entry in [/proc]. *)
Definition live_world : world :=
  {| trace := []; children := [4242];
     access_result := fun _ _ => 0;
     calloc_ok := true; strdup_ok := true;
     fork_result := 4242;
     waitpid_script := [];
     kill_result := fun _ _ => (0, 0);
     proc_files := fun p =>
       if String.eqb p "/proc/4242/stat"
       then Some {| st_state := "S"%char; st_utime := 150; st_stime := 50;
                    st_vsize := 1000000; st_rss := 2560 |}
       else None;
     clk_tck := 100; pagesize := 4096;
     execvp_ok := true |}.


(* ====================================================================== *)
(** * Properties *)
(* ====================================================================== *)

(** ** Character arrays *)

Section CStringFacts.

Implicit Types (l r buf dest : list ascii) (c : ascii) (s : string).

Lemma is_nul_NUL : is_nul NUL = true.
Proof. reflexivity. Qed.

Lemma is_nul_other c : c <> NUL -> is_nul c = false.
Proof. intros Hc. unfold is_nul. destruct (Ascii.ascii_dec c NUL); congruence. Qed.

Lemma until_nul_app l r :
  Forall (fun c => c <> NUL) l -> until_nul (l ++ r) = l ++ until_nul r.
Proof.
  induction 1 as [|c l Hc _ IH]; simpl; [reflexivity|].
  rewrite (is_nul_other c Hc), IH. reflexivity.
Qed.

Lemma until_nul_nul_free l :
  Forall (fun c => c <> NUL) l -> until_nul l = l.
Proof.
  intros H. rewrite <- (app_nil_r l) at 1.
  rewrite until_nul_app by assumption. simpl. apply app_nil_r.
Qed.

Lemma until_nul_padding n : until_nul (replicate n NUL ++ [NUL]) = [].
Proof. destruct n; reflexivity. Qed.

Lemma strncpy_length dest s n :
  (n <= length dest)%nat -> length (strncpy dest s n) = length dest.
Proof.
  intros Hn. unfold strncpy.
  rewrite length_app, length_take, length_app, length_replicate, length_drop.
  lia.
Qed.

(** Cells from index [n] on are not written. *)
Lemma strncpy_untouched dest s n i :
  (n <= i)%nat -> (n <= length dest)%nat ->
  strncpy dest s n !! i = dest !! i.
Proof.
  intros Hi Hn. unfold strncpy.
  assert (Hlen : length (take n (until_nul (list_ascii_of_string s)
                                 ++ replicate n NUL)) = n).
  { rewrite length_take, length_app, length_replicate. lia. }
  rewrite lookup_app_r by lia. rewrite Hlen, lookup_drop.
  f_equal. lia.
Qed.

(** What a reader finds after [strncpy(dest, src, n)] into an array of
    [n + 1] cells whose last cell is NUL: the first [n] characters. *)
Lemma strncpy_cstr dest s n :
  nul_free s -> length dest = S n -> dest !! n = Some NUL ->
  cstr (strncpy dest s n) = str_take n s.
Proof.
  intros Hs Hlen Hlast. unfold cstr, str_take, strncpy. f_equal.
  rewrite (until_nul_nul_free _ Hs).
  rewrite (drop_S _ _ _ Hlast), drop_ge by lia.
  rewrite take_app, take_replicate.
  rewrite <- app_assoc, until_nul_app by (apply Forall_take, Hs).
  rewrite until_nul_padding. apply app_nil_r.
Qed.

Lemma first_char_set_cstr buf :
  first_char_set buf = negb (String.eqb (cstr buf) "").
Proof.
  destruct buf as [|c rest]; [reflexivity|].
  unfold cstr. simpl. destruct (is_nul c); reflexivity.
Qed.

End CStringFacts.

Lemma nul_freeb_correct (s : string) : nul_freeb s = true -> nul_free s.
Proof.
  unfold nul_freeb, nul_free. rewrite forallb_forall, Forall_forall.
  intros H c Hc%list_elem_of_In Heq. specialize (H c Hc).
  subst c. discriminate H.
Qed.

(** ** Launch configuration: [add_arg] and [add_env] *)

Section LaunchConfigFacts.

Implicit Types (c : rexos_launch_config_t) (a k v : string).

Lemma add_arg_null alloc (cfg : option rexos_launch_config_t) :
  rexos_launch_config_add_arg alloc cfg None = (-1, cfg).
Proof. destruct cfg; reflexivity. Qed.

Lemma add_arg_full alloc c a :
  REXOS_MAX_ARGS - 1 <= arg_count c ->
  rexos_launch_config_add_arg alloc (Some c) (Some a) = (-1, Some c).
Proof.
  intros H. unfold rexos_launch_config_add_arg.
  destruct (Z.geb_spec (arg_count c) (REXOS_MAX_ARGS - 1)); [reflexivity | lia].
Qed.

Lemma add_arg_stored c a :
  arrays_ok c -> arg_count c < REXOS_MAX_ARGS - 1 ->
  rexos_launch_config_add_arg true (Some c) (Some a) =
    (0, Some (set_arg_count
                (set_args c (<[Z.to_nat (arg_count c) := Some a]> (args c)))
                (arg_count c + 1))).
Proof.
  intros (Hargs & _ & Hpos & _) Hlt. unfold rexos_launch_config_add_arg.
  destruct (Z.geb_spec (arg_count c) (REXOS_MAX_ARGS - 1)); [lia|].
  cbn [set_args args arg_count strdup].
  rewrite list_lookup_insert_eq; [reflexivity|].
  rewrite Hargs. unfold REXOS_MAX_ARGS in *. lia.
Qed.

Lemma add_env_full c k v :
  REXOS_MAX_ENV <= env_count c ->
  rexos_launch_config_add_env (Some c) (Some k) (Some v) = (-1, Some c).
Proof.
  intros H. unfold rexos_launch_config_add_env.
  destruct (Z.geb_spec (env_count c) REXOS_MAX_ENV); [reflexivity | lia].
Qed.

Lemma add_env_accepts c k v :
  env_count c < REXOS_MAX_ENV ->
  fst (rexos_launch_config_add_env (Some c) (Some k) (Some v)) = 0.
Proof.
  intros H. unfold rexos_launch_config_add_env.
  destruct (Z.geb_spec (env_count c) REXOS_MAX_ENV); [lia | reflexivity].
Qed.

End LaunchConfigFacts.

(** *** The invariants hold for every configuration built through the API *)

Lemma default_config_arrays_ok : arrays_ok default_config.
Proof. repeat split; vm_compute; congruence. Qed.

Lemma zero_env_var_terminated :
  terminated ENV_KEY_SIZE (key zero_env_var) /\
  terminated ENV_VALUE_SIZE (value zero_env_var).
Proof. repeat split; vm_compute; reflexivity. Qed.

Lemma default_config_env_terminated : env_terminated default_config.
Proof.
  unfold env_terminated, default_config; cbn [env].
  apply Forall_replicate, zero_env_var_terminated.
Qed.

Lemma add_arg_preserves alloc (c c1 : rexos_launch_config_t) (arg : option string) :
  snd (rexos_launch_config_add_arg alloc (Some c) arg) = Some c1 ->
  arrays_ok c -> env_terminated c ->
  arrays_ok c1 /\ env_terminated c1.
Proof.
  intros Hc1 Hok Hterm. unfold rexos_launch_config_add_arg in Hc1.
  destruct arg as [a|]; [|cbn [snd] in Hc1; injection Hc1 as <-; auto].
  destruct (arg_count c >=? REXOS_MAX_ARGS - 1);
    [cbn [snd] in Hc1; injection Hc1 as <-; auto|].
  destruct Hok as (Ha & He & Hp & Hq).
  destruct (args _ !! _) as [[s|]|]; cbn [snd] in Hc1; injection Hc1 as <-;
    (split; [|exact Hterm]); unfold arrays_ok;
    cbn [args env arg_count env_count set_args set_arg_count];
    rewrite length_insert; repeat split; auto; lia.
Qed.

Lemma add_env_preserves (c c1 : rexos_launch_config_t) (k v : option string) :
  snd (rexos_launch_config_add_env (Some c) k v) = Some c1 ->
  arrays_ok c -> env_terminated c ->
  arrays_ok c1 /\ env_terminated c1.
Proof.
  intros Hc1 Hok Hterm. unfold rexos_launch_config_add_env in Hc1.
  destruct k as [ks|]; [|cbn [snd] in Hc1; injection Hc1 as <-; auto].
  destruct v as [vs|]; [|cbn [snd] in Hc1; injection Hc1 as <-; auto].
  destruct (env_count c >=? REXOS_MAX_ENV);
    [cbn [snd] in Hc1; injection Hc1 as <-; auto|].
  cbn [snd] in Hc1; injection Hc1 as <-.
  destruct Hok as (Ha & He & Hp & Hq). split.
  - unfold arrays_ok; cbn [args env arg_count env_count set_env set_env_count].
    rewrite length_insert. repeat split; auto; lia.
  - unfold env_terminated in *; cbn [env set_env set_env_count].
    apply Forall_insert; [exact Hterm|]. cbn [key value].
    set (slot := default zero_env_var (env c !! Z.to_nat (env_count c))).
    assert (Hslot : terminated ENV_KEY_SIZE (key slot) /\
                    terminated ENV_VALUE_SIZE (value slot)).
    { subst slot. destruct (env c !! Z.to_nat (env_count c)) as [e|] eqn:E.
      - exact (proj1 (Forall_lookup _ _) Hterm _ _ E).
      - exact zero_env_var_terminated. }
    destruct Hslot as [[Hkl Hkz] [Hvl Hvz]].
    unfold terminated. rewrite !strncpy_length by (rewrite ?Hkl, ?Hvl; cbv; lia).
    rewrite !strncpy_untouched by (rewrite ?Hkl, ?Hvl; cbv; lia).
    auto.
Qed.

Lemma config_63_args_ok : arrays_ok config_63_args.
Proof. repeat split; vm_compute; congruence. Qed.

Lemma key_256_nul_free : nul_free key_256.
Proof. apply nul_freeb_correct. vm_compute. reflexivity. Qed.

(** *** Capacity *)

(** C5, as stated, fails: a configuration holding 63 extra arguments has not
    reached the capacity of 64, yet the next insertion is rejected. *)
Lemma add_arg_rejects_below_64 :
  ~ (forall (c : rexos_launch_config_t) (a : string),
       arrays_ok c ->
       (fst (rexos_launch_config_add_arg true (Some c) (Some a)) = -1
        <-> REXOS_MAX_ARGS <= arg_count c)).
Proof.
  intros H.
  destruct (H config_63_args "y"%string config_63_args_ok) as [Hrej _].
  assert (Hfull : REXOS_MAX_ARGS - 1 <= arg_count config_63_args)
    by (vm_compute; congruence).
  rewrite (add_arg_full true _ "y" Hfull) in Hrej.
  specialize (Hrej eq_refl). vm_compute in Hrej. congruence.
Qed.

(** C5 (amended). [rexos_launch_config_add_arg] rejects an insertion exactly
    when 63 ([REXOS_MAX_ARGS - 1]) arguments are stored, and
    [rexos_launch_config_add_env] exactly when 128 variables are stored; each
    returns -1, and a rejected call leaves the whole configuration, entries
    and counts, as it was. *)
Theorem capacity_rejection (c : rexos_launch_config_t) (a k v : string) :
  arrays_ok c ->
  (fst (rexos_launch_config_add_arg true (Some c) (Some a)) = -1
     <-> REXOS_MAX_ARGS - 1 <= arg_count c)
  /\ (REXOS_MAX_ARGS - 1 <= arg_count c ->
      forall alloc,
        rexos_launch_config_add_arg alloc (Some c) (Some a) = (-1, Some c))
  /\ (fst (rexos_launch_config_add_env (Some c) (Some k) (Some v)) = -1
        <-> REXOS_MAX_ENV <= env_count c)
  /\ (REXOS_MAX_ENV <= env_count c ->
      rexos_launch_config_add_env (Some c) (Some k) (Some v) = (-1, Some c)).
Proof.
  intros Hok. repeat split.
  - intros Hrej. destruct (Z_lt_le_dec (arg_count c) (REXOS_MAX_ARGS - 1)) as [Hlt|]; [|assumption].
    rewrite (add_arg_stored c a Hok Hlt) in Hrej. discriminate Hrej.
  - intros Hfull. rewrite (add_arg_full true c a Hfull). reflexivity.
  - intros Hfull alloc. apply add_arg_full, Hfull.
  - intros Hrej. destruct (Z_lt_le_dec (env_count c) REXOS_MAX_ENV) as [Hlt|]; [|assumption].
    rewrite (add_env_accepts c k v Hlt) in Hrej. discriminate Hrej.
  - intros Hfull. rewrite (add_env_full c k v Hfull). reflexivity.
  - apply add_env_full.
Qed.

Lemma capacity_rejection_witness :
  arrays_ok config_63_args /\
  rexos_launch_config_add_arg true (Some config_63_args) (Some "y"%string)
    = (-1, Some config_63_args).
Proof.
  split; [exact config_63_args_ok|].
  apply (capacity_rejection config_63_args "y" "k" "v" config_63_args_ok).
  vm_compute. congruence.
Defined.

(** *** Truncation of environment entries *)

(** C6, as stated, fails: a key of 256 characters is accepted, but what is
    stored is not the key cut to 256 characters. *)
Lemma add_env_key_not_cut_at_256 :
  ~ (forall (c : rexos_launch_config_t) (k v : string),
       arrays_ok c -> env_terminated c -> env_count c < REXOS_MAX_ENV ->
       nul_free k -> nul_free v ->
       exists c1 e,
         rexos_launch_config_add_env (Some c) (Some k) (Some v) = (0, Some c1)
         /\ env c1 !! Z.to_nat (env_count c) = Some e
         /\ cstr (key e) = str_take 256 k
         /\ cstr (value e) = str_take 1024 v).
Proof.
  intros H.
  assert (Hlt : env_count default_config < REXOS_MAX_ENV) by (vm_compute; reflexivity).
  assert (Hv : nul_free "v") by (apply nul_freeb_correct; reflexivity).
  destruct (H default_config key_256 "v"%string default_config_arrays_ok
              default_config_env_terminated Hlt key_256_nul_free Hv)
    as (c1 & e & Heq & Hlk & Hkey & _).
  assert (Hstored :
    match snd (rexos_launch_config_add_env (Some default_config)
                 (Some key_256) (Some "v"%string)) with
    | Some c => option_map (fun e => String.length (cstr (key e)))
                  (env c !! Z.to_nat (env_count default_config))
    | None => None
    end = Some 255%nat) by (vm_compute; reflexivity).
  rewrite Heq in Hstored. cbn [snd] in Hstored.
  rewrite Hlk in Hstored. cbn [option_map] in Hstored.
  rewrite Hkey in Hstored. vm_compute in Hstored. discriminate Hstored.
Qed.

(** C6 (amended). For every key and value accepted by
    [rexos_launch_config_add_env], the stored key reads back as the input key
    cut to 255 characters and the stored value as the input value cut to 1023
    characters (the arrays of 256 and 1024 cells keep their last cell for the
    terminator), and the call returns 0: truncation is silent. *)
Theorem add_env_truncates (c : rexos_launch_config_t) (k v : string) :
  arrays_ok c -> env_terminated c -> env_count c < REXOS_MAX_ENV ->
  nul_free k -> nul_free v ->
  exists c1 e,
    rexos_launch_config_add_env (Some c) (Some k) (Some v) = (0, Some c1)
    /\ env_count c1 = env_count c + 1
    /\ env c1 !! Z.to_nat (env_count c) = Some e
    /\ cstr (key e) = str_take 255 k
    /\ cstr (value e) = str_take 1023 v.
Proof.
  intros (_ & Henv & _ & Hpos) Hterm Hlt Hk Hv.
  assert (Hi : (Z.to_nat (env_count c) < length (env c))%nat).
  { rewrite Henv. unfold REXOS_MAX_ENV in *. lia. }
  destruct (lookup_lt_is_Some_2 _ _ Hi) as [slot Hslot].
  destruct (proj1 (Forall_lookup _ _) Hterm _ _ Hslot)
    as [[Hkl Hkz] [Hvl Hvz]].
  unfold rexos_launch_config_add_env.
  destruct (Z.geb_spec (env_count c) REXOS_MAX_ENV); [lia|].
  rewrite Hslot. cbn [default from_option key value].
  eexists _, _. split; [reflexivity|].
  cbn [set_env_count set_env env env_count].
  split; [reflexivity|]. split; [apply list_lookup_insert_eq, Hi|].
  cbn [key value]. split.
  - exact (strncpy_cstr (key slot) k 255 Hk Hkl Hkz).
  - exact (strncpy_cstr (value slot) v 1023 Hv Hvl Hvz).
Qed.

Lemma add_env_truncates_witness :
  exists c1 e,
    rexos_launch_config_add_env (Some default_config) (Some key_256)
      (Some "v"%string) = (0, Some c1)
    /\ env_count c1 = env_count default_config + 1
    /\ env c1 !! Z.to_nat (env_count default_config) = Some e
    /\ cstr (key e) = str_take 255 key_256
    /\ cstr (value e) = str_take 1023 "v".
Proof.
  apply (add_env_truncates default_config key_256 "v").
  - exact default_config_arrays_ok.
  - exact default_config_env_terminated.
  - vm_compute. reflexivity.
  - exact key_256_nul_free.
  - apply nul_freeb_correct. reflexivity.
Defined.

(** *** Null and empty arguments *)

(** C7, as stated, fails: an empty string is a value like any other, it is
    stored and the call returns 0. *)
Lemma add_arg_accepts_empty_string :
  ~ (forall (c : rexos_launch_config_t) (v : option string),
       v = None \/ v = Some ""%string ->
       rexos_launch_config_add_arg true (Some c) v
         = (rexos_error_code REXOS_ERR_INVALID_ARG, Some c)).
Proof.
  intros H. specialize (H default_config (Some ""%string) (or_intror eq_refl)).
  rewrite (add_arg_stored default_config "" default_config_arrays_ok) in H
    by (vm_compute; reflexivity).
  unfold rexos_error_code in H. discriminate H.
Qed.

(** C7 (amended). For every configuration, [rexos_launch_config_add_arg]
    fails with -1, the value of InvalidArgument, whenever the value is null,
    and leaves the configuration unchanged; an empty value is not rejected:
    below the capacity it is stored at index [arg_count], the count grows by
    one and the call returns 0. *)
Theorem add_arg_null_rejected (alloc : bool)
    (cfg : option rexos_launch_config_t) (c : rexos_launch_config_t) :
  rexos_launch_config_add_arg alloc cfg None
    = (rexos_error_code REXOS_ERR_INVALID_ARG, cfg)
  /\ (arrays_ok c -> arg_count c < REXOS_MAX_ARGS - 1 ->
      exists c1,
        rexos_launch_config_add_arg true (Some c) (Some ""%string) = (0, Some c1)
        /\ arg_count c1 = arg_count c + 1
        /\ args c1 !! Z.to_nat (arg_count c) = Some (Some ""%string)
        /\ forall i, i <> Z.to_nat (arg_count c) -> args c1 !! i = args c !! i).
Proof.
  split; [apply add_arg_null|]. intros Hok Hlt.
  rewrite (add_arg_stored c "" Hok Hlt). eexists. split; [reflexivity|].
  cbn [set_arg_count set_args arg_count args]. split; [reflexivity|].
  split.
  - apply list_lookup_insert_eq.
    destruct Hok as (Ha & _ & Hp & _). rewrite Ha.
    unfold REXOS_MAX_ARGS in *. lia.
  - intros i Hi. apply list_lookup_insert_ne. congruence.
Qed.

Lemma add_arg_null_rejected_witness :
  rexos_launch_config_add_arg true (Some default_config) None
    = (rexos_error_code REXOS_ERR_INVALID_ARG, Some default_config)
  /\ exists c1,
       rexos_launch_config_add_arg true (Some default_config) (Some ""%string)
         = (0, Some c1)
       /\ arg_count c1 = arg_count default_config + 1
       /\ args c1 !! Z.to_nat (arg_count default_config) = Some (Some ""%string).
Proof.
  destruct (add_arg_null_rejected true (Some default_config) default_config)
    as [Hnull Hempty].
  split; [exact Hnull|].
  destruct (Hempty default_config_arrays_ok ltac:(vm_compute; reflexivity))
    as (c1 & H1 & H2 & H3 & _).
  exists c1. auto.
Defined.

(** ** The argument vector *)

Section ArgvFacts.

Implicit Types (c : rexos_launch_config_t) (l extra : list string) (k : nat).

Lemma argv_strings_filled l k : argv_strings (argv (filled l k)) = l.
Proof.
  unfold filled; cbn [argv]. induction l as [|s l IH]; simpl.
  - destruct k; reflexivity.
  - f_equal. exact IH.
Qed.

(** [argv[argc++] = s] on an array with a free cell. *)
Lemma push_filled s l k :
  (0 < k)%nat -> argv_push (Some s) (filled l k) = filled (l ++ [s]) (k - 1).
Proof.
  intros Hk. destruct k as [|k]; [lia|].
  unfold argv_push, filled; cbn [argv argc]. f_equal.
  - rewrite Nat2Z.id.
    replace (length l) with (length (Some <$> l) + 0)%nat
      by (rewrite length_fmap; lia).
    rewrite insert_app_r. cbn [replicate]. simpl.
    rewrite Nat.sub_0_r, fmap_app, <- app_assoc. reflexivity.
  - rewrite length_app. simpl. lia.
Qed.

(** [argv[argc] = NULL] on an array with a free cell changes nothing. *)
Lemma terminate_filled l k :
  (0 < k)%nat ->
  <[Z.to_nat (argc (filled l k)) := None]> (argv (filled l k)) = argv (filled l k).
Proof.
  intros Hk. destruct k as [|k]; [lia|].
  unfold filled; cbn [argv argc]. rewrite Nat2Z.id.
  replace (length l) with (length (Some <$> l) + 0)%nat
    by (rewrite length_fmap; lia).
  rewrite insert_app_r. reflexivity.
Qed.

Lemma spec_retroarch_flags_length c t :
  (length (spec_retroarch_flags c t) <= 8)%nat.
Proof.
  unfold spec_retroarch_flags.
  destruct (first_char_set (core_path c)), (first_char_set (config_path c)),
    (fullscreen c), (verbose c), (load_state_slot c >=? 0); simpl; lia.
Qed.

(** The type-specific block writes the prescribed flags, in order. *)
Lemma retroarch_args_filled c l k :
  (8 <= k)%nat ->
  retroarch_args true c (filled l k) =
    filled (l ++ spec_retroarch_flags c (snprintf_d 8 (load_state_slot c)))
           (k - length (spec_retroarch_flags c (snprintf_d 8 (load_state_slot c)))).
Proof.
  intros Hk. unfold retroarch_args, spec_retroarch_flags, strdup.
  destruct (first_char_set (core_path c)), (first_char_set (config_path c)),
    (fullscreen c), (verbose c), (load_state_slot c >=? 0);
    rewrite ?push_filled by lia;
    rewrite <- ?app_assoc; cbn [app length];
    rewrite ?app_nil_r; f_equal; lia.
Qed.

(** The loop over the extra arguments never meets its bound on [argc]:
    it copies every remaining argument. *)
Lemma custom_args_loop_filled c max_args todo :
  forall copied l k,
    holds_args c (copied ++ todo) ->
    Z.of_nat (length l + length todo) < max_args - 1 ->
    (length todo <= k)%nat ->
    custom_args_loop true c max_args (Z.of_nat (length copied)) (filled l k)
      = filled (l ++ todo) (k - length todo).
Proof.
  induction todo as [|t todo IH]; intros copied l k [Hcount Hargs] Hroom Hk;
    rewrite custom_args_loop_equation_1; unfold custom_args_loop_unfold_clause_1.
  - rewrite app_nil_r in *.
    destruct (Z_lt_dec _ _); [lia|].
    cbn [length]. rewrite Nat.sub_0_r. reflexivity.
  - rewrite length_app in Hcount. cbn [length] in *.
    destruct (Z_lt_dec _ _); [|lia].
    assert (Hguard : (argc (filled l k) <? max_args - 2) = true).
    { apply Z.ltb_lt. cbn [filled argc]. lia. }
    rewrite Hguard.
    assert (Hdup : dup_arg true c (Z.of_nat (length copied)) = Some t).
    { unfold dup_arg. rewrite Nat2Z.id.
      assert (Hlk : take (length (copied ++ t :: todo)) (args c)
                      !! length copied = Some (Some t)).
      { rewrite Hargs, list_lookup_fmap, lookup_app_r by lia.
        rewrite Nat.sub_diag. reflexivity. }
      rewrite lookup_take_lt in Hlk
        by (rewrite length_app; cbn [length]; lia).
      rewrite Hlk. reflexivity. }
    rewrite Hdup, push_filled by lia.
    replace (Z.of_nat (length copied) + 1)
      with (Z.of_nat (length (copied ++ [t])))
      by (rewrite length_app; cbn [length]; lia).
    rewrite IH.
    + rewrite <- app_assoc. cbn [app]. f_equal. lia.
    + rewrite <- app_assoc. cbn [app]. split; [|exact Hargs].
      rewrite length_app. cbn [length]. lia.
    + rewrite length_app. cbn [length]. lia.
    + lia.
Qed.

(** What [build_argv] hands to [execvp] for the retroarch variant. The
    slot text is what [snprintf] leaves in [slot_str]. *)
Lemma build_argv_retroarch c extra :
  type c = REXOS_EMU_RETROARCH -> holds_args c extra ->
  exists a,
    build_argv true true c = Some a /\
    argv_strings a
      = spec_retroarch_argv c (snprintf_d 8 (load_state_slot c)) extra.
Proof.
  intros Htype Hextra. pose proof Hextra as [Hcount _].
  unfold build_argv. cbn [negb]. rewrite Htype, Hcount.
  set (flags := spec_retroarch_flags c (snprintf_d 8 (load_state_slot c))).
  pose proof (spec_retroarch_flags_length c (snprintf_d 8 (load_state_slot c)))
    as Hflags. fold flags in Hflags.
  replace {| argv := replicate (Z.to_nat (32 + Z.of_nat (length extra))) None;
             argc := 0 |}
    with (filled [] (32 + length extra)).
  2:{ unfold filled. cbn [fmap list_fmap app length]. do 2 f_equal. lia. }
  unfold strdup. rewrite push_filled by lia. cbn [app].
  rewrite retroarch_args_filled by lia. fold flags.
  pose proof (custom_args_loop_filled c (32 + Z.of_nat (length extra)) extra []
                ([cstr (executable c)] ++ flags)
                (32 + length extra - 1 - length flags) Hextra) as Hloop.
  cbn [length app] in Hloop. change (Z.of_nat 0) with 0 in Hloop.
  cbn [app]. rewrite Hloop
    by (try rewrite length_app; cbn [length]; lia).
  unfold spec_retroarch_argv. fold flags.
  destruct (first_char_set (rom_path c)).
  - rewrite push_filled by lia. eexists. split; [reflexivity|].
    rewrite terminate_filled by lia. rewrite argv_strings_filled.
    cbn [app]. rewrite <- !app_assoc. reflexivity.
  - eexists. split; [reflexivity|].
    rewrite terminate_filled by lia. rewrite argv_strings_filled.
    cbn [app]. rewrite !app_nil_r. reflexivity.
Qed.

End ArgvFacts.

(** ** Decimal rendering and [slot_str] *)

Lemma decimal_digits_length (k : nat) (n : Z) :
  0 <= n < 10 ^ Z.of_nat (S k) -> (length (decimal_digits n) <= S k)%nat.
Proof.
  revert n. induction k as [|k IH]; intros n Hn;
    rewrite decimal_digits_equation_1; unfold decimal_digits_unfold_clause_1;
    destruct (Z_lt_dec n 10) as [Hlt|Hge]; cbn [length]; try lia.
  rewrite length_app. cbn [length].
  rewrite Nat2Z.inj_succ, Z.pow_succ_r in Hn by lia.
  assert (Hq : 0 <= n / 10 < 10 ^ Z.of_nat (S k)).
  { split; [apply Z.div_pos; lia | apply Z.div_lt_upper_bound; lia]. }
  specialize (IH (n / 10) Hq). lia.
Qed.

(** Seven characters are enough for a slot below ten million: [slot_str]
    then holds the whole decimal rendering. *)
Lemma snprintf_d_exact (v : Z) :
  0 <= v < 10000000 -> snprintf_d 8 v = decimal v.
Proof.
  intros Hv. unfold snprintf_d, str_take, decimal.
  destruct (Z.ltb_spec v 0); [lia|].
  rewrite list_ascii_of_string_of_list_ascii. f_equal.
  apply take_ge. change (8 - 1)%nat with 7%nat.
  apply (decimal_digits_length 6 v). change (10 ^ Z.of_nat 7) with 10000000. lia.
Qed.

(** ** C1: the order of the argument vector *)

Lemma holds_args_default : holds_args default_config [].
Proof. split; reflexivity. Qed.

(** Insertion order: each accepted [add_arg] puts its value after the ones
    already stored. *)
Lemma holds_args_push (c : rexos_launch_config_t) (extra : list string) (a : string) :
  arrays_ok c -> arg_count c < REXOS_MAX_ARGS - 1 ->
  holds_args c extra -> holds_args (push_arg c a) (extra ++ [a]).
Proof.
  intros Hok Hlt [Hcount Hargs]. unfold push_arg.
  rewrite (add_arg_stored c a Hok Hlt).
  destruct Hok as (Hlen & _ & _ & _).
  assert (Hn : (length extra < length (args c))%nat).
  { rewrite Hlen. unfold REXOS_MAX_ARGS in *. lia. }
  split; cbn [set_arg_count set_args arg_count args].
  - rewrite length_app. cbn [length]. lia.
  - rewrite Hcount, Nat2Z.id, length_app. cbn [length].
    rewrite Nat.add_1_r. rewrite (take_S_r _ _ (Some a)).
    + rewrite take_insert_ge by lia. rewrite Hargs, fmap_app. reflexivity.
    + apply list_lookup_insert_eq, Hn.
Qed.

(** For a retroarch configuration whose slot is below ten million (or
    absent), [build_argv] yields the prescribed sequence: executable, [-L]
    and core, [--config] and path, [--fullscreen], [-v], [-e] and the slot
    in decimal, the extra arguments in insertion order, the ROM path. *)
Lemma build_argv_retroarch_order (c : rexos_launch_config_t) (extra : list string) :
  type c = REXOS_EMU_RETROARCH -> holds_args c extra ->
  load_state_slot c < 10000000 ->
  exists a,
    build_argv true true c = Some a /\
    argv_strings a = spec_retroarch_argv c (decimal (load_state_slot c)) extra.
Proof.
  intros Htype Hextra Hslot.
  destruct (build_argv_retroarch c extra Htype Hextra) as (a & Ha & Hstr).
  exists a. split; [exact Ha|]. rewrite Hstr.
  unfold spec_retroarch_argv, spec_retroarch_flags.
  destruct (Z.geb_spec (load_state_slot c) 0); [|reflexivity].
  rewrite snprintf_d_exact by lia. reflexivity.
Qed.

(** The example of the specification. *)
Lemma build_argv_snes_example :
  option_map argv_strings (build_argv true true snes_config)
    = Some ["/bin/retroarch"; "-L"; "/cores/snes.so"; "--fullscreen";
            "/roms/game.sfc"]%string.
Proof. vm_compute. reflexivity. Qed.

(** C1. The order is the prescribed one, but the slot is not always rendered
    in full: [slot_str] has 8 cells, so slot 12345678 reaches the emulator
    as ["1234567"], while its decimal rendering is ["12345678"]. *)
Theorem build_argv_slot_text_cut :
  option_map argv_strings
    (build_argv true true (with_slot snes_config 12345678))
    = Some ["/bin/retroarch"; "-L"; "/cores/snes.so"; "--fullscreen";
            "-e"; "1234567"; "/roms/game.sfc"]%string
  /\ decimal 12345678 = "12345678"%string
  /\ option_map argv_strings
       (build_argv true true (with_slot snes_config 12345678))
     <> Some (spec_retroarch_argv (with_slot snes_config 12345678)
                (decimal 12345678) []).
Proof. repeat split; vm_compute; congruence. Qed.

(** ** Signals *)

Lemma rexos_signal_nonpositive (pid sig : Z) (w : world) :
  pid <= 0 -> rexos_signal pid sig w = (REXOS_ERR_INVALID_ARG, w).
Proof.
  intros Hpid. unfold rexos_signal.
  destruct (Z.leb_spec pid 0); [reflexivity | lia].
Qed.

(** A call of [rexos_signal] adds at most one [kill] to the calls issued,
    and only for a positive target. *)
Lemma rexos_signal_trace (pid sig : Z) (w : world) :
  trace (snd (rexos_signal pid sig w))
    = trace w ++ (if pid <=? 0 then [] else [sys_kill pid sig]).
Proof.
  unfold rexos_signal. destruct (pid <=? 0).
  - cbn. rewrite app_nil_r. reflexivity.
  - unfold bind, kill, emit, ret. cbn.
    destruct (fst (kill_result w pid sig) =? 0); [reflexivity|].
    destruct (snd (kill_result w pid sig) =? ESRCH); [reflexivity|].
    destruct (snd (kill_result w pid sig) =? EPERM); reflexivity.
Qed.

(** C9. For a non-positive process identifier and any signal number,
    [rexos_signal] returns InvalidArgument and issues no system call at all;
    so do [rexos_stop] and [rexos_kill]. Whatever their arguments, these
    entry points never add a [kill] with a non-positive target to the calls
    issued. *)
Theorem signal_rejects_nonpositive (pid sig : Z) (w : world) :
  pid <= 0 ->
  rexos_signal pid sig w = (REXOS_ERR_INVALID_ARG, w)
  /\ rexos_stop pid w = (REXOS_ERR_INVALID_ARG, w)
  /\ rexos_kill pid w = (REXOS_ERR_INVALID_ARG, w)
  /\ (forall q s w0,
        no_wide_kill (trace w0) ->
        no_wide_kill (trace (snd (rexos_signal q s w0)))
        /\ no_wide_kill (trace (snd (rexos_stop q w0)))
        /\ no_wide_kill (trace (snd (rexos_kill q w0)))).
Proof.
  intros Hpid. unfold rexos_stop, rexos_kill.
  repeat split; try (apply rexos_signal_nonpositive; exact Hpid);
    rewrite rexos_signal_trace; apply Forall_app; (split; [assumption|]);
    destruct (Z.leb_spec q 0); constructor; (lia || constructor).
Qed.

Lemma signal_rejects_nonpositive_witness :
  rexos_signal (-1) SIGKILL quiet_world = (REXOS_ERR_INVALID_ARG, quiet_world)
  /\ rexos_stop (-1) quiet_world = (REXOS_ERR_INVALID_ARG, quiet_world)
  /\ rexos_kill (-1) quiet_world = (REXOS_ERR_INVALID_ARG, quiet_world).
Proof.
  assert (H : -1 <= 0) by lia.
  destruct (signal_rejects_nonpositive (-1) SIGKILL quiet_world H)
    as (H1 & H2 & H3 & _).
  repeat split; assumption.
Defined.

(** ** Process information *)

(** C4. For a positive process identifier whose [/proc/<pid>/stat] cannot be
    opened, [rexos_get_process_info] returns success and reports the state
    dead, with exit code 0 and memory 0 (and every other field but the
    identifier zero). *)
Theorem process_info_absent_is_dead (pid : Z) (old : rexos_process_info_t)
    (w : world) :
  0 < pid ->
  proc_files w (str_take 63 ("/proc/" ++ decimal pid ++ "/stat")) = None ->
  fst (rexos_get_process_info pid (Some old) w)
    = (REXOS_OK,
       Some {| pi_pid := pid; pi_state := REXOS_PROC_DEAD; pi_exit_code := 0;
               pi_start_time := 0; pi_cpu_time_ms := 0; pi_memory_kb := 0 |}).
Proof.
  intros Hpid Habsent. unfold rexos_get_process_info.
  destruct (Z.leb_spec pid 0); [lia|].
  unfold bind, fopen_proc_stat, emit, ret. cbn.
  rewrite Habsent. reflexivity.
Qed.

Lemma process_info_absent_is_dead_witness :
  fst (rexos_get_process_info 31337 (Some zero_info) quiet_world)
    = (REXOS_OK,
       Some {| pi_pid := 31337; pi_state := REXOS_PROC_DEAD; pi_exit_code := 0;
               pi_start_time := 0; pi_cpu_time_ms := 0; pi_memory_kb := 0 |}).
Proof.
  apply (process_info_absent_is_dead 31337 zero_info quiet_world).
  - lia.
  - reflexivity.
Defined.

(** ** Launch *)

Section LaunchFacts.

Implicit Types (c : rexos_launch_config_t) (w : world) (pid : option Z).

(** The forked child never returns into the caller of [rexos_launch]. *)
Lemma child_process_no_return c a w err pid :
  fst (child_process c a w) <> launch_returned err pid.
Proof.
  unfold child_process, bind.
  destruct (setup_child_process c w) as [[] w1].
  unfold emit, ret. cbn. destruct (execvp_ok w1); cbn; discriminate.
Qed.

(** The four ways [rexos_launch] fails before or at process creation. *)
Lemma rexos_launch_invalid config pid w :
  config = None \/ pid = None \/
  (exists c, config = Some c /\ first_char_set (executable c) = false) ->
  rexos_launch config pid w = (launch_returned REXOS_ERR_INVALID_ARG pid, w).
Proof.
  intros [-> | [-> | (c & -> & Hexe)]]; unfold rexos_launch.
  - reflexivity.
  - destruct config; reflexivity.
  - destruct pid; [|reflexivity]. rewrite Hexe. reflexivity.
Qed.

Lemma rexos_launch_not_found c cell w :
  first_char_set (executable c) = true ->
  access_result w (cstr (executable c)) X_OK <> 0 ->
  rexos_launch (Some c) (Some cell) w
    = (launch_returned REXOS_ERR_NOT_FOUND (Some cell),
       with_trace w (trace w ++ [sys_access (cstr (executable c)) X_OK])).
Proof.
  intros Hexe Hacc. unfold rexos_launch. rewrite Hexe.
  unfold bind, access, emit, ret. cbn.
  destruct (Z.eqb_spec (access_result w (cstr (executable c)) X_OK) 0);
    [contradiction | reflexivity].
Qed.

Lemma rexos_launch_memory c cell w :
  first_char_set (executable c) = true ->
  access_result w (cstr (executable c)) X_OK = 0 ->
  calloc_ok w = false ->
  rexos_launch (Some c) (Some cell) w
    = (launch_returned REXOS_ERR_MEMORY (Some cell),
       with_trace w (trace w ++ [sys_access (cstr (executable c)) X_OK])).
Proof.
  intros Hexe Hacc Hmem. unfold rexos_launch. rewrite Hexe.
  unfold bind, access, emit, ret. cbn. rewrite Hacc. cbn. rewrite Hmem.
  reflexivity.
Qed.

Lemma build_argv_allocated c w :
  calloc_ok w = true ->
  exists a, build_argv (calloc_ok w) (strdup_ok w) c = Some a.
Proof. intros ->. unfold build_argv. cbn [negb]. eexists. reflexivity. Qed.

Lemma rexos_launch_fork_failed c cell w :
  first_char_set (executable c) = true ->
  access_result w (cstr (executable c)) X_OK = 0 ->
  calloc_ok w = true ->
  fork_result w < 0 ->
  rexos_launch (Some c) (Some cell) w
    = (launch_returned REXOS_ERR_FORK_FAILED (Some cell),
       with_trace w (trace w ++ [sys_access (cstr (executable c)) X_OK;
                                 sys_fork])).
Proof.
  intros Hexe Hacc Hmem Hfork. unfold rexos_launch. rewrite Hexe.
  destruct (build_argv_allocated c w Hmem) as [a Ha].
  unfold bind, access, emit, ret, fork. cbn. rewrite Hacc. cbn. rewrite Ha.
  cbn.
  destruct (Z.ltb_spec (fork_result w) 0); [|lia].
  destruct (Z.gtb_spec (fork_result w) 0); [lia|].
  unfold with_trace. cbn. rewrite <- app_assoc. reflexivity.
Qed.

Lemma rexos_launch_parent c cell w :
  first_char_set (executable c) = true ->
  access_result w (cstr (executable c)) X_OK = 0 ->
  calloc_ok w = true ->
  0 < fork_result w ->
  rexos_launch (Some c) (Some cell) w
    = (launch_returned REXOS_OK (Some (fork_result w)),
       with_children
         (with_trace w (trace w ++ [sys_access (cstr (executable c)) X_OK;
                                    sys_fork]))
         (children w ++ [fork_result w])).
Proof.
  intros Hexe Hacc Hmem Hfork. unfold rexos_launch. rewrite Hexe.
  destruct (build_argv_allocated c w Hmem) as [a Ha].
  unfold bind, access, emit, ret, fork. cbn. rewrite Hacc. cbn. rewrite Ha.
  cbn.
  destruct (Z.ltb_spec (fork_result w) 0); [lia|].
  destruct (Z.eqb_spec (fork_result w) 0); [lia|].
  destruct (Z.gtb_spec (fork_result w) 0); [|lia].
  unfold with_trace, with_children. cbn. rewrite <- app_assoc. reflexivity.
Qed.

(** An error return: the cell and the children are those before the call. *)
Ltac error_return Hret :=
  cbn in *; injection Hret as <- <-; right; repeat split; discriminate.

(** Every call that returns to its caller is one of the five above. *)
Lemma rexos_launch_returned config pid w err pid' :
  fst (rexos_launch config pid w) = launch_returned err pid' ->
  (err = REXOS_OK /\ pid' = Some (fork_result w) /\ 0 < fork_result w
   /\ pid <> None
   /\ children (snd (rexos_launch config pid w))
        = children w ++ [fork_result w])
  \/ (err <> REXOS_OK /\ pid' = pid
      /\ children (snd (rexos_launch config pid w)) = children w).
Proof.
  intros Hret.
  destruct config as [c|];
    [|rewrite rexos_launch_invalid in * by auto; error_return Hret].
  destruct pid as [cell|];
    [|rewrite rexos_launch_invalid in * by auto; error_return Hret].
  destruct (first_char_set (executable c)) eqn:Hexe;
    [|rewrite rexos_launch_invalid in * by eauto; error_return Hret].
  destruct (Z.eq_dec (access_result w (cstr (executable c)) X_OK) 0) as [Hacc|Hacc];
    [|rewrite rexos_launch_not_found in * by assumption; error_return Hret].
  destruct (calloc_ok w) eqn:Hmem;
    [|rewrite rexos_launch_memory in * by assumption; error_return Hret].
  destruct (Z.lt_trichotomy (fork_result w) 0) as [Hf|[Hf|Hf]].
  - rewrite rexos_launch_fork_failed in * by assumption. error_return Hret.
  - exfalso. revert Hret. unfold rexos_launch. rewrite Hexe.
    destruct (build_argv_allocated c w Hmem) as [a Ha].
    unfold bind, access, emit, ret, fork. cbn. rewrite Hacc. cbn. rewrite Ha.
    cbn. rewrite Hf. cbn. apply child_process_no_return.
  - rewrite rexos_launch_parent in * by assumption. cbn in *.
    injection Hret as <- <-. left. repeat split; try assumption; discriminate.
Qed.

End LaunchFacts.

(** C3. [rexos_launch] fails with InvalidArgument when the configuration is
    absent or its executable path is empty; with NotFound when [access]
    does not find an executable file at that path; with OutOfMemory when
    the allocation of the argument vector fails; with ForkFailed when
    [fork] fails. In the first case no system call is issued, in the next
    two only [access], and whenever the call returns an error the set of
    child processes is the one before the call. *)
Theorem launch_failures (config : option rexos_launch_config_t)
    (pid : option Z) (w : world) :
  (config = None \/
   (exists c, config = Some c /\ first_char_set (executable c) = false) ->
   rexos_launch config pid w = (launch_returned REXOS_ERR_INVALID_ARG pid, w))
  /\ (forall c cell,
        config = Some c -> pid = Some cell ->
        first_char_set (executable c) = true ->
        (access_result w (cstr (executable c)) X_OK <> 0 ->
         fst (rexos_launch config pid w)
           = launch_returned REXOS_ERR_NOT_FOUND pid
         /\ trace (snd (rexos_launch config pid w))
              = trace w ++ [sys_access (cstr (executable c)) X_OK])
        /\ (access_result w (cstr (executable c)) X_OK = 0 ->
            calloc_ok w = false ->
            fst (rexos_launch config pid w)
              = launch_returned REXOS_ERR_MEMORY pid
            /\ trace (snd (rexos_launch config pid w))
                 = trace w ++ [sys_access (cstr (executable c)) X_OK])
        /\ (access_result w (cstr (executable c)) X_OK = 0 ->
            calloc_ok w = true ->
            fork_result w < 0 ->
            fst (rexos_launch config pid w)
              = launch_returned REXOS_ERR_FORK_FAILED pid))
  /\ (forall err pid',
        fst (rexos_launch config pid w) = launch_returned err pid' ->
        err <> REXOS_OK ->
        children (snd (rexos_launch config pid w)) = children w).
Proof.
  split; [|split].
  - intros H. apply rexos_launch_invalid. tauto.
  - intros c cell -> -> Hexe. split; [|split].
    + intros Hacc. rewrite rexos_launch_not_found by assumption.
      split; reflexivity.
    + intros Hacc Hmem. rewrite rexos_launch_memory by assumption.
      split; reflexivity.
    + intros Hacc Hmem Hfork.
      rewrite rexos_launch_fork_failed by assumption. reflexivity.
  - intros err pid' Hret Herr.
    destruct (rexos_launch_returned config pid w err pid' Hret)
      as [(Hok & _) | (_ & _ & Hch)]; [contradiction | exact Hch].
Qed.

Lemma launch_failures_witness :
  fst (rexos_launch (Some snes_config) (Some 7) missing_exe_world)
    = launch_returned REXOS_ERR_NOT_FOUND (Some 7)
  /\ children (snd (rexos_launch (Some snes_config) (Some 7) missing_exe_world))
       = children missing_exe_world.
Proof.
  destruct (launch_failures (Some snes_config) (Some 7) missing_exe_world)
    as (_ & Hcases & Hchildren).
  destruct (Hcases snes_config 7 eq_refl eq_refl) as ((Hnf & _) & _).
  { vm_compute. reflexivity. }
  { vm_compute. discriminate. }
  split; [exact Hnf|].
  apply (Hchildren REXOS_ERR_NOT_FOUND (Some 7) Hnf). discriminate.
Defined.

(** C10. Whenever [rexos_launch] returns an error, the caller's [pid] cell
    holds what it held before the call; it holds a new value, the child's
    identifier, exactly when the call returns success. *)
Theorem launch_pid_written_iff_success (config : option rexos_launch_config_t)
    (pid : option Z) (w : world) (err : rexos_error_t) (pid' : option Z) :
  fst (rexos_launch config pid w) = launch_returned err pid' ->
  (err <> REXOS_OK -> pid' = pid)
  /\ (err = REXOS_OK ->
      pid' = Some (fork_result w) /\ 0 < fork_result w /\ pid <> None).
Proof.
  intros Hret.
  destruct (rexos_launch_returned config pid w err pid' Hret)
    as [(Hok & Hpid & Hpos & Hnn & _) | (Herr & Hpid & _)].
  - split; [intros H; contradiction | intros _; auto].
  - split; [intros _; exact Hpid | intros H; contradiction].
Qed.

Lemma launch_pid_written_iff_success_witness :
  (REXOS_OK <> REXOS_OK -> Some 4242 = Some 7)
  /\ (REXOS_OK = REXOS_OK ->
      Some 4242 = Some (fork_result quiet_world)
      /\ 0 < fork_result quiet_world /\ Some 7 <> None).
Proof.
  apply (launch_pid_written_iff_success (Some snes_config) (Some 7) quiet_world).
  vm_compute. reflexivity.
Defined.

Lemma launch_error_keeps_pid_cell :
  fst (rexos_launch (Some snes_config) (Some 7) missing_exe_world)
    = launch_returned REXOS_ERR_NOT_FOUND (Some 7).
Proof. vm_compute. reflexivity. Qed.

(** ** Waiting *)

Section WaitFacts.

Implicit Types (w : world) (ec : option Z) (running rest : list (Z * Z)).

(** The status macros recover the code a process passed to [exit]. *)
Lemma exited_status_decoded (code : Z) :
  0 <= code < 256 ->
  WIFEXITED (exited_status code) = true /\
  WEXITSTATUS (exited_status code) = code.
Proof.
  intros Hc. unfold WIFEXITED, WEXITSTATUS, exited_status. split.
  - apply Z.eqb_eq. change 127 with (Z.ones 7).
    rewrite Z.land_ones by lia.
    replace (code * 256) with ((code * 2) * 2 ^ 7) by lia.
    apply Z.mod_mul. lia.
  - rewrite Z.shiftr_land. change (Z.shiftr 65280 8) with (Z.ones 8).
    rewrite Z.land_ones by lia.
    rewrite Z.shiftr_div_pow2 by lia. change (2 ^ 8) with 256.
    rewrite Z.div_mul by lia. apply Z.mod_small. lia.
Qed.

Lemma store_exit_code_exited (old code : Z) :
  0 <= code < 256 ->
  store_exit_code (Some old) (exited_status code) = Some code.
Proof.
  intros Hc. destruct (exited_status_decoded code Hc) as [Hif Hst].
  unfold store_exit_code. rewrite Hif, Hst. reflexivity.
Qed.

Lemma waitpid_answer pid options w :
  waitpid pid options w
    = (next_answer w,
       with_script (with_trace w (trace w ++ [sys_waitpid pid options]))
         (tl (waitpid_script w))).
Proof.
  unfold waitpid, bind, emit, next_answer. reflexivity.
Qed.

(** One pass through the loop body, as the source has it. *)
Lemma wait_poll_loop_body pid timeout_ms ec elapsed w :
  wait_poll_loop pid timeout_ms ec elapsed w =
    if elapsed <? timeout_ms
    then
      let rs := fst (waitpid pid WNOHANG w) in
      let w1 := snd (waitpid pid WNOHANG w) in
      if fst rs =? pid
      then (wait_returned REXOS_OK (store_exit_code ec (snd rs)), w1)
      else if fst rs <? 0
      then (wait_returned REXOS_ERR_IO ec, w1)
      else if elapsed + 10 >? INT_MAX
      then (wait_overflow, snd (usleep 10000 w1))
      else wait_poll_loop pid timeout_ms ec (elapsed + 10)
             (snd (usleep 10000 w1))
    else (wait_returned REXOS_ERR_TIMEOUT ec, w).
Proof.
  rewrite wait_poll_loop_equation_1.
  unfold wait_poll_loop_unfold_clause_1,
    wait_poll_loop_unfold_clause_1_clause_2.
  destruct (Z_lt_dec elapsed timeout_ms), (Z.ltb_spec elapsed timeout_ms);
    try lia; [|reflexivity].
  destruct (waitpid pid WNOHANG w) as [rs w1]. reflexivity.
Qed.

(** Polls that find the process running: each costs one [waitpid] and one
    [usleep(10000)] and adds 10 to [elapsed]. *)
Lemma wait_poll_loop_running pid timeout_ms ec running :
  forall elapsed w rest,
    0 < pid -> all_running running ->
    waitpid_script w = running ++ rest ->
    (running <> [] ->
     elapsed + 10 * (Z.of_nat (length running) - 1) < timeout_ms /\
     elapsed + 10 * Z.of_nat (length running) <= INT_MAX) ->
    exists w',
      wait_poll_loop pid timeout_ms ec elapsed w
        = wait_poll_loop pid timeout_ms ec
            (elapsed + 10 * Z.of_nat (length running)) w'
      /\ trace w' = trace w ++ idle_polls pid (length running)
      /\ waitpid_script w' = rest
      /\ children w' = children w.
Proof.
  induction running as [|a running IH]; intros elapsed w rest Hpid Hrun Hscript Hroom.
  - exists w. cbn [length]. rewrite Z.mul_0_r, Z.add_0_r.
    unfold idle_polls. cbn. rewrite app_nil_r. auto.
  - apply Forall_cons in Hrun as [Ha Hrun].
    destruct Hroom as [Hlt Hmax]; [discriminate|].
    cbn [length] in *. rewrite Nat2Z.inj_succ in *.
    rewrite wait_poll_loop_body, waitpid_answer.
    unfold next_answer. rewrite Hscript. cbn [hd tl app fst snd]. rewrite Ha.
    destruct (Z.ltb_spec elapsed timeout_ms); [|lia].
    destruct (Z.eqb_spec 0 pid); [lia|].
    destruct (Z.ltb_spec 0 0); [lia|].
    destruct (Z.gtb_spec (elapsed + 10) INT_MAX); [lia|].
    edestruct (IH (elapsed + 10)) as (w' & Heq & Htr & Hsc & Hch);
      [exact Hpid | exact Hrun | | | ].
    3:{ exists w'. rewrite Heq. split; [f_equal; lia|].
        split; [|split; [exact Hsc | rewrite Hch; reflexivity]].
        rewrite Htr. unfold usleep, emit, idle_polls. cbn.
        rewrite <- !app_assoc. reflexivity. }
    + reflexivity.
    + intros _. lia.
Qed.

(** The single [waitpid] of the modes [timeout_ms == 0] and
    [timeout_ms < 0]. *)
Lemma wait_once_outcome pid options ec w :
  trace (snd (wait_once pid options ec w))
    = trace w ++ [sys_waitpid pid options]
  /\ (fst (next_answer w) = pid ->
      fst (wait_once pid options ec w)
        = wait_returned REXOS_OK (store_exit_code ec (snd (next_answer w))))
  /\ (fst (next_answer w) <> pid -> fst (next_answer w) = 0 ->
      Z.land options WNOHANG <> 0 ->
      fst (wait_once pid options ec w) = wait_returned REXOS_ERR_TIMEOUT ec)
  /\ (fst (next_answer w) <> pid ->
      fst (next_answer w) <> 0 \/ Z.land options WNOHANG = 0 ->
      fst (wait_once pid options ec w) = wait_returned REXOS_ERR_IO ec).
Proof.
  unfold wait_once, bind. rewrite waitpid_answer. unfold ret.
  destruct (Z.eqb_spec (fst (next_answer w)) pid) as [Hp|Hp];
    destruct (Z.eqb_spec (fst (next_answer w)) 0) as [Hz|Hz];
    destruct (Z.eqb_spec (Z.land options WNOHANG) 0) as [Ho|Ho];
    cbn; repeat split; intros; try reflexivity; try contradiction; tauto.
Qed.

End WaitFacts.

(** C2, as stated, fails. The answers of the script are what successive
    polls find, 10 ms apart: a process found terminated by answer number
    [length running] has terminated within [10 * length running] ms of the
    call. With a timeout of 10 ms and a process that is running at the call
    and has exited before the 10 ms are over, the loop sleeps once, finds
    the elapsed time at the timeout and returns Timeout without the poll
    that would have collected the exit code. *)
Lemma wait_misses_exit_during_last_sleep :
  ~ (forall (pid timeout_ms : Z) (exit_code : option Z) (w : world)
            (running rest : list (Z * Z)) (status : Z),
       0 < pid -> 0 < timeout_ms <= 2147483640 ->
       all_running running ->
       waitpid_script w = running ++ (pid, status) :: rest ->
       10 * Z.of_nat (length running) <= timeout_ms ->
       fst (rexos_wait pid timeout_ms exit_code w)
         = wait_returned REXOS_OK (store_exit_code exit_code status)).
Proof.
  intros H.
  specialize (H 4242 10 (Some 7) late_exit_world [(0, 0)] []
                (exited_status 3)).
  assert (Hrun : fst (rexos_wait 4242 10 (Some 7) late_exit_world)
                 = wait_returned REXOS_ERR_TIMEOUT (Some 7)).
  { unfold rexos_wait.
    change (4242 <=? 0) with false. change (10 =? 0) with false.
    change (10 >? 0) with true. cbv iota.
    rewrite wait_poll_loop_body, waitpid_answer. cbn.
    rewrite wait_poll_loop_body. reflexivity. }
  rewrite Hrun in H.
  assert (Habs : wait_returned REXOS_ERR_TIMEOUT (Some 7)
                 = wait_returned REXOS_OK
                     (store_exit_code (Some 7) (exited_status 3))).
  { apply H; [lia | lia | | reflexivity | cbn; lia].
    unfold all_running. repeat constructor. }
  discriminate Habs.
Qed.

(** C2 (amended). [rexos_wait] fails with InvalidArgument for a
    non-positive handle, issuing no system call. With [timeout_ms = 0] it
    issues exactly one [waitpid] with [WNOHANG]: success and the exit code
    if the process has terminated, Timeout if it is still running, IOError
    if the call fails. With a negative timeout it issues exactly one
    blocking [waitpid]. With a positive timeout it polls with [WNOHANG],
    sleeping 10 ms after each poll that finds the process running and
    adding 10 to the elapsed time: a poll made while the elapsed time is
    below the timeout that finds the process terminated yields success and
    its exit code, a failing poll yields IOError, and once the elapsed time
    has reached the timeout (a timeout of at most 2147483640 ms, so that
    the counter stays an [int]) the call fails with Timeout without a
    further poll, whatever the process has done during the last sleep. The
    exit code stored is the one the process passed to [exit]. *)
Theorem rexos_wait_modes (pid timeout_ms : Z) (exit_code : option Z) (w : world) :
  (pid <= 0 ->
   rexos_wait pid timeout_ms exit_code w
     = (wait_returned REXOS_ERR_INVALID_ARG exit_code, w))
  /\ (0 < pid -> timeout_ms = 0 ->
      trace (snd (rexos_wait pid timeout_ms exit_code w))
        = trace w ++ [sys_waitpid pid WNOHANG]
      /\ (fst (next_answer w) = pid ->
          fst (rexos_wait pid timeout_ms exit_code w)
            = wait_returned REXOS_OK
                (store_exit_code exit_code (snd (next_answer w))))
      /\ (fst (next_answer w) = 0 ->
          fst (rexos_wait pid timeout_ms exit_code w)
            = wait_returned REXOS_ERR_TIMEOUT exit_code)
      /\ (fst (next_answer w) < 0 ->
          fst (rexos_wait pid timeout_ms exit_code w)
            = wait_returned REXOS_ERR_IO exit_code))
  /\ (0 < pid -> timeout_ms < 0 ->
      trace (snd (rexos_wait pid timeout_ms exit_code w))
        = trace w ++ [sys_waitpid pid 0]
      /\ (fst (next_answer w) = pid ->
          fst (rexos_wait pid timeout_ms exit_code w)
            = wait_returned REXOS_OK
                (store_exit_code exit_code (snd (next_answer w))))
      /\ (fst (next_answer w) < 0 ->
          fst (rexos_wait pid timeout_ms exit_code w)
            = wait_returned REXOS_ERR_IO exit_code))
  /\ (0 < pid -> 0 < timeout_ms <= INT_MAX ->
      forall running rest,
        all_running running -> waitpid_script w = running ++ rest ->
        (forall status,
           hd (-1, 0) rest = (pid, status) ->
           10 * Z.of_nat (length running) < timeout_ms ->
           fst (rexos_wait pid timeout_ms exit_code w)
             = wait_returned REXOS_OK (store_exit_code exit_code status)
           /\ trace (snd (rexos_wait pid timeout_ms exit_code w))
                = trace w ++ idle_polls pid (length running)
                          ++ [sys_waitpid pid WNOHANG])
        /\ (fst (hd (-1, 0) rest) < 0 ->
            10 * Z.of_nat (length running) < timeout_ms ->
            fst (rexos_wait pid timeout_ms exit_code w)
              = wait_returned REXOS_ERR_IO exit_code
            /\ trace (snd (rexos_wait pid timeout_ms exit_code w))
                 = trace w ++ idle_polls pid (length running)
                           ++ [sys_waitpid pid WNOHANG])
        /\ (timeout_ms <= 10 * Z.of_nat (length running) < timeout_ms + 10 ->
            timeout_ms <= 2147483640 ->
            fst (rexos_wait pid timeout_ms exit_code w)
              = wait_returned REXOS_ERR_TIMEOUT exit_code
            /\ trace (snd (rexos_wait pid timeout_ms exit_code w))
                 = trace w ++ idle_polls pid (length running)))
  /\ (forall old code,
        0 <= code < 256 ->
        store_exit_code (Some old) (exited_status code) = Some code).
Proof.
  unfold rexos_wait. repeat apply conj.
  - intros Hpid. destruct (Z.leb_spec pid 0); [reflexivity | lia].
  - intros Hpid ->. destruct (Z.leb_spec pid 0); [lia|]. cbn [Z.eqb].
    destruct (wait_once_outcome pid WNOHANG exit_code w)
      as (Htr & Hok & Hto & Hio).
    repeat apply conj; [exact Htr | exact Hok | |].
    + intros Hz. apply Hto; [lia | exact Hz | discriminate].
    + intros Hneg. apply Hio; [lia | left; lia].
  - intros Hpid Hneg. destruct (Z.leb_spec pid 0); [lia|].
    destruct (Z.eqb_spec timeout_ms 0); [lia|].
    destruct (Z.gtb_spec timeout_ms 0); [lia|].
    destruct (wait_once_outcome pid 0 exit_code w) as (Htr & Hok & _ & Hio).
    repeat apply conj; [exact Htr | exact Hok |].
    intros Hans. apply Hio; [lia | right; reflexivity].
  - intros Hpid [Hpos Hint] running rest Hrun Hscript.
    destruct (Z.leb_spec pid 0); [lia|].
    destruct (Z.eqb_spec timeout_ms 0); [lia|].
    destruct (Z.gtb_spec timeout_ms 0); [|lia].
    unfold INT_MAX in *. repeat apply conj.
    + intros status Hnext Hlt.
      destruct (wait_poll_loop_running pid timeout_ms exit_code running 0 w rest
                  Hpid Hrun Hscript) as (w' & Heq & Htr & Hsc & _);
        [unfold INT_MAX; lia|].
      rewrite Heq, wait_poll_loop_body, waitpid_answer.
      unfold next_answer. rewrite Hsc, Hnext. cbn [fst snd].
      destruct (Z.ltb_spec (0 + 10 * Z.of_nat (length running)) timeout_ms); [|lia].
      rewrite Z.eqb_refl. cbn [fst snd with_script with_trace trace].
      rewrite Htr, <- app_assoc. auto.
    + intros Hneg Hlt.
      destruct (wait_poll_loop_running pid timeout_ms exit_code running 0 w rest
                  Hpid Hrun Hscript) as (w' & Heq & Htr & Hsc & _);
        [unfold INT_MAX; lia|].
      rewrite Heq, wait_poll_loop_body, waitpid_answer.
      unfold next_answer. rewrite Hsc. cbn [fst snd].
      destruct (Z.ltb_spec (0 + 10 * Z.of_nat (length running)) timeout_ms); [|lia].
      destruct (Z.eqb_spec (fst (hd (-1, 0) rest)) pid); [lia|].
      destruct (Z.ltb_spec (fst (hd (-1, 0) rest)) 0); [|lia].
      cbn [fst snd with_script with_trace trace].
      rewrite Htr, <- app_assoc. auto.
    + intros Hreach Hsmall.
      destruct (wait_poll_loop_running pid timeout_ms exit_code running 0 w rest
                  Hpid Hrun Hscript) as (w' & Heq & Htr & Hsc & _);
        [unfold INT_MAX; lia|].
      rewrite Heq, wait_poll_loop_body.
      destruct (Z.ltb_spec (0 + 10 * Z.of_nat (length running)) timeout_ms); [lia|].
      cbn [fst snd]. auto.
  - intros old code. apply store_exit_code_exited.
Qed.

Lemma rexos_wait_modes_witness :
  fst (rexos_wait 4242 25 (Some 99) wait_world) = wait_returned REXOS_OK (Some 3)
  /\ trace (snd (rexos_wait 4242 25 (Some 99) wait_world))
       = [sys_waitpid 4242 WNOHANG; sys_usleep 10000;
          sys_waitpid 4242 WNOHANG; sys_usleep 10000;
          sys_waitpid 4242 WNOHANG]
  /\ fst (rexos_wait 4242 20 (Some 99) wait_world)
       = wait_returned REXOS_ERR_TIMEOUT (Some 99)
  /\ rexos_wait 0 25 (Some 99) wait_world
       = (wait_returned REXOS_ERR_INVALID_ARG (Some 99), wait_world).
Proof.
  destruct (rexos_wait_modes 4242 25 (Some 99) wait_world)
    as (_ & _ & _ & Hloop & _).
  destruct (Hloop ltac:(lia) ltac:(unfold INT_MAX; lia)
              [(0, 0); (0, 0)] [(4242, exited_status 3)]
              ltac:(repeat constructor) eq_refl) as (Hdone & _ & _).
  destruct (Hdone (exited_status 3) eq_refl ltac:(cbn; lia)) as [Hok Htrace].
  destruct (rexos_wait_modes 4242 20 (Some 99) wait_world)
    as (_ & _ & _ & Hloop' & _).
  destruct (Hloop' ltac:(lia) ltac:(unfold INT_MAX; lia)
              [(0, 0); (0, 0)] [(4242, exited_status 3)]
              ltac:(repeat constructor) eq_refl) as (_ & _ & Hout).
  destruct (Hout ltac:(cbn; lia) ltac:(lia)) as [Hto _].
  destruct (rexos_wait_modes 0 25 (Some 99) wait_world) as (Hinv & _).
  repeat apply conj.
  - exact Hok.
  - exact Htrace.
  - exact Hto.
  - apply Hinv. lia.
Defined.

(** Beyond 2147483640 ms the counter cannot reach the timeout: after
    214748365 polls that find the process running, [elapsed += 10] leaves
    the range of [int]. *)
Lemma rexos_wait_elapsed_overflow (pid timeout_ms : Z) (exit_code : option Z)
    (w : world) (running rest : list (Z * Z)) :
  0 < pid -> 2147483640 < timeout_ms <= INT_MAX ->
  all_running running -> Z.of_nat (length running) = 214748365 ->
  waitpid_script w = running ++ rest ->
  fst (rexos_wait pid timeout_ms exit_code w) = wait_overflow.
Proof.
  intros Hpid [Hbig Hint] Hrun Hlen Hscript. unfold INT_MAX in *.
  destruct (exists_last (l := running)) as (init & a & ->).
  { intros ->. cbn in Hlen. lia. }
  rewrite length_app in Hlen. cbn [length] in Hlen.
  apply Forall_app in Hrun as [Hinit Ha]. apply Forall_cons in Ha as [Ha _].
  rewrite <- app_assoc in Hscript. cbn [app] in Hscript.
  unfold rexos_wait.
  destruct (Z.leb_spec pid 0); [lia|].
  destruct (Z.eqb_spec timeout_ms 0); [lia|].
  destruct (Z.gtb_spec timeout_ms 0); [|lia].
  destruct (wait_poll_loop_running pid timeout_ms exit_code init 0 w (a :: rest)
              Hpid Hinit Hscript) as (w' & Heq & _ & Hsc & _);
    [unfold INT_MAX; lia|].
  rewrite Heq, wait_poll_loop_body, waitpid_answer.
  unfold next_answer. rewrite Hsc. cbn [hd fst snd]. rewrite Ha.
  destruct (Z.ltb_spec (0 + 10 * Z.of_nat (length init)) timeout_ms); [|lia].
  destruct (Z.eqb_spec 0 pid); [lia|].
  destruct (Z.ltb_spec 0 0); [lia|].
  destruct (Z.gtb_spec (0 + 10 * Z.of_nat (length init) + 10) INT_MAX);
    [reflexivity | unfold INT_MAX in *; lia].
Qed.

(** ** CPU usage *)

Section FloatFacts.

Import Performance.

(** The mantissa of a shift record is halved by [shr_1]. *)
Lemma shr_1_m (mrs : shr_record) :
  0 <= shr_m mrs -> shr_m (shr_1 mrs) = shr_m mrs / 2.
Proof.
  destruct mrs as [m r s]. cbn [shr_m]. intros Hm.
  destruct m as [|p|p]; [reflexivity| |lia].
  destruct p as [p|p|]; cbn [shr_1 shr_m].
  - rewrite Pos2Z.inj_xI. apply Z.div_unique with 1; lia.
  - rewrite Pos2Z.inj_xO. apply Z.div_unique with 0; lia.
  - reflexivity.
Qed.

Lemma iter_shr_1_m (q : positive) :
  forall mrs, 0 <= shr_m mrs ->
    shr_m (SpecFloat.iter_pos shr_1 q mrs) = shr_m mrs / 2 ^ Zpos q.
Proof.
  induction q as [q IH|q IH|]; intros mrs Hm; cbn [SpecFloat.iter_pos].
  - assert (H1 : 0 <= shr_m (shr_1 mrs))
      by (rewrite shr_1_m by exact Hm; apply Z.div_pos; lia).
    assert (H2 : 0 <= shr_m (SpecFloat.iter_pos shr_1 q (shr_1 mrs)))
      by (rewrite IH by exact H1; apply Z.div_pos; [lia|apply Z.pow_pos_nonneg; lia]).
    rewrite IH by exact H2. rewrite IH by exact H1. rewrite shr_1_m by exact Hm.
    rewrite !Z.div_div by (try apply Z.pow_pos_nonneg; lia).
    f_equal.
    replace (Z.pos q~1) with (1 + Z.pos q + Z.pos q) by lia.
    rewrite !Z.pow_add_r by lia. lia.
  - assert (H2 : 0 <= shr_m (SpecFloat.iter_pos shr_1 q mrs))
      by (rewrite IH by exact Hm; apply Z.div_pos; [lia|apply Z.pow_pos_nonneg; lia]).
    rewrite IH by exact H2. rewrite IH by exact Hm.
    rewrite !Z.div_div by (try apply Z.pow_pos_nonneg; lia).
    f_equal.
    replace (Z.pos q~0) with (Z.pos q + Z.pos q) by lia.
    rewrite !Z.pow_add_r by lia. lia.
  - rewrite shr_1_m by exact Hm. reflexivity.
Qed.

Lemma digits2_pos_lower (p : positive) :
  2 ^ (Zpos (digits2_pos p) - 1) <= Zpos p.
Proof.
  induction p as [p IH|p IH|]; cbn [digits2_pos]; [| |reflexivity].
  all: replace (Z.pos (Pos.succ (digits2_pos p)) - 1)
         with (1 + (Z.pos (digits2_pos p) - 1)) by lia.
  all: rewrite Z.pow_add_r by lia; change (2 ^ 1) with 2; lia.
Qed.

(** Shifting a positive mantissa right by fewer places than it has digits
    leaves a positive mantissa. *)
Lemma shr_positive (p : positive) (l : location) (e n : Z) :
  n < Zpos (digits2_pos p) ->
  0 < shr_m (fst (shr (shr_record_of_loc (Zpos p) l) e n)).
Proof.
  intros Hn.
  assert (Hrec : shr_m (shr_record_of_loc (Zpos p) l) = Zpos p)
    by (destruct l as [|[]]; reflexivity).
  destruct n as [|q|q]; cbn [shr fst]; try (rewrite Hrec; lia).
  rewrite iter_shr_1_m by (rewrite Hrec; lia). rewrite Hrec.
  apply Z.div_str_pos. split; [apply Z.pow_pos_nonneg; lia|].
  pose proof (digits2_pos_lower p) as Hlow.
  assert (2 ^ Zpos q <= 2 ^ (Zpos (digits2_pos p) - 1))
    by (apply Z.pow_le_mono_r; lia).
  lia.
Qed.

Lemma shr_exponent (mrs : shr_record) (e n : Z) :
  snd (shr mrs e n) = e + Z.max n 0.
Proof. destruct n; cbn [shr snd]; lia. Qed.

Lemma round_nearest_even_positive (m : Z) (l : location) :
  0 < m -> 0 < round_nearest_even m l.
Proof.
  intros Hm. destruct l as [|[]]; cbn [round_nearest_even]; try lia.
  destruct (Z.even m); lia.
Qed.

(** Rounding a positive mantissa whose value is not below the smallest
    subnormal gives a positive finite number or the positive infinity,
    never a zero and never a NaN. *)
Lemma binary_round_aux_positive (p : positive) (e : Z) :
  -149 <= e \/ -149 < Zpos (digits2_pos p) + e ->
  (exists m' e', binary_round_aux prec emax false (Zpos p) e loc_Exact
                 = S754_finite false m' e')
  \/ binary_round_aux prec emax false (Zpos p) e loc_Exact = S754_infinity false.
Proof.
  intros He. unfold binary_round_aux, shr_fexp.
  set (n := fexp prec emax (Zdigits2 (Zpos p) + e) - e).
  assert (Hn : n < Zpos (digits2_pos p) /\ -149 <= e + Z.max n 0).
  { unfold n, fexp, emin, prec, emax. cbn [Zdigits2]. lia. }
  pose proof (shr_positive p loc_Exact e n (proj1 Hn)) as Hm1.
  pose proof (shr_exponent (shr_record_of_loc (Zpos p) loc_Exact) e n) as He1.
  destruct (shr (shr_record_of_loc (Zpos p) loc_Exact) e n) as [mrs1 e1].
  cbn [fst snd] in Hm1, He1.
  pose proof (round_nearest_even_positive (shr_m mrs1) (loc_of_shr_record mrs1) Hm1)
    as Hm2.
  destruct (round_nearest_even (shr_m mrs1) (loc_of_shr_record mrs1))
    as [|p2|p2]; try lia.
  set (n2 := fexp prec emax (Zdigits2 (Zpos p2) + e1) - e1).
  assert (Hn2 : n2 < Zpos (digits2_pos p2)).
  { unfold n2, fexp, emin, prec, emax. cbn [Zdigits2]. lia. }
  pose proof (shr_positive p2 loc_Exact e1 n2 Hn2) as Hm3.
  destruct (shr (shr_record_of_loc (Zpos p2) loc_Exact) e1 n2) as [mrs3 e3].
  cbn [fst] in Hm3.
  destruct (shr_m mrs3) as [|p3|p3]; try lia.
  destruct (e3 <=? emax - prec); [left; eauto | right; reflexivity].
Qed.

Lemma float_of_u64_positive (n : Z) :
  0 < n ->
  (exists m e, float_of_u64 n = S754_finite false m e)
  \/ float_of_u64 n = S754_infinity false.
Proof.
  intros Hn. destruct n as [|p|p]; try lia.
  unfold float_of_u64, binary_normalize, binary_round.
  assert (Hf : fexp prec emax (Zpos (digits2_pos p) + 0) = Zpos (digits2_pos p) - 24)
    by (unfold fexp, emin, prec, emax; lia).
  rewrite Hf.
  assert (Hez : -149 <= snd (shl_align p 0 (Zpos (digits2_pos p) - 24))).
  { unfold shl_align.
    destruct (Z.pos (digits2_pos p) - 24 - 0); cbn [snd]; lia. }
  destruct (shl_align p 0 (Zpos (digits2_pos p) - 24)) as [mz ez].
  apply binary_round_aux_positive. left. exact Hez.
Qed.

(** A quotient with numerator 0: whatever the (positive) total, the
    division gives +0 and so does the product with 100. *)
Lemma zero_busy_share (total : Z) :
  0 < total ->
  fmul (fdiv (float_of_u64 0) (float_of_u64 total)) f100 = f0.
Proof.
  intros Ht.
  destruct (float_of_u64_positive total Ht) as [(m & e & ->) | ->];
    reflexivity.
Qed.

End FloatFacts.

Section CpuUsageFacts.

Import Performance.

(** C8, as stated, fails: on the first read the previous sample is all
    zeros, so the counters since boot are taken as the interval; a machine
    that has only ever been busy is reported at 100 percent. *)
Lemma first_read_not_zero :
  ~ (forall line : option cpu_counters,
       fst (calculate_cpu_usage line cpu_prev_initial) = f0).
Proof.
  intros H. specialize (H (Some first_sample)).
  vm_compute in H. discriminate H.
Qed.

(** C8 (amended). On the very first read (the file-scope variables still
    hold their initial zeros) the reported CPU usage is the busy share of
    the cumulative counters themselves, [busy / total * 100] computed in
    single precision, where [busy] leaves out the idle and iowait counters.
    It is 0 when [/proc/stat] cannot be read, when the counters add up to 0
    (modulo [2^64]), and when the busy counters add up to 0 (modulo
    [2^64]), as they do when only idle and iowait time has been counted. In every case that reads
    the counters, they become the previous sample. *)
Theorem first_read_reports_share_since_boot (s : cpu_counters) :
  is_u64 (user s) -> is_u64 (nice s) -> is_u64 (system s) ->
  is_u64 (idle s) -> is_u64 (iowait s) -> is_u64 (irq s) ->
  is_u64 (softirq s) ->
  let total := u64 (user s + nice s + system s + idle s
                    + iowait s + irq s + softirq s) in
  let busy := u64 (user s + nice s + system s + irq s + softirq s) in
  calculate_cpu_usage None cpu_prev_initial = (f0, cpu_prev_initial)
  /\ (total = 0 ->
      fst (calculate_cpu_usage (Some s) cpu_prev_initial) = f0)
  /\ (total <> 0 ->
      fst (calculate_cpu_usage (Some s) cpu_prev_initial)
        = fmul (fdiv (float_of_u64 busy) (float_of_u64 total)) f100)
  /\ (busy = 0 ->
      fst (calculate_cpu_usage (Some s) cpu_prev_initial) = f0)
  /\ snd (calculate_cpu_usage (Some s) cpu_prev_initial)
       = {| prev_user := user s; prev_nice := nice s;
            prev_system := system s; prev_idle := idle s;
            prev_iowait := iowait s; prev_irq := irq s;
            prev_softirq := softirq s |}.
Proof.
  intros Hu Hn Hs Hi Hw Hq Hf total busy. unfold is_u64 in *.
  unfold calculate_cpu_usage. cbn [prev_user prev_nice prev_system prev_idle
    prev_iowait prev_irq prev_softirq cpu_prev_initial].
  rewrite !Z.sub_0_r.
  assert (Hid : forall z, 0 <= z < 2 ^ 64 -> u64 z = z)
    by (intros z Hz; apply Z.mod_small; exact Hz).
  rewrite (Hid (user s)), (Hid (nice s)), (Hid (system s)), (Hid (idle s)),
    (Hid (iowait s)), (Hid (irq s)), (Hid (softirq s)) by assumption.
  fold total busy.
  split; [reflexivity|].
  assert (Htotal : 0 <= total) by (apply Z.mod_pos_bound; lia).
  destruct (Z.eqb_spec total 0) as [Hz|Hz]; repeat split;
    intros; try reflexivity; try contradiction.
  cbn [fst]. replace busy with 0 by congruence.
  apply zero_busy_share. lia.
Qed.

Lemma first_read_reports_share_since_boot_witness :
  fst (calculate_cpu_usage (Some first_sample) cpu_prev_initial)
    = S754_finite false 13107200 (-17).
Proof.
  assert (Hz : is_u64 0) by (unfold is_u64; lia).
  assert (Ho : is_u64 1) by (unfold is_u64; lia).
  destruct (first_read_reports_share_since_boot first_sample
              Ho Hz Hz Hz Hz Hz Hz) as (_ & _ & Hshare & _).
  rewrite Hshare; [reflexivity | vm_compute; discriminate].
Defined.

End CpuUsageFacts.

(* ====================================================================== *)
(** * Further properties *)
(* ====================================================================== *)

(** ** Error messages and initialisation *)

(** X1. Each of the ten error codes has a message of its own, none of them
    is ["Unknown error"], and every other integer gets ["Unknown error"]. *)
Theorem strerror_identifies_code :
  (forall e1 e2 : rexos_error_t,
     rexos_strerror (rexos_error_code e1) = rexos_strerror (rexos_error_code e2) ->
     e1 = e2)
  /\ (forall e : rexos_error_t,
        rexos_strerror (rexos_error_code e) <> "Unknown error"%string)
  /\ (forall z : Z,
        (forall e : rexos_error_t, z <> rexos_error_code e) ->
        rexos_strerror z = "Unknown error"%string).
Proof.
  split; [|split].
  - intros [] []; cbn; intros H; try reflexivity; discriminate H.
  - intros []; cbn; discriminate.
  - intros z Hz.
    assert (H0 := Hz REXOS_OK). assert (H1 := Hz REXOS_ERR_INVALID_ARG).
    assert (H2 := Hz REXOS_ERR_NOT_FOUND). assert (H3 := Hz REXOS_ERR_PERMISSION).
    assert (H4 := Hz REXOS_ERR_FORK_FAILED). assert (H5 := Hz REXOS_ERR_EXEC_FAILED).
    assert (H6 := Hz REXOS_ERR_TIMEOUT). assert (H7 := Hz REXOS_ERR_MEMORY).
    assert (H8 := Hz REXOS_ERR_IO). assert (H9 := Hz REXOS_ERR_INTERNAL).
    cbn in *. unfold rexos_strerror.
    destruct z as [|p|p]; [congruence | reflexivity |].
    repeat (destruct p as [p|p|]; try reflexivity; try congruence).
Qed.

Lemma strerror_identifies_code_witness :
  rexos_strerror 42 = "Unknown error"%string.
Proof.
  destruct strerror_identifies_code as (_ & _ & H).
  apply H. intros []; cbn; discriminate.
Defined.

(** X2. [rexos_init] always succeeds and leaves the bridge initialised; it
    installs the SIGCHLD disposition only when the bridge is not
    initialised, so repeated calls install it once; after [rexos_cleanup]
    the next [rexos_init] installs it again. *)
Theorem init_installs_once (b : bridge) (n : nat) :
  let b1 := snd (rexos_init b) in
  fst (rexos_init b) = REXOS_OK
  /\ g_initialized b1 = true
  /\ Nat.iter n (fun s => snd (rexos_init s)) b1 = b1
  /\ (g_initialized b = false ->
      bridge_calls (Nat.iter (S n) (fun s => snd (rexos_init s)) b)
        = bridge_calls b ++ [call_sigaction_sigchld_ignore])
  /\ bridge_calls (snd (rexos_init (rexos_cleanup b1)))
       = bridge_calls b1 ++ [call_sigaction_sigchld_ignore].
Proof.
  assert (Hfix : forall s, g_initialized s = true ->
                 Nat.iter n (fun s => snd (rexos_init s)) s = s).
  { intros s Hs. induction n as [|n IH]; [reflexivity|].
    rewrite Nat.iter_succ, IH. unfold rexos_init. rewrite Hs. reflexivity. }
  assert (Hinit : g_initialized (snd (rexos_init b)) = true).
  { unfold rexos_init. destruct (g_initialized b) eqn:E; cbn; auto. }
  cbn zeta. repeat apply conj.
  - unfold rexos_init. destruct (g_initialized b); reflexivity.
  - exact Hinit.
  - apply Hfix, Hinit.
  - intros Hb.
    rewrite Nat.iter_succ_r, Hfix by exact Hinit.
    unfold rexos_init. rewrite Hb. reflexivity.
  - reflexivity.
Qed.

Lemma init_installs_once_witness :
  bridge_calls (Nat.iter 3 (fun s => snd (rexos_init s)) bridge_initial)
    = [call_sigaction_sigchld_ignore].
Proof.
  destruct (init_installs_once bridge_initial 2) as (_ & _ & _ & H & _).
  apply H. reflexivity.
Defined.

(** ** The argument vector, for every variant *)

Lemma spec_argv_length (c : rexos_launch_config_t) (extra : list string) :
  (length (spec_argv c extra) <= 10 + length extra)%nat.
Proof.
  unfold spec_argv, spec_retroarch_argv, spec_plain_argv.
  pose proof (spec_retroarch_flags_length c (snprintf_d 8 (load_state_slot c))).
  destruct (type c), (first_char_set (rom_path c));
    rewrite ?length_app; cbn [length]; lia.
Qed.

(** The end of [build_argv]: the loop over the extra arguments, the ROM
    path and the terminator, on an array that holds [head] so far. *)
Lemma build_argv_tail (c : rexos_launch_config_t) (extra head : list string) :
  holds_args c extra -> (length head <= 9)%nat ->
  let rom := if first_char_set (rom_path c) then [cstr (rom_path c)] else [] in
  let b := custom_args_loop true c (32 + Z.of_nat (length extra)) 0
             (filled head (32 + length extra - length head)) in
  let b' := if first_char_set (rom_path c)
            then argv_push (Some (cstr (rom_path c))) b else b in
  <[Z.to_nat (argc b') := None]> (argv b')
    = argv (filled (head ++ extra ++ rom)
              (32 + length extra - length (head ++ extra ++ rom))).
Proof.
  intros Hextra Hhead rom b b'. subst b b' rom.
  pose proof (custom_args_loop_filled c (32 + Z.of_nat (length extra)) extra []
                head (32 + length extra - length head) Hextra) as Hloop.
  cbn [length app] in Hloop. change (Z.of_nat 0) with 0 in Hloop.
  rewrite Hloop by lia.
  destruct (first_char_set (rom_path c)).
  - rewrite push_filled by lia.
    rewrite terminate_filled by lia.
    rewrite <- app_assoc. do 2 f_equal. rewrite !length_app. cbn [length]. lia.
  - rewrite terminate_filled by lia.
    rewrite app_nil_r. do 2 f_equal. rewrite !length_app. lia.
Qed.

(** The array [build_argv] returns: the prescribed strings, then null
    cells up to [32 + arg_count]. *)
Lemma build_argv_filled (c : rexos_launch_config_t) (extra : list string) :
  holds_args c extra ->
  build_argv true true c
    = Some (argv (filled (spec_argv c extra)
                    (32 + length extra - length (spec_argv c extra)))).
Proof.
  intros Hextra. pose proof Hextra as [Hcount _].
  unfold build_argv. cbn [negb]. rewrite Hcount.
  replace {| argv := replicate (Z.to_nat (32 + Z.of_nat (length extra))) None;
             argc := 0 |}
    with (filled [] (32 + length extra)).
  2:{ unfold filled. cbn [fmap list_fmap app length]. do 2 f_equal. lia. }
  unfold strdup. rewrite push_filled by lia. cbn [app].
  set (flags := spec_retroarch_flags c (snprintf_d 8 (load_state_slot c))).
  pose proof (spec_retroarch_flags_length c (snprintf_d 8 (load_state_slot c)))
    as Hflags. fold flags in Hflags.
  unfold spec_argv, spec_retroarch_argv, spec_plain_argv. fold flags.
  f_equal. destruct (type c).
  - rewrite retroarch_args_filled by lia. fold flags.
    replace (32 + length extra - 1 - length flags)%nat
      with (32 + length extra - length ([cstr (executable c)] ++ flags))%nat
      by (rewrite length_app; cbn [length]; lia).
    rewrite (build_argv_tail c extra ([cstr (executable c)] ++ flags) Hextra)
      by (rewrite length_app; cbn [length]; lia).
    rewrite <- app_assoc. reflexivity.
  - exact (build_argv_tail c extra [cstr (executable c)] Hextra ltac:(cbn; lia)).
  - exact (build_argv_tail c extra [cstr (executable c)] Hextra ltac:(cbn; lia)).
  - exact (build_argv_tail c extra [cstr (executable c)] Hextra ltac:(cbn; lia)).
  - exact (build_argv_tail c extra [cstr (executable c)] Hextra ltac:(cbn; lia)).
Qed.

Lemma same_options_refl (c : rexos_launch_config_t) : same_options c c.
Proof. repeat split. Qed.

Lemma same_options_trans (c1 c2 c3 : rexos_launch_config_t) :
  same_options c1 c2 -> same_options c2 c3 -> same_options c1 c3.
Proof. unfold same_options. intuition congruence. Qed.

Lemma spec_argv_same_options (c c1 : rexos_launch_config_t) (extra : list string) :
  same_options c c1 -> spec_argv c1 extra = spec_argv c extra.
Proof.
  intros (Ht & He & Hr & Hc & Hg & Hf & Hv & Hs & _).
  unfold spec_argv, spec_retroarch_argv, spec_retroarch_flags, spec_plain_argv.
  rewrite Ht, He, Hr, Hc, Hg, Hf, Hv, Hs. reflexivity.
Qed.

Lemma take_take_app {A} (n : nat) (x y : list A) :
  take n (take n x ++ y) = take n (x ++ y).
Proof.
  rewrite !take_app, take_take, Nat.min_id, length_take.
  destruct (Nat.le_gt_cases n (length x)).
  - replace (n - n `min` length x)%nat with 0%nat by lia.
    replace (n - length x)%nat with 0%nat by lia. reflexivity.
  - replace (n `min` length x)%nat with (length x) by lia. reflexivity.
Qed.

(** One [rexos_launch_config_add_arg]: stored while fewer than 63 are held,
    dropped afterwards; the other fields stay. *)
Lemma push_arg_step (c : rexos_launch_config_t) (extra : list string) (a : string) :
  arrays_ok c -> holds_args c extra -> (length extra <= 63)%nat ->
  arrays_ok (push_arg c a)
  /\ same_options c (push_arg c a)
  /\ holds_args (push_arg c a) (take 63 (extra ++ [a])).
Proof.
  intros Hok Hextra Hlen. pose proof Hextra as [Hcount _].
  destruct (Nat.eq_dec (length extra) 63%nat) as [Hfull|Hroom].
  - assert (Hrej : REXOS_MAX_ARGS - 1 <= arg_count c)
      by (unfold REXOS_MAX_ARGS; lia).
    unfold push_arg. rewrite (add_arg_full true c a Hrej).
    rewrite take_app, take_ge, Hfull by lia. cbn [take]. rewrite app_nil_r.
    auto using same_options_refl.
  - assert (Hlt : arg_count c < REXOS_MAX_ARGS - 1)
      by (unfold REXOS_MAX_ARGS; lia).
    pose proof (holds_args_push c extra a Hok Hlt Hextra) as Hpush.
    rewrite take_ge by (rewrite length_app; cbn [length]; lia).
    split; [|split; [|exact Hpush]].
    + unfold push_arg. rewrite (add_arg_stored c a Hok Hlt).
      destruct Hok as (Ha & He & Hp & Hq). unfold arrays_ok.
      cbn [set_arg_count set_args args env arg_count env_count].
      rewrite length_insert. repeat split; auto; lia.
    + unfold push_arg. rewrite (add_arg_stored c a Hok Hlt). repeat split.
Qed.

Lemma push_args_holds (l : list string) :
  forall (c : rexos_launch_config_t) (extra : list string),
    arrays_ok c -> holds_args c extra -> (length extra <= 63)%nat ->
    arrays_ok (push_args c l)
    /\ same_options c (push_args c l)
    /\ holds_args (push_args c l) (take 63 (extra ++ l)).
Proof.
  induction l as [|a l IH]; intros c extra Hok Hextra Hlen.
  - cbn [push_args fold_left]. rewrite app_nil_r, take_ge by lia.
    auto using same_options_refl.
  - destruct (push_arg_step c extra a Hok Hextra Hlen) as (Hok1 & Hsame1 & Hextra1).
    destruct (IH (push_arg c a) (take 63 (extra ++ [a])) Hok1 Hextra1)
      as (Hok2 & Hsame2 & Hextra2).
    { rewrite length_take. lia. }
    cbn [push_args fold_left] in *. split; [exact Hok2|].
    split; [exact (same_options_trans _ _ _ Hsame1 Hsame2)|].
    rewrite take_take_app, <- app_assoc in Hextra2. exact Hextra2.
Qed.

(** X3. For the variants other than retroarch, [build_argv] yields the
    executable, the extra arguments in insertion order and the ROM path if
    set: no flag is derived from the core path, the config path, the
    fullscreen and verbose options or the save-state slot. *)
Theorem build_argv_other_variants (c : rexos_launch_config_t)
    (extra : list string) :
  type c <> REXOS_EMU_RETROARCH -> holds_args c extra ->
  argv_strings <$> build_argv true true c = Some (spec_plain_argv c extra).
Proof.
  intros Htype Hextra. rewrite (build_argv_filled c extra Hextra).
  cbn [fmap option_fmap option_map]. rewrite argv_strings_filled.
  unfold spec_argv. destruct (type c); [contradiction | reflexivity ..].
Qed.

Lemma build_argv_other_variants_witness :
  argv_strings <$> build_argv true true standalone_config
    = Some ["/bin/ppsspp"; "--escape-exit"; "--pause-menu-exit";
            "/roms/game.iso"]%string.
Proof.
  rewrite (build_argv_other_variants standalone_config
             ["--escape-exit"; "--pause-menu-exit"]%string).
  - vm_compute. reflexivity.
  - discriminate.
  - split; vm_compute; reflexivity.
Defined.

(** X4. The array of [32 + arg_count] cells always suffices: the strings
    are followed by at least 22 null cells, so every write of [build_argv],
    the terminator included, lands inside the array and the bound
    [argc < max_args - 2] of the copying loop never cuts an argument. *)
Theorem build_argv_within_array (c : rexos_launch_config_t)
    (extra : list string) :
  holds_args c extra ->
  exists (strings : list string) (k : nat),
    build_argv true true c = Some ((Some <$> strings) ++ replicate k None)
    /\ (22 <= k)%nat
    /\ (length strings + k = 32 + length extra)%nat
    /\ exists head tail, strings = head ++ extra ++ tail.
Proof.
  intros Hextra. pose proof (spec_argv_length c extra) as Hlen.
  exists (spec_argv c extra), (32 + length extra - length (spec_argv c extra))%nat.
  split; [exact (build_argv_filled c extra Hextra)|].
  split; [lia|]. split; [lia|].
  unfold spec_argv, spec_retroarch_argv, spec_plain_argv.
  destruct (type c).
  - exists ([cstr (executable c)]
            ++ spec_retroarch_flags c (snprintf_d 8 (load_state_slot c))).
    eexists. rewrite <- app_assoc. reflexivity.
  - exists [cstr (executable c)]. eexists. reflexivity.
  - exists [cstr (executable c)]. eexists. reflexivity.
  - exists [cstr (executable c)]. eexists. reflexivity.
  - exists [cstr (executable c)]. eexists. reflexivity.
Qed.

Lemma build_argv_within_array_witness :
  exists (strings : list string) (k : nat),
    build_argv true true standalone_config
      = Some ((Some <$> strings) ++ replicate k None)
    /\ (22 <= k)%nat
    /\ (length strings + k = 32 + 2)%nat
    /\ exists head tail,
         strings = head ++ ["--escape-exit"; "--pause-menu-exit"]%string ++ tail.
Proof.
  apply (build_argv_within_array standalone_config
           ["--escape-exit"; "--pause-menu-exit"]%string).
  split; vm_compute; reflexivity.
Defined.

(** X5. Arguments added through [rexos_launch_config_add_arg] to a
    configuration that holds none reach the command line in the order of
    the calls: [build_argv] emits the first 63 of them between the
    type-specific flags and the ROM path, and none of the later ones. *)
Theorem added_args_reach_command_line (c0 : rexos_launch_config_t)
    (l : list string) :
  arrays_ok c0 -> holds_args c0 [] ->
  argv_strings <$> build_argv true true (push_args c0 l)
    = Some (spec_argv c0 (take 63 l)).
Proof.
  intros Hok Hnone.
  destruct (push_args_holds l c0 [] Hok Hnone) as (_ & Hsame & Hheld);
    [cbn; lia|].
  cbn [app] in Hheld.
  rewrite (build_argv_filled _ _ Hheld).
  cbn [fmap option_fmap option_map]. rewrite argv_strings_filled.
  f_equal. apply spec_argv_same_options, Hsame.
Qed.

Lemma added_args_reach_command_line_witness :
  argv_strings <$> build_argv true true
                     (push_args snes_config ["--set-shader"; "crt"]%string)
    = Some ["/bin/retroarch"; "-L"; "/cores/snes.so"; "--fullscreen";
            "--set-shader"; "crt"; "/roms/game.sfc"]%string.
Proof.
  rewrite (added_args_reach_command_line snes_config
             ["--set-shader"; "crt"]%string).
  - vm_compute. reflexivity.
  - repeat split; vm_compute; congruence.
  - split; vm_compute; reflexivity.
Defined.

(** ** Environment variables, from [add_env] to the child *)

Lemma add_env_slot (c : rexos_launch_config_t) (k v : string) :
  env_count c < REXOS_MAX_ENV ->
  rexos_launch_config_add_env (Some c) (Some k) (Some v)
    = (0, Some (set_env_count
                  (set_env c
                     (<[Z.to_nat (env_count c) :=
                          {| key := strncpy
                                      (key (default zero_env_var
                                              (env c !! Z.to_nat (env_count c))))
                                      k 255;
                             value := strncpy
                                        (value (default zero_env_var
                                                  (env c !! Z.to_nat (env_count c))))
                                        v 1023 |}]> (env c)))
                  (env_count c + 1))).
Proof.
  intros Hlt. unfold rexos_launch_config_add_env.
  destruct (Z.geb_spec (env_count c) REXOS_MAX_ENV); [lia | reflexivity].
Qed.

Lemma push_env_step (c : rexos_launch_config_t) (vars : list (string * string))
    (kv : string * string) :
  arrays_ok c -> env_terminated c -> holds_env c vars ->
  (length vars < 128)%nat -> var_nul_free kv ->
  arrays_ok (push_env c kv) /\ env_terminated (push_env c kv)
  /\ same_options c (push_env c kv)
  /\ holds_env (push_env c kv) (vars ++ [truncated_var kv]).
Proof.
  intros Hok Hterm [Hcount Hread] Hlen [Hk Hv].
  assert (Hlt : env_count c < REXOS_MAX_ENV) by (unfold REXOS_MAX_ENV; lia).
  assert (Hpres : snd (rexos_launch_config_add_env (Some c) (Some (fst kv))
                         (Some (snd kv))) = Some (push_env c kv)).
  { unfold push_env. rewrite (add_env_slot c (fst kv) (snd kv) Hlt). reflexivity. }
  destruct (add_env_preserves c _ _ _ Hpres Hok Hterm) as [Hok1 Hterm1].
  split; [exact Hok1|]. split; [exact Hterm1|].
  unfold push_env in *. rewrite (add_env_slot c (fst kv) (snd kv) Hlt) in *.
  split; [repeat split|].
  destruct Hok as (_ & Henv & _ & _).
  assert (Hi : (length vars < length (env c))%nat)
    by (rewrite Henv; unfold REXOS_MAX_ENV; lia).
  destruct (lookup_lt_is_Some_2 _ _ Hi) as [slot Hslot].
  destruct (proj1 (Forall_lookup _ _) Hterm _ _ Hslot) as [[Hkl Hkz] [Hvl Hvz]].
  split; cbn [set_env_count set_env env env_count].
  - rewrite length_app. cbn [length]. lia.
  - rewrite Hcount, Nat2Z.id, Hslot, length_app. cbn [length default from_option].
    rewrite Nat.add_1_r. erewrite take_S_r by (apply list_lookup_insert_eq, Hi).
    rewrite take_insert_ge by lia. rewrite fmap_app, Hread.
    cbn [fmap list_fmap key value]. unfold truncated_var, id.
    rewrite (strncpy_cstr (key slot) (fst kv) 255 Hk Hkl Hkz).
    rewrite (strncpy_cstr (value slot) (snd kv) 1023 Hv Hvl Hvz).
    reflexivity.
Qed.

Lemma push_envs_holds (l : list (string * string)) :
  forall (c : rexos_launch_config_t) (vars : list (string * string)),
    arrays_ok c -> env_terminated c -> holds_env c vars ->
    (length vars + length l <= 128)%nat -> Forall var_nul_free l ->
    same_options c (push_envs c l)
    /\ holds_env (push_envs c l) (vars ++ (truncated_var <$> l)).
Proof.
  induction l as [|kv l IH]; intros c vars Hok Hterm Hheld Hlen Hfree.
  - cbn [push_envs fold_left fmap list_fmap]. rewrite app_nil_r.
    auto using same_options_refl.
  - apply Forall_cons in Hfree as [Hkv Hfree]. cbn [length] in Hlen.
    destruct (push_env_step c vars kv Hok Hterm Hheld ltac:(lia) Hkv)
      as (Hok1 & Hterm1 & Hsame1 & Hheld1).
    destruct (IH (push_env c kv) _ Hok1 Hterm1 Hheld1) as (Hsame2 & Hheld2);
      [rewrite length_app; cbn [length]; lia | exact Hfree |].
    cbn [push_envs fold_left fmap list_fmap] in *.
    split; [exact (same_options_trans _ _ _ Hsame1 Hsame2)|].
    rewrite <- app_assoc in Hheld2. exact Hheld2.
Qed.

Lemma setenv_all_calls (vars : list rexos_env_var_t) (w : world) :
  setenv_all vars w
    = (tt, with_trace w (trace w ++ (setenv_of_slot <$> vars))).
Proof.
  revert w. induction vars as [|e vars IH]; intros w.
  - destruct w. cbn. rewrite app_nil_r. reflexivity.
  - cbn [setenv_all]. unfold bind, emit. rewrite IH.
    unfold with_trace. cbn. rewrite <- app_assoc. reflexivity.
Qed.

(** The calls of [setup_child_process], in order. *)
Lemma setup_child_process_calls (c : rexos_launch_config_t) (w : world) :
  setup_child_process c w
    = (tt, with_trace w
             (trace w ++ scheduling_calls c
                ++ (setenv_of_slot <$> take (Z.to_nat (env_count c)) (env c))
                ++ [sys_setsid])).
Proof.
  unfold setup_child_process, scheduling_calls.
  destruct (negb (nice_value c =? 0)), (cpu_affinity c >=? 0), (realtime_priority c);
    unfold bind, emit, ret; rewrite setenv_all_calls;
    unfold with_trace; cbn; rewrite <- ?app_assoc; reflexivity.
Qed.

(** X6. Variables added through [rexos_launch_config_add_env] to a
    configuration that holds none are exported by the child in the order of
    the calls, one [setenv] each with the key cut to 255 and the value to
    1023 characters; the scheduling calls come before them and [setsid]
    is the last call of the set-up. A key added twice is exported twice,
    the later value last. *)
Theorem added_env_exported_in_order (c0 : rexos_launch_config_t)
    (l : list (string * string)) (w : world) :
  arrays_ok c0 -> env_terminated c0 -> env_count c0 = 0 ->
  (length l <= 128)%nat -> Forall var_nul_free l ->
  trace (snd (setup_child_process (push_envs c0 l) w))
    = trace w ++ scheduling_calls c0 ++ (setenv_of_var <$> l) ++ [sys_setsid].
Proof.
  intros Hok Hterm Hnone Hlen Hfree.
  destruct (push_envs_holds l c0 [] Hok Hterm) as (Hsame & Hcount & Hread);
    [split; [exact Hnone | reflexivity] | cbn; lia | exact Hfree |].
  rewrite setup_child_process_calls. cbn [snd with_trace trace].
  cbn [app] in Hcount, Hread. rewrite length_fmap in Hcount, Hread.
  rewrite Hcount, Nat2Z.id.
  assert (Hcalls : setenv_of_slot <$> take (length l) (env (push_envs c0 l))
                   = setenv_of_var <$> l).
  { transitivity ((fun kv : string * string => sys_setenv (fst kv) (snd kv))
                    <$> ((fun e => (cstr (key e), cstr (value e)))
                           <$> take (length l) (env (push_envs c0 l)))).
    - rewrite <- list_fmap_compose. reflexivity.
    - rewrite Hread, <- list_fmap_compose. reflexivity. }
  rewrite Hcalls.
  destruct Hsame as (_ & _ & _ & _ & _ & _ & _ & _ & Ha & Hn & Hr).
  unfold scheduling_calls. rewrite Ha, Hn, Hr. reflexivity.
Qed.

Lemma added_env_exported_in_order_witness :
  trace (snd (setup_child_process
                (push_envs snes_config
                   [("HOME", "/home/ark"); ("HOME", "/tmp")]%string)
                quiet_world))
    = [sys_setenv "HOME" "/home/ark"; sys_setenv "HOME" "/tmp"; sys_setsid].
Proof.
  rewrite (added_env_exported_in_order snes_config
             [("HOME", "/home/ark"); ("HOME", "/tmp")]%string quiet_world).
  - vm_compute. reflexivity.
  - repeat split; vm_compute; congruence.
  - apply Forall_replicate, zero_env_var_terminated.
  - reflexivity.
  - cbn. lia.
  - repeat (apply Forall_cons; split;
            [split; apply nul_freeb_correct; reflexivity|]).
    apply Forall_nil. exact I.
Defined.

(** ** Launch: the successful call and the child *)

(** X7. When the executable is there, memory is available and [fork]
    returns a child identifier, [rexos_launch] returns success, stores that
    identifier in [*pid], has created exactly that one child, and has
    issued two calls, [access] and [fork]: it does not wait for the child. *)
Theorem launch_creates_one_child (c : rexos_launch_config_t) (cell : Z)
    (w : world) :
  first_char_set (executable c) = true ->
  access_result w (cstr (executable c)) X_OK = 0 ->
  calloc_ok w = true -> 0 < fork_result w ->
  let r := rexos_launch (Some c) (Some cell) w in
  fst r = launch_returned REXOS_OK (Some (fork_result w))
  /\ children (snd r) = children w ++ [fork_result w]
  /\ trace (snd r)
       = trace w ++ [sys_access (cstr (executable c)) X_OK; sys_fork]
  /\ waitpid_script (snd r) = waitpid_script w.
Proof.
  intros Hexe Hacc Hmem Hfork r. subst r.
  rewrite (rexos_launch_parent c cell w Hexe Hacc Hmem Hfork).
  repeat split.
Qed.

Lemma launch_creates_one_child_witness :
  fst (rexos_launch (Some snes_config) (Some 0) quiet_world)
    = launch_returned REXOS_OK (Some 4242)
  /\ children (snd (rexos_launch (Some snes_config) (Some 0) quiet_world))
       = [4242].
Proof.
  destruct (launch_creates_one_child snes_config 0 quiet_world)
    as (Hret & Hch & _); [vm_compute; reflexivity | reflexivity | reflexivity
                         | reflexivity |].
  split; [exact Hret | exact Hch].
Defined.

Lemma spec_argv_head (c : rexos_launch_config_t) (extra : list string) :
  exists rest, spec_argv c extra = cstr (executable c) :: rest.
Proof.
  unfold spec_argv, spec_retroarch_argv, spec_plain_argv.
  destruct (type c); eexists; reflexivity.
Qed.

(** With [fork] answering 0 the call continues as the child. *)
Lemma rexos_launch_in_child (c : rexos_launch_config_t) (cell : Z) (w : world)
    (a : list (option string)) :
  first_char_set (executable c) = true ->
  access_result w (cstr (executable c)) X_OK = 0 ->
  build_argv (calloc_ok w) (strdup_ok w) c = Some a ->
  fork_result w = 0 ->
  rexos_launch (Some c) (Some cell) w
    = child_process c a
        (with_trace w (trace w ++ [sys_access (cstr (executable c)) X_OK;
                                   sys_fork])).
Proof.
  intros Hexe Hacc Ha Hfork. unfold rexos_launch. rewrite Hexe.
  unfold bind, access, emit, ret, fork. cbn. rewrite Hacc. cbn. rewrite Ha.
  cbn. rewrite Hfork. cbn.
  unfold with_trace. cbn. rewrite <- app_assoc. reflexivity.
Qed.

(** The child's code on an argument vector [a]. *)
Lemma child_process_run (c : rexos_launch_config_t) (a : list (option string))
    (w : world) :
  let calls :=
    scheduling_calls c
    ++ (setenv_of_slot <$> take (Z.to_nat (env_count c)) (env c))
    ++ [sys_setsid; sys_close STDIN_FILENO; sys_open "/dev/null";
        sys_execvp (default None (a !! 0%nat)) (argv_strings a)] in
  child_process c a w
    = if execvp_ok w
      then (launch_child_exec (default None (a !! 0%nat)) (argv_strings a),
            with_trace w (trace w ++ calls))
      else (launch_child_exit 127,
            with_trace w (trace w ++ calls ++ [sys_exit 127])).
Proof.
  unfold child_process. unfold bind at 1. rewrite setup_child_process_calls.
  unfold bind, emit, ret. cbn [with_trace trace execvp_ok].
  destruct (execvp_ok w); unfold with_trace; cbn;
    rewrite <- ?app_assoc; cbn; rewrite <- ?app_assoc; reflexivity.
Qed.

(** X8. In the forked child ([fork] has returned 0), [rexos_launch] never
    returns to its caller: after the set-up calls it closes standard input,
    opens [/dev/null], and calls [execvp] with the executable path and the
    argument vector of [build_argv]; if [execvp] fails the child leaves with
    [_exit(127)]. The child creates no process of its own. *)
Theorem launch_child_execs_or_exits (c : rexos_launch_config_t)
    (extra : list string) (cell : Z) (w : world) :
  holds_args c extra ->
  first_char_set (executable c) = true ->
  access_result w (cstr (executable c)) X_OK = 0 ->
  calloc_ok w = true -> strdup_ok w = true -> fork_result w = 0 ->
  let r := rexos_launch (Some c) (Some cell) w in
  fst r = (if execvp_ok w
           then launch_child_exec (Some (cstr (executable c))) (spec_argv c extra)
           else launch_child_exit 127)
  /\ trace (snd r)
       = trace w
         ++ [sys_access (cstr (executable c)) X_OK; sys_fork]
         ++ scheduling_calls c
         ++ (setenv_of_slot <$> take (Z.to_nat (env_count c)) (env c))
         ++ [sys_setsid; sys_close STDIN_FILENO; sys_open "/dev/null";
             sys_execvp (Some (cstr (executable c))) (spec_argv c extra)]
         ++ (if execvp_ok w then [] else [sys_exit 127])
  /\ children (snd r) = children w.
Proof.
  intros Hextra Hexe Hacc Hmem Hdup Hfork r. subst r.
  assert (Ha : build_argv (calloc_ok w) (strdup_ok w) c
               = Some (argv (filled (spec_argv c extra)
                               (32 + length extra - length (spec_argv c extra)))))
    by (rewrite Hmem, Hdup; exact (build_argv_filled c extra Hextra)).
  rewrite (rexos_launch_in_child c cell w _ Hexe Hacc Ha Hfork).
  rewrite child_process_run, argv_strings_filled.
  destruct (spec_argv_head c extra) as [rest Hhead].
  assert (Hfile : default None
                    (argv (filled (spec_argv c extra)
                             (32 + length extra - length (spec_argv c extra)))
                       !! 0%nat) = Some (cstr (executable c))).
  { rewrite Hhead. reflexivity. }
  rewrite Hfile. cbn [execvp_ok with_trace].
  destruct (execvp_ok w); cbn [fst snd with_trace trace children];
    repeat split; rewrite <- ?app_assoc; cbn [app];
    rewrite ?app_nil_r; reflexivity.
Qed.

Lemma launch_child_execs_or_exits_witness :
  fst (rexos_launch (Some env_config) (Some 0) child_world)
    = launch_child_exit 127
  /\ trace (snd (rexos_launch (Some env_config) (Some 0) child_world))
     = [sys_access "/bin/retroarch" X_OK; sys_fork;
        sys_setpriority PRIO_PROCESS 0 (-5);
        sys_setenv "SDL_VIDEODRIVER" "kmsdrm"; sys_setenv "HOME" "/home/ark";
        sys_setsid; sys_close STDIN_FILENO; sys_open "/dev/null";
        sys_execvp (Some "/bin/retroarch"%string)
          ["/bin/retroarch"; "-L"; "/cores/snes.so"; "--fullscreen";
           "/roms/game.sfc"]%string;
        sys_exit 127].
Proof.
  destruct (launch_child_execs_or_exits env_config [] 0 child_world)
    as (Hret & Htrace & _);
    [split; vm_compute; reflexivity | vm_compute; reflexivity
    | reflexivity | reflexivity | reflexivity | reflexivity |].
  split.
  - rewrite Hret. reflexivity.
  - rewrite Htrace. vm_compute. reflexivity.
Defined.

(** ** Launch: a failing [strdup] *)

Lemma argv_push_null (b : argv_builder) :
  Forall (eq None) (argv b) -> Forall (eq None) (argv (argv_push None b)).
Proof. intros H. unfold argv_push. cbn [argv]. apply Forall_insert; auto. Qed.

Lemma custom_args_loop_null (c : rexos_launch_config_t) (max_args : Z) (n : nat) :
  forall (i : Z) (b : argv_builder),
    Z.to_nat (arg_count c - i) = n ->
    Forall (eq None) (argv b) ->
    Forall (eq None) (argv (custom_args_loop false c max_args i b)).
Proof.
  induction n as [|n IH]; intros i b Hn Hb;
    rewrite custom_args_loop_equation_1; unfold custom_args_loop_unfold_clause_1;
    destruct (Z_lt_dec i (arg_count c)); try assumption; try lia.
  destruct (argc b <? max_args - 2); [|assumption].
  apply IH; [lia|].
  replace (dup_arg false c i) with (@None string).
  - apply argv_push_null, Hb.
  - unfold dup_arg, strdup. destruct (args c !! Z.to_nat i) as [[s|]|]; reflexivity.
Qed.

Lemma argv_strings_null (a : list (option string)) :
  Forall (eq None) a -> argv_strings a = [].
Proof. destruct 1 as [|x l <- _]; reflexivity. Qed.

Lemma build_argv_all_null (c : rexos_launch_config_t) :
  exists a, build_argv true false c = Some a /\ Forall (eq None) a.
Proof.
  unfold build_argv. cbn [negb]. eexists. split; [reflexivity|].
  apply Forall_insert; [|reflexivity].
  assert (Hloop : forall b, Forall (eq None) (argv b) ->
            Forall (eq None)
              (argv (if first_char_set (rom_path c)
                     then argv_push (strdup false (cstr (rom_path c)))
                            (custom_args_loop false c (32 + arg_count c) 0 b)
                     else custom_args_loop false c (32 + arg_count c) 0 b))).
  { intros b Hb.
    pose proof (custom_args_loop_null c (32 + arg_count c) _ 0 b eq_refl Hb).
    destruct (first_char_set (rom_path c)); [apply argv_push_null|]; assumption. }
  apply Hloop.
  assert (H0 : Forall (eq None)
                 (argv (argv_push (strdup false (cstr (executable c)))
                          {| argv := replicate (Z.to_nat (32 + arg_count c)) None;
                             argc := 0 |}))).
  { apply argv_push_null. cbn [argv]. apply Forall_replicate. reflexivity. }
  destruct (type c); try exact H0.
  unfold retroarch_args, strdup.
  destruct (first_char_set (core_path c)), (first_char_set (config_path c)),
    (fullscreen c), (verbose c), (load_state_slot c >=? 0);
    repeat apply argv_push_null; cbn [argv]; apply Forall_replicate;
    reflexivity.
Qed.

(** X9. A failing [strdup] is never reported: when [calloc] succeeds and
    every [strdup] fails, [build_argv] still returns an array, all of whose
    cells are null (an empty argument vector), and [rexos_launch] goes on
    to [fork] and returns success. *)
Theorem launch_ignores_failed_strdup (c : rexos_launch_config_t) (cell : Z)
    (w : world) :
  first_char_set (executable c) = true ->
  access_result w (cstr (executable c)) X_OK = 0 ->
  calloc_ok w = true -> strdup_ok w = false -> 0 < fork_result w ->
  (exists a, build_argv (calloc_ok w) (strdup_ok w) c = Some a
             /\ Forall (eq None) a /\ argv_strings a = [])
  /\ fst (rexos_launch (Some c) (Some cell) w)
       = launch_returned REXOS_OK (Some (fork_result w)).
Proof.
  intros Hexe Hacc Hmem Hdup Hfork. split.
  - rewrite Hmem, Hdup. destruct (build_argv_all_null c) as (a & Ha & Hnull).
    exists a. auto using argv_strings_null.
  - rewrite (rexos_launch_parent c cell w Hexe Hacc Hmem Hfork). reflexivity.
Qed.

Lemma launch_ignores_failed_strdup_witness :
  fst (rexos_launch (Some snes_config) (Some 0) no_strdup_world)
    = launch_returned REXOS_OK (Some 4242).
Proof.
  apply (launch_ignores_failed_strdup snes_config 0 no_strdup_world);
    [vm_compute; reflexivity | reflexivity | reflexivity | reflexivity
    | reflexivity].
Defined.

(** ** Waiting: what the call leaves alone, and how long it polls *)






Lemma signaled_status_not_exited (sig : Z) :
  0 < sig < 128 -> WIFEXITED (signaled_status sig) = false.
Proof.
  intros Hs. unfold WIFEXITED, signaled_status. apply Z.eqb_neq.
  change 127 with (Z.ones 7). rewrite Z.land_ones by lia.
  rewrite Z.mod_small; lia.
Qed.



(** X11. A process ended by a signal is reported as success without an
    exit code: when the poll that finds the process terminated carries a
    status that is not a normal exit, [rexos_wait] returns REXOS_OK and
    [*exit_code] keeps the value it had. This holds in the single-wait
    modes and, for a positive timeout, for any poll made before the
    timeout. *)
Theorem wait_signaled_keeps_exit_code (pid timeout_ms : Z) (ec : option Z)
    (w : world) (running rest : list (Z * Z)) (status : Z) :
  0 < pid -> timeout_ms <= INT_MAX ->
  all_running running ->
  waitpid_script w = running ++ (pid, status) :: rest ->
  WIFEXITED status = false ->
  (if timeout_ms >? 0 then 10 * Z.of_nat (length running) < timeout_ms
   else running = []) ->
  fst (rexos_wait pid timeout_ms ec w) = wait_returned REXOS_OK ec.
Proof.
  intros Hpid Hint Hrun Hscript Hsig Hwhen. unfold INT_MAX in *.
  assert (Hstore : store_exit_code ec status = ec).
  { unfold store_exit_code. rewrite Hsig. destruct ec; reflexivity. }
  unfold rexos_wait. destruct (Z.leb_spec pid 0); [lia|].
  destruct (Z.gtb_spec timeout_ms 0).
  - destruct (Z.eqb_spec timeout_ms 0); [lia|].
    destruct (wait_poll_loop_running pid timeout_ms ec running 0 w
                ((pid, status) :: rest) Hpid Hrun Hscript)
      as (w' & Heq & _ & Hsc & _); [unfold INT_MAX; lia|].
    rewrite Heq, wait_poll_loop_body, waitpid_answer.
    unfold next_answer. rewrite Hsc. cbn [hd fst snd].
    destruct (Z.ltb_spec (0 + 10 * Z.of_nat (length running)) timeout_ms); [|lia].
    rewrite Z.eqb_refl, Hstore. reflexivity.
  - subst running. cbn [app] in Hscript.
    assert (Hnext : next_answer w = (pid, status))
      by (unfold next_answer; rewrite Hscript; reflexivity).
    destruct (Z.eqb_spec timeout_ms 0).
    + destruct (wait_once_outcome pid WNOHANG ec w) as (_ & Hok & _).
      rewrite Hok by (rewrite Hnext; reflexivity).
      rewrite Hnext. cbn [snd]. rewrite Hstore. reflexivity.
    + destruct (wait_once_outcome pid 0 ec w) as (_ & Hok & _).
      rewrite Hok by (rewrite Hnext; reflexivity).
      rewrite Hnext. cbn [snd]. rewrite Hstore. reflexivity.
Qed.

Lemma wait_signaled_keeps_exit_code_witness :
  fst (rexos_wait 4242 1000 (Some 99) killed_world)
    = wait_returned REXOS_OK (Some 99).
Proof.
  apply (wait_signaled_keeps_exit_code 4242 1000 (Some 99) killed_world
           [(0, 0)] [] (signaled_status SIGKILL)).
  - lia.
  - unfold INT_MAX. lia.
  - repeat constructor.
  - reflexivity.
  - apply signaled_status_not_exited. unfold SIGKILL. lia.
  - cbn. lia.
Defined.

(** The calls of the polling loop: rounds of poll and sleep, then at most
    one more poll; no more rounds than tens of milliseconds remain. *)
Lemma wait_poll_loop_rounds (pid timeout_ms : Z) (ec : option Z) (k : nat) :
  forall (elapsed : Z) (w : world),
    Z.to_nat ((timeout_ms - elapsed + 9) / 10) = k ->
    exists (m : nat) (last : list syscall),
      trace (snd (wait_poll_loop pid timeout_ms ec elapsed w))
        = trace w ++ idle_polls pid m ++ last
      /\ (last = [] \/ last = [sys_waitpid pid WNOHANG])
      /\ (m <= k)%nat
      /\ children (snd (wait_poll_loop pid timeout_ms ec elapsed w))
           = children w.
Proof.
  induction k as [|k IH]; intros elapsed w Hk;
    rewrite wait_poll_loop_body; cbv zeta;
    destruct (Z.ltb_spec elapsed timeout_ms) as [Hlt|Hge].
  - exfalso.
    assert (1 <= (timeout_ms - elapsed + 9) / 10)
      by (apply Z.div_le_lower_bound; lia).
    lia.
  - exists 0%nat, []. cbn. rewrite app_nil_r. auto.
  - rewrite waitpid_answer. cbn [fst snd].
    destruct (fst (next_answer w) =? pid);
      [exists 0%nat, [sys_waitpid pid WNOHANG]; cbn; repeat split; auto; lia|].
    destruct (fst (next_answer w) <? 0);
      [exists 0%nat, [sys_waitpid pid WNOHANG]; cbn; repeat split; auto; lia|].
    destruct (elapsed + 10 >? INT_MAX).
    + exists 1%nat, []. cbn. repeat split; auto; try lia.
      rewrite <- app_assoc. reflexivity.
    + edestruct (IH (elapsed + 10)) as (m & last & Htr & Hlast & Hm & Hch).
      2:{ exists (S m), last. rewrite Htr, Hch. cbn.
          repeat split; auto; try lia. rewrite <- !app_assoc. reflexivity. }
      replace (timeout_ms - (elapsed + 10) + 9)
        with ((timeout_ms - elapsed + 9) + (-1) * 10) by lia.
      rewrite Z.div_add by lia. lia.
  - exists 0%nat, []. cbn. rewrite app_nil_r. split; [reflexivity|].
    split; [auto|]. split; [lia | reflexivity].
Qed.

(** With a timeout of at most 2147483640 ms the counter [elapsed], a
    multiple of 10, never leaves the range of [int]: the loop returns. *)
Lemma wait_poll_loop_returns (pid timeout_ms : Z) (ec : option Z) (k : nat) :
  timeout_ms <= 2147483640 ->
  forall (elapsed : Z) (w : world),
    0 <= elapsed -> elapsed mod 10 = 0 ->
    Z.to_nat ((timeout_ms - elapsed + 9) / 10) = k ->
    exists err ec',
      fst (wait_poll_loop pid timeout_ms ec elapsed w) = wait_returned err ec'.
Proof.
  intros Hmax. induction k as [|k IH]; intros elapsed w Hpos Hmod Hk;
    rewrite wait_poll_loop_body; cbv zeta;
    destruct (Z.ltb_spec elapsed timeout_ms) as [Hlt|Hge]; eauto.
  - exfalso.
    assert (1 <= (timeout_ms - elapsed + 9) / 10)
      by (apply Z.div_le_lower_bound; lia).
    lia.
  - rewrite waitpid_answer. cbn [fst snd].
    destruct (fst (next_answer w) =? pid); [eauto|].
    destruct (fst (next_answer w) <? 0); [eauto|].
    pose proof (Z.div_mod elapsed 10) as Hdiv.
    destruct (Z.gtb_spec (elapsed + 10) INT_MAX) as [Hover|_];
      [unfold INT_MAX in Hover; lia|].
    apply IH; [lia | | ].
    + rewrite <- Zplus_mod_idemp_l, Hmod. reflexivity.
    + replace (timeout_ms - (elapsed + 10) + 9)
        with ((timeout_ms - elapsed + 9) + (-1) * 10) by lia.
      rewrite Z.div_add by lia. lia.
Qed.

(** X12. With a positive handle and a positive timeout of at most
    2147483640 ms (beyond which the counter of elapsed time can leave the
    range of [int]) [rexos_wait] returns, having issued nothing but rounds
    of a non-blocking [waitpid] followed by [usleep(10000)], then at most
    one more [waitpid]; the number of rounds never exceeds the timeout
    divided by 10, rounded up, so the call sleeps for at most the timeout
    rounded up to the next 10 ms. It creates no process. *)
Theorem wait_polls_at_most_timeout (pid timeout_ms : Z) (ec : option Z)
    (w : world) :
  0 < pid -> 0 < timeout_ms <= 2147483640 ->
  exists (m : nat) (last : list syscall),
    trace (snd (rexos_wait pid timeout_ms ec w))
      = trace w ++ idle_polls pid m ++ last
    /\ (last = [] \/ last = [sys_waitpid pid WNOHANG])
    /\ Z.of_nat m <= (timeout_ms + 9) / 10
    /\ children (snd (rexos_wait pid timeout_ms ec w)) = children w
    /\ exists err ec',
         fst (rexos_wait pid timeout_ms ec w) = wait_returned err ec'.
Proof.
  intros Hpid [Hpos Hmax]. unfold rexos_wait.
  destruct (Z.leb_spec pid 0); [lia|].
  destruct (Z.eqb_spec timeout_ms 0); [lia|].
  destruct (Z.gtb_spec timeout_ms 0); [|lia].
  destruct (wait_poll_loop_rounds pid timeout_ms ec _ 0 w eq_refl)
    as (m & last & Htr & Hlast & Hm & Hch).
  exists m, last. repeat apply conj; auto.
  - rewrite Z.sub_0_r in Hm.
    assert (0 <= (timeout_ms + 9) / 10) by (apply Z.div_pos; lia). lia.
  - eapply (wait_poll_loop_returns pid timeout_ms ec); eauto; lia.
Qed.

Lemma wait_polls_at_most_timeout_witness :
  exists (m : nat) (last : list syscall),
    trace (snd (rexos_wait 4242 25 (Some 99) wait_world))
      = trace wait_world ++ idle_polls 4242 m ++ last
    /\ (last = [] \/ last = [sys_waitpid 4242 WNOHANG])
    /\ Z.of_nat m <= (25 + 9) / 10
    /\ children (snd (rexos_wait 4242 25 (Some 99) wait_world))
         = children wait_world
    /\ exists err ec',
         fst (rexos_wait 4242 25 (Some 99) wait_world) = wait_returned err ec'.
Proof.
  apply (wait_polls_at_most_timeout 4242 25 (Some 99) wait_world); lia.
Defined.

(** ** Process information: invalid arguments and live processes *)

(** X13. [rexos_get_process_info] fails with InvalidArgument for a
    non-positive identifier and for a null [info]; it then opens no file
    and writes nothing to [*info]. *)
Theorem process_info_rejects_invalid (pid : Z)
    (info : option rexos_process_info_t) (w : world) :
  pid <= 0 \/ info = None ->
  rexos_get_process_info pid info w = ((REXOS_ERR_INVALID_ARG, info), w).
Proof.
  intros H. unfold rexos_get_process_info.
  destruct info as [i|]; [|reflexivity].
  destruct H as [H|H]; [|discriminate H].
  destruct (Z.leb_spec pid 0); [reflexivity | lia].
Qed.

Lemma process_info_rejects_invalid_witness :
  rexos_get_process_info 0 (Some zero_info) live_world
    = ((REXOS_ERR_INVALID_ARG, Some zero_info), live_world).
Proof.
  apply (process_info_rejects_invalid 0 (Some zero_info) live_world).
  left. lia.
Defined.

Lemma proc_state_of_char_not_dead (c : ascii) :
  proc_state_of_char c <> REXOS_PROC_DEAD.
Proof.
  unfold proc_state_of_char.
  destruct (Ascii.eqb c "R"); [discriminate|].
  destruct (Ascii.eqb c "S"); [discriminate|].
  destruct (Ascii.eqb c "T"); [discriminate|].
  destruct (Ascii.eqb c "Z"); discriminate.
Qed.

(** X14. For a positive identifier whose [/proc/<pid>/stat] can be read,
    when the tick rate reported by [sysconf] is not zero and the [long]
    product [rss * page_size] stays in the range of [long] (the cases in
    which C gives the division and the multiplication a meaning),
    [rexos_get_process_info] succeeds with the identifier in [pid] and a
    state that is never dead; the fields [exit_code] and [start_time] are
    never filled in and read 0. As long as the [unsigned long] product
    [(utime + stime) * 1000] stays below [2^64], the CPU time is that
    product divided by the ticks per second; for a resident set that is
    not negative the memory is [rss * page_size / 1024]. Only one call,
    the [fopen], is issued. *)
Theorem process_info_of_live_process (pid : Z) (old : rexos_process_info_t)
    (w : world) (st : proc_stat_t) :
  0 < pid ->
  proc_files w (str_take 63 ("/proc/" ++ decimal pid ++ "/stat")) = Some st ->
  clk_tck w <> 0 ->
  - 2 ^ 63 <= st_rss st * pagesize w < 2 ^ 63 ->
  exists i,
    fst (rexos_get_process_info pid (Some old) w) = (REXOS_OK, Some i)
    /\ pi_pid i = pid
    /\ pi_state i = proc_state_of_char (st_state st)
    /\ pi_state i <> REXOS_PROC_DEAD
    /\ pi_exit_code i = 0 /\ pi_start_time i = 0
    /\ (0 <= st_utime st -> 0 <= st_stime st ->
        (st_utime st + st_stime st) * 1000 < 2 ^ 64 ->
        0 < clk_tck w < 2 ^ 63 ->
        pi_cpu_time_ms i = (st_utime st + st_stime st) * 1000 / clk_tck w)
    /\ (0 <= st_rss st -> 0 <= pagesize w ->
        pi_memory_kb i = st_rss st * pagesize w / 1024)
    /\ trace (snd (rexos_get_process_info pid (Some old) w))
         = trace w ++ [sys_fopen (str_take 63 ("/proc/" ++ decimal pid ++ "/stat"))].
Proof.
  intros Hpid Hfile Hclk Hlong. unfold rexos_get_process_info.
  destruct (Z.leb_spec pid 0); [lia|].
  unfold bind, fopen_proc_stat, emit, ret. cbn. rewrite Hfile.
  eexists. split; [reflexivity|]. cbn.
  repeat apply conj; try reflexivity.
  - apply proc_state_of_char_not_dead.
  - intros Hu Hs Hsmall Hticks. unfold u64.
    rewrite (Z.mod_small (st_utime st + st_stime st)) by lia.
    rewrite (Z.mod_small ((st_utime st + st_stime st) * 1000)) by lia.
    rewrite (Z.mod_small (clk_tck w)) by lia.
    apply Z.mod_small. split.
    + apply Z.div_pos; lia.
    + apply Z.div_lt_upper_bound; nia.
  - intros Hr Hp. unfold u64.
    rewrite Z.quot_div_nonneg by lia.
    apply Z.mod_small. split.
    + apply Z.div_pos; nia.
    + apply Z.div_lt_upper_bound; lia.
Qed.

Lemma process_info_of_live_process_witness :
  fst (rexos_get_process_info 4242 (Some zero_info) live_world)
    = (REXOS_OK,
       Some {| pi_pid := 4242; pi_state := REXOS_PROC_SLEEPING;
               pi_exit_code := 0; pi_start_time := 0;
               pi_cpu_time_ms := 2000; pi_memory_kb := 10240 |}).
Proof.
  destruct (process_info_of_live_process 4242 zero_info live_world
              {| st_state := "S"%char; st_utime := 150; st_stime := 50;
                 st_vsize := 1000000; st_rss := 2560 |})
    as (i & Hret & _);
    [lia | vm_compute; reflexivity | vm_compute; discriminate
    | cbn; lia |].
  vm_compute. reflexivity.
Defined.

(** ** CPU usage: two reads of the same counters *)

(** X15. Whatever was sampled before, reading the same counters twice in a
    row reports 0 on the second read: the interval is empty, the total is 0
    and the division is not attempted. A read that fails reports 0 and
    leaves the previous sample in place. *)
Theorem cpu_usage_of_empty_interval (s : Performance.cpu_counters)
    (p : Performance.cpu_prev) :
  let p1 := snd (Performance.calculate_cpu_usage (Some s) p) in
  Performance.calculate_cpu_usage (Some s) p1 = (Performance.f0, p1)
  /\ Performance.calculate_cpu_usage None p1 = (Performance.f0, p1).
Proof.
  cbn zeta. split; [|reflexivity].
  assert (Hp1 : snd (Performance.calculate_cpu_usage (Some s) p)
                = {| Performance.prev_user := Performance.user s;
                     Performance.prev_nice := Performance.nice s;
                     Performance.prev_system := Performance.system s;
                     Performance.prev_idle := Performance.idle s;
                     Performance.prev_iowait := Performance.iowait s;
                     Performance.prev_irq := Performance.irq s;
                     Performance.prev_softirq := Performance.softirq s |}).
  { unfold Performance.calculate_cpu_usage. destruct (u64 _ =? 0); reflexivity. }
  rewrite Hp1. unfold Performance.calculate_cpu_usage.
  cbn [Performance.prev_user Performance.prev_nice Performance.prev_system
       Performance.prev_idle Performance.prev_iowait Performance.prev_irq
       Performance.prev_softirq].
  rewrite !Z.sub_diag. reflexivity.
Qed.

(** ** Performance statistics *)

Section PerfStatsFacts.

Import Performance Sysfs.

Lemma scan_meminfo_u64 (lines : list meminfo_line) :
  forall t f a,
    Forall line_u64 lines ->
    0 <= t < 2 ^ 64 -> 0 <= f < 2 ^ 64 -> 0 <= a < 2 ^ 64 ->
    let '(t', f', a') := scan_meminfo lines (t, f, a) in
    0 <= t' < 2 ^ 64 /\ 0 <= f' < 2 ^ 64 /\ 0 <= a' < 2 ^ 64.
Proof.
  induction lines as [|l lines IH]; intros t f a Hl Ht Hf Ha; [cbn; auto|].
  apply Forall_cons in Hl as [Hline Hl]. cbn [scan_meminfo].
  destruct l; cbn in Hline; apply IH; auto.
Qed.

(** Lines that are not [MemAvailable] lines leave the third output. *)
Lemma scan_meminfo_keeps_available (lines : list meminfo_line) :
  forall t f a,
    no_MemAvailable lines ->
    snd (scan_meminfo lines (t, f, a)) = a.
Proof.
  induction lines as [|l lines IH]; intros t f a Hno; [reflexivity|].
  apply Forall_cons in Hno as [Hl Hno]. cbn [scan_meminfo].
  destruct l; try contradiction; apply IH; exact Hno.
Qed.

Lemma scan_meminfo_keeps_free (lines : list meminfo_line) :
  forall t f a,
    no_MemFree lines ->
    snd (fst (scan_meminfo lines (t, f, a))) = f.
Proof.
  induction lines as [|l lines IH]; intros t f a Hno; [reflexivity|].
  apply Forall_cons in Hno as [Hl Hno]. cbn [scan_meminfo].
  destruct l; try contradiction; apply IH; exact Hno.
Qed.

Lemma scan_meminfo_app (l1 l2 : list meminfo_line) (acc : Z * Z * Z) :
  scan_meminfo (l1 ++ l2) acc = scan_meminfo l2 (scan_meminfo l1 acc).
Proof.
  revert acc. induction l1 as [|l l1 IH]; intros [[t f] a]; [reflexivity|].
  cbn [app scan_meminfo]. apply IH.
Qed.

Lemma quot_nonneg (a b : Z) : 0 <= a -> 0 < b -> 0 <= Z.quot a b.
Proof. intros Ha Hb. apply Z.quot_pos; lia. Qed.

Lemma first_readable_nonneg (fs : sysfs) (paths : list string) (v : Z) :
  first_readable fs paths = Some v -> 0 <= v.
Proof.
  induction paths as [|p paths IH]; [discriminate|]. cbn [first_readable].
  destruct (Z.geb_spec (read_sysfs_int fs p) 0); [|exact IH].
  intros [= <-]. assumption.
Qed.

End PerfStatsFacts.

Section PerfStatsProperties.

Import Performance Sysfs.

(** X16. [rexos_get_perf_stats] with a non-null [stats] never fails,
    whatever can or cannot be read: it returns [REXOS_OK], the statistics
    do not depend on what [*stats] held before, the temperatures, the
    frequency and the battery level are never negative, and the two frame
    timing fields are always zero. *)
Theorem perf_stats_always_filled (fs : sysfs) (old : rexos_perf_stats_t)
    (p : cpu_prev) :
  exists st,
    rexos_get_perf_stats fs (Some old) p
      = (REXOS_OK, Some st, snd (calculate_cpu_usage (stat_line fs) p))
    /\ 0 <= cpu_temperature st /\ 0 <= cpu_frequency st
    /\ 0 <= battery_percent st /\ 0 <= battery_temp st
    /\ 0 <= gpu_temperature st
    /\ fps st = f0 /\ frame_time_ms st = f0
    /\ forall old', rexos_get_perf_stats fs (Some old') p
                    = rexos_get_perf_stats fs (Some old) p.
Proof.
  unfold rexos_get_perf_stats.
  destruct (calculate_cpu_usage (stat_line fs) p) as [usage p1].
  destruct (get_memory_info fs) as [[t f] a]. cbv zeta.
  eexists. split; [reflexivity|].
  cbn [cpu_temperature cpu_frequency battery_percent battery_temp
       gpu_temperature fps frame_time_ms].
  repeat split.
  - destruct (Z.geb_spec (read_sysfs_int fs CPU_TEMP_PATH) 0);
      [apply quot_nonneg|]; lia.
  - destruct (Z.geb_spec (read_sysfs_int fs CPU_FREQ_PATH) 0);
      [apply quot_nonneg|]; lia.
  - destruct (Z.ltb_spec (read_sysfs_int fs BATTERY_CAPACITY_PATH) 0); lia.
  - destruct (Z.geb_spec (read_sysfs_int fs BATTERY_TEMP_PATH) 0);
      [apply quot_nonneg|]; lia.
  - destruct (first_readable fs gpu_temp_paths) as [t'|] eqn:Ht; [|lia].
    apply quot_nonneg; [|lia]. eapply first_readable_nonneg; exact Ht.
Qed.

(** X17. On a device where none of the files can be read, the call still
    succeeds: every field is zero except the battery level, which is
    reported as 100 percent, and the CPU sampler keeps its previous
    sample. *)
Theorem perf_stats_without_files (fs : sysfs) (old : rexos_perf_stats_t)
    (p : cpu_prev) :
  (forall path, int_files fs path = None) ->
  text_files fs BATTERY_STATUS_PATH = None ->
  meminfo fs = None ->
  stat_line fs = None ->
  rexos_get_perf_stats fs (Some old) p
  = (REXOS_OK,
     Some {| cpu_usage_percent := f0; cpu_temperature := 0; cpu_frequency := 0;
             mem_total_kb := 0; mem_used_kb := 0; mem_free_kb := 0;
             battery_percent := 100; battery_charging := false;
             battery_temp := 0; gpu_usage_percent := f0; gpu_temperature := 0;
             fps := f0; frame_time_ms := f0 |},
     p).
Proof.
  intros Hint Htext Hmem Hstat.
  assert (Hread : forall path, read_sysfs_int fs path = -1)
    by (intros path; unfold read_sysfs_int; rewrite Hint; reflexivity).
  unfold rexos_get_perf_stats, get_memory_info, read_sysfs_string.
  rewrite Hstat, Hmem, Htext. cbn [calculate_cpu_usage].
  cbn [first_readable gpu_paths gpu_temp_paths].
  rewrite !Hread. reflexivity.
Qed.

Lemma perf_stats_without_files_witness :
  rexos_get_perf_stats bare_sysfs
    (Some {| cpu_usage_percent := f100; cpu_temperature := 7;
             cpu_frequency := 7; mem_total_kb := 7; mem_used_kb := 7;
             mem_free_kb := 7; battery_percent := 7; battery_charging := true;
             battery_temp := 7; gpu_usage_percent := f100;
             gpu_temperature := 7; fps := f100; frame_time_ms := f100 |})
    cpu_prev_initial
  = (REXOS_OK,
     Some {| cpu_usage_percent := f0; cpu_temperature := 0; cpu_frequency := 0;
             mem_total_kb := 0; mem_used_kb := 0; mem_free_kb := 0;
             battery_percent := 100; battery_charging := false;
             battery_temp := 0; gpu_usage_percent := f0; gpu_temperature := 0;
             fps := f0; frame_time_ms := f0 |},
     cpu_prev_initial).
Proof.
  apply perf_stats_without_files; reflexivity.
Defined.

(** X18. Memory accounting of [rexos_get_perf_stats]: used memory is the
    total minus the free figure in 64-bit unsigned arithmetic.  When the
    free figure does not exceed the total the three fields add up; when it
    does (for instance no [MemTotal] line was seen), [mem_used_kb] wraps
    around to [2^64 - (free - total)]. *)
Theorem perf_stats_memory_accounting (fs : sysfs) (old : rexos_perf_stats_t)
    (p : cpu_prev) (lines : list meminfo_line) :
  meminfo fs = Some lines ->
  Forall line_u64 lines ->
  exists st,
    snd (fst (rexos_get_perf_stats fs (Some old) p)) = Some st
    /\ 0 <= mem_free_kb st < 2 ^ 64
    /\ 0 <= mem_total_kb st < 2 ^ 64
    /\ mem_used_kb st
       = if mem_free_kb st <=? mem_total_kb st
         then mem_total_kb st - mem_free_kb st
         else 2 ^ 64 - (mem_free_kb st - mem_total_kb st).
Proof.
  intros Hmem Hlines.
  unfold rexos_get_perf_stats, get_memory_info. rewrite Hmem.
  destruct (calculate_cpu_usage (stat_line fs) p) as [usage p1].
  pose proof (scan_meminfo_u64 lines 0 0 0 Hlines) as Hscan.
  destruct (scan_meminfo lines (0, 0, 0)) as [[t f] a].
  destruct Hscan as (Ht & Hf & Ha); try lia.
  cbv zeta. eexists. split; [reflexivity|].
  cbn [mem_free_kb mem_total_kb mem_used_kb].
  set (free_kb := if a >? 0 then a else f).
  assert (Hfree : 0 <= free_kb < 2 ^ 64)
    by (unfold free_kb; destruct (a >? 0); lia).
  repeat split; try lia.
  unfold u64. destruct (Z.leb_spec free_kb t).
  - apply Z.mod_small. lia.
  - rewrite <- (Z.mod_add _ 1) by lia. rewrite Z.mod_small; lia.
Qed.

Lemma perf_stats_memory_accounting_witness :
  exists st,
    snd (fst (rexos_get_perf_stats handheld_sysfs
                (Some {| cpu_usage_percent := f0; cpu_temperature := 0;
                         cpu_frequency := 0; mem_total_kb := 0;
                         mem_used_kb := 0; mem_free_kb := 0;
                         battery_percent := 0; battery_charging := false;
                         battery_temp := 0; gpu_usage_percent := f0;
                         gpu_temperature := 0; fps := f0;
                         frame_time_ms := f0 |})
                cpu_prev_initial)) = Some st
    /\ 0 <= mem_free_kb st < 2 ^ 64
    /\ 0 <= mem_total_kb st < 2 ^ 64
    /\ mem_used_kb st
       = if mem_free_kb st <=? mem_total_kb st
         then mem_total_kb st - mem_free_kb st
         else 2 ^ 64 - (mem_free_kb st - mem_total_kb st).
Proof.
  apply (perf_stats_memory_accounting handheld_sysfs _ _
           [line_MemTotal 4000000; line_MemFree 1000000; line_other;
            line_MemAvailable 2500000]).
  - reflexivity.
  - repeat constructor; cbn; lia.
Defined.

(** X19. Which figure [rexos_get_perf_stats] reports as free memory: the
    last [MemAvailable] value of [/proc/meminfo] when it is positive, and
    the last [MemFree] value when the file has no [MemAvailable] line. *)
Theorem perf_stats_free_memory (fs : sysfs) (old : rexos_perf_stats_t)
    (p : cpu_prev) (l1 l2 : list meminfo_line) (v : Z) :
  (meminfo fs = Some (l1 ++ line_MemAvailable v :: l2)
   /\ no_MemAvailable l2 /\ 0 < v)
  \/ (meminfo fs = Some (l1 ++ line_MemFree v :: l2)
      /\ no_MemFree l2 /\ no_MemAvailable (l1 ++ l2)) ->
  exists st,
    snd (fst (rexos_get_perf_stats fs (Some old) p)) = Some st
    /\ mem_free_kb st = v.
Proof.
  intros H.
  unfold rexos_get_perf_stats, get_memory_info.
  destruct (calculate_cpu_usage (stat_line fs) p) as [usage p1].
  destruct H as [(Hmem & Hno & Hv) | (Hmem & Hfree & Hno)]; rewrite Hmem.
  - rewrite scan_meminfo_app.
    destruct (scan_meminfo l1 (0, 0, 0)) as [[t f] a]. cbn [scan_meminfo].
    pose proof (scan_meminfo_keeps_available l2 t f v Hno) as Ha.
    destruct (scan_meminfo l2 (t, f, v)) as [[t' f'] a']. cbn in Ha. subst a'.
    cbv zeta. eexists. split; [reflexivity|]. cbn [mem_free_kb].
    destruct (Z.gtb_spec v 0); [reflexivity | lia].
  - apply Forall_app in Hno as [Hno1 Hno2].
    rewrite scan_meminfo_app.
    pose proof (scan_meminfo_keeps_available l1 0 0 0 Hno1) as Ha1.
    destruct (scan_meminfo l1 (0, 0, 0)) as [[t f] a]. cbn in Ha1. subst a.
    cbn [scan_meminfo].
    pose proof (scan_meminfo_keeps_available l2 t v 0 Hno2) as Ha.
    pose proof (scan_meminfo_keeps_free l2 t v 0 Hfree) as Hf.
    destruct (scan_meminfo l2 (t, v, 0)) as [[t' f'] a']. cbn in Ha, Hf.
    subst a' f'.
    cbv zeta. eexists. split; [reflexivity|]. reflexivity.
Qed.

Lemma perf_stats_free_memory_witness :
  exists st,
    snd (fst (rexos_get_perf_stats handheld_sysfs
                (Some {| cpu_usage_percent := f0; cpu_temperature := 0;
                         cpu_frequency := 0; mem_total_kb := 0;
                         mem_used_kb := 0; mem_free_kb := 0;
                         battery_percent := 0; battery_charging := false;
                         battery_temp := 0; gpu_usage_percent := f0;
                         gpu_temperature := 0; fps := f0;
                         frame_time_ms := f0 |})
                cpu_prev_initial)) = Some st
    /\ mem_free_kb st = 2500000.
Proof.
  apply (perf_stats_free_memory handheld_sysfs _ _
           [line_MemTotal 4000000; line_MemFree 1000000; line_other] []).
  left. split; [reflexivity|]. split; [constructor | lia].
Defined.

End PerfStatsProperties.

(** ** Battery status *)

Section BatteryStatusFacts.

Import Performance Sysfs.

Lemma line_chars_first_line (word rest : list ascii) (room : nat) :
  ~ In newline word ->
  (length word < room)%nat ->
  line_chars room (word ++ newline :: rest) = word ++ [newline].
Proof.
  revert room. induction word as [|c word IH]; intros room Hno Hlen.
  - destruct room; [cbn in Hlen; lia|]. cbn. rewrite Ascii.eqb_refl. reflexivity.
  - destruct room; [cbn in Hlen; lia|]. cbn [app line_chars].
    destruct (Ascii.eqb_spec c newline) as [->|_].
    + exfalso. apply Hno. left. reflexivity.
    + f_equal. apply IH; [|cbn in Hlen; lia].
      intros Hin. apply Hno. right. exact Hin.
Qed.

Lemma until_nul_incl (l : list ascii) (c : ascii) :
  In c (until_nul l) -> In c l.
Proof.
  induction l as [|x l IH]; [intros []|]. cbn [until_nul].
  destruct (is_nul x); [intros []|].
  intros [->|Hin]; [left; reflexivity | right; apply IH; exact Hin].
Qed.

(** A character appended to a buffer is read only when the buffer holds no
    NUL before it. *)
Lemma until_nul_snoc (l : list ascii) (c : ascii) :
  c <> NUL ->
  (until_nul (l ++ [c]) = until_nul l)
  \/ (until_nul (l ++ [c]) = l ++ [c] /\ until_nul l = l).
Proof.
  intros Hc. induction l as [|x l IH]; cbn [app until_nul].
  - right. rewrite (is_nul_other c Hc). split; reflexivity.
  - destruct (is_nul x); [left; reflexivity|].
    destruct IH as [-> | [-> ->]]; [left | right; split]; reflexivity.
Qed.

Lemma strip_newline_line (word : list ascii) :
  ~ In newline word ->
  strip_newline (word ++ [newline]) = until_nul word.
Proof.
  intros Hno. unfold strip_newline. cbv zeta.
  destruct (until_nul_snoc word newline) as [-> | [-> ->]]; [discriminate | |].
  - destruct (last (until_nul word)) as [c|] eqn:Hlast; [|reflexivity].
    destruct (Ascii.eqb_spec c newline) as [->|_]; [|reflexivity].
    exfalso. apply Hno, until_nul_incl.
    apply last_Some in Hlast as [l' ->]. apply in_or_app. right. left.
    reflexivity.
  - rewrite last_snoc, Ascii.eqb_refl.
    rewrite length_app. cbn [length].
    replace (length word + 1 - 1)%nat with (length word) by lia.
    apply take_app_length.
Qed.

Lemma fgets_nonempty (len : nat) (l : list ascii) :
  l <> [] ->
  fgets len (string_of_list_ascii l) = Some (line_chars (len - 1) l).
Proof.
  destruct l as [|c l]; [contradiction|]. intros _.
  unfold fgets. cbn [string_of_list_ascii list_ascii_of_string].
  rewrite list_ascii_of_string_of_list_ascii. reflexivity.
Qed.

Lemma read_sysfs_string_first_line (fs : sysfs) (path : string)
    (word rest : list ascii) (len : nat) :
  text_files fs path = Some (string_of_list_ascii (word ++ newline :: rest)) ->
  ~ In newline word ->
  (length word < len - 1)%nat ->
  read_sysfs_string fs path len = Some (cstr word).
Proof.
  intros Htext Hno Hlen. unfold read_sysfs_string. rewrite Htext.
  rewrite fgets_nonempty by (destruct word; discriminate).
  rewrite line_chars_first_line by assumption.
  rewrite strip_newline_line by assumption. reflexivity.
Qed.

End BatteryStatusFacts.

Section BatteryStatusProperties.

Import Performance Sysfs.

(** X20. For a battery status file whose first line has fewer than 31
    characters before its newline, [rexos_get_perf_stats] reports the
    battery as charging exactly when that line, read as a C string (without
    the newline, and only up to a NUL byte if the line holds one), is the
    word [Charging]: the newline that sysfs appends is removed before the
    comparison, and what follows the first line is not looked at. *)
Theorem battery_charging_is_first_line (fs : sysfs) (old : rexos_perf_stats_t)
    (p : cpu_prev) (word rest : list ascii) :
  text_files fs BATTERY_STATUS_PATH
    = Some (string_of_list_ascii (word ++ newline :: rest)) ->
  ~ In newline word ->
  (length word < 31)%nat ->
  exists st,
    snd (fst (rexos_get_perf_stats fs (Some old) p)) = Some st
    /\ battery_charging st = String.eqb (cstr word) "Charging".
Proof.
  intros Htext Hno Hlen.
  unfold rexos_get_perf_stats.
  destruct (calculate_cpu_usage (stat_line fs) p) as [usage p1].
  destruct (get_memory_info fs) as [[t f] a]. cbv zeta.
  eexists. split; [reflexivity|]. cbn [battery_charging].
  rewrite (read_sysfs_string_first_line fs _ word rest) by (assumption || (cbn; lia)).
  reflexivity.
Qed.

Lemma battery_charging_is_first_line_witness :
  exists st,
    snd (fst (rexos_get_perf_stats handheld_sysfs (Some stale_stats)
                cpu_prev_initial)) = Some st
    /\ battery_charging st
       = String.eqb (cstr (list_ascii_of_string "Charging")) "Charging".
Proof.
  apply (battery_charging_is_first_line handheld_sysfs stale_stats
           cpu_prev_initial (list_ascii_of_string "Charging") []).
  - reflexivity.
  - cbn. intros H. repeat (destruct H as [H|H]; [discriminate H|]). exact H.
  - cbn. lia.
Defined.

End BatteryStatusProperties.

(** ** CPU governor and frequency limits *)

Section CpufreqFacts.

Import Performance Sysfs.

Lemma same_files_refl (fs : sysfs) : same_files fs fs.
Proof. repeat split. Qed.

Lemma same_files_log_write (fs fs1 : sysfs) (path text : string) :
  same_files fs fs1 -> same_files fs (log_write fs1 path text).
Proof. intros H. exact H. Qed.

Lemma is_valid_governor_In (g : string) :
  is_valid_governor g = true <-> In g valid_governors.
Proof.
  unfold is_valid_governor. rewrite existsb_exists. split.
  - intros (x & Hin & Heq). apply String.eqb_eq in Heq. subst x. exact Hin.
  - intros Hin. exists g. split; [exact Hin | apply String.eqb_refl].
Qed.

(** What the loop over the CPUs writes, and where. *)
Lemma governor_loop_writes (g : string) (cpus : list Z) :
  forall fs fs0,
    same_files fs0 fs ->
    (forall cpu, In cpu cpus -> In cpu cpu_numbers) ->
    same_files fs0 (snd (governor_loop cpus g fs))
    /\ exists new,
         written (snd (governor_loop cpus g fs)) = written fs ++ new
         /\ (length new <= length cpus)%nat
         /\ Forall (fun e => cpufreq_write "scaling_governor" g e
                             /\ writable fs0 (fst e) = true
                             /\ openable fs0 (fst e) = true) new.
Proof.
  induction cpus as [|cpu cpus IH]; intros fs fs0 Hsame Hin.
  - cbn. split; [exact Hsame|]. exists []. rewrite app_nil_r.
    repeat split; [cbn; lia | constructor].
  - assert (Hin' : forall k, In k cpus -> In k cpu_numbers)
      by (intros k Hk; apply Hin; right; exact Hk).
    cbn [governor_loop]. cbv zeta.
    destruct (writable fs (cpufreq_path "scaling_governor" cpu)) eqn:Hw;
      cbn [negb].
    + unfold write_sysfs_string.
      destruct (openable fs (cpufreq_path "scaling_governor" cpu)) eqn:Ho.
      * cbn [negb Z.eqb].
        destruct (IH (log_write fs (cpufreq_path "scaling_governor" cpu) g) fs0)
          as (Hs & new & Hnew & Hlen & Hall);
          [apply same_files_log_write; exact Hsame | exact Hin' |].
        split; [exact Hs|].
        exists ((cpufreq_path "scaling_governor" cpu, g) :: new).
        rewrite Hnew. cbn [written log_write length].
        rewrite <- app_assoc. split; [reflexivity|]. split; [lia|].
        constructor; [|exact Hall].
        destruct Hsame as (_ & _ & _ & _ & Hws & Hos).
        cbn [fst snd]. rewrite <- Hws, <- Hos. repeat split; try assumption.
        exists cpu. split; [apply Hin; left|]; reflexivity.
      * change (negb (-1 =? 0)) with true. cbv iota.
        assert (Hres : snd (if cpu =? 0 then (REXOS_ERR_PERMISSION, fs)
                            else (REXOS_OK, fs)) = fs)
          by (destruct (cpu =? 0); reflexivity).
        rewrite Hres. split; [exact Hsame|]. exists []. rewrite app_nil_r.
        repeat split; [cbn; lia | constructor].
    + destruct (IH fs fs0 Hsame Hin') as (Hs & new & Hnew & Hlen & Hall).
      split; [exact Hs|]. exists new. repeat split; try assumption. cbn. lia.
Qed.

(** Only a failure at CPU 0 is reported. *)
Lemma governor_loop_ok (g : string) (cpus : list Z) :
  forall fs, ~ In 0 cpus -> fst (governor_loop cpus g fs) = REXOS_OK.
Proof.
  induction cpus as [|cpu cpus IH]; intros fs Hno; [reflexivity|].
  assert (Hcpu : (cpu =? 0) = false)
    by (apply Z.eqb_neq; intros ->; apply Hno; left; reflexivity).
  assert (Hno' : ~ In 0 cpus) by (intros H; apply Hno; right; exact H).
  cbn [governor_loop]. cbv zeta.
  destruct (writable fs (cpufreq_path "scaling_governor" cpu)); cbn [negb];
    [|apply IH; exact Hno'].
  unfold write_sysfs_string.
  destruct (openable fs (cpufreq_path "scaling_governor" cpu)).
  - cbn [negb Z.eqb]. apply IH; exact Hno'.
  - change (negb (-1 =? 0)) with true. cbv iota. rewrite Hcpu. reflexivity.
Qed.

(** The loop writes to the writable files of the CPUs before the first one
    whose file passes [access] but cannot be opened. *)
Lemma governor_loop_prefix (g : string) (l1 l2 : list Z) :
  forall fs,
    Forall (fun cpu => writable fs (cpufreq_path "scaling_governor" cpu) = true ->
                       openable fs (cpufreq_path "scaling_governor" cpu) = true) l1 ->
    match l2 with
    | [] => True
    | k :: _ => writable fs (cpufreq_path "scaling_governor" k) = true
                /\ openable fs (cpufreq_path "scaling_governor" k) = false
    end ->
    written (snd (governor_loop (l1 ++ l2) g fs))
    = written fs
      ++ map (fun cpu => (cpufreq_path "scaling_governor" cpu, g))
           (List.filter
              (fun cpu => writable fs (cpufreq_path "scaling_governor" cpu)) l1).
Proof.
  induction l1 as [|cpu l1 IH]; intros fs Hl1 Hl2.
  - cbn [app List.filter map]. rewrite app_nil_r.
    destruct l2 as [|k l2]; [reflexivity|]. destruct Hl2 as [Hw Ho].
    cbn [governor_loop]. cbv zeta. rewrite Hw. cbn [negb].
    unfold write_sysfs_string. rewrite Ho.
    change (negb (-1 =? 0)) with true. cbv iota.
    destruct (k =? 0); reflexivity.
  - apply Forall_cons in Hl1 as [Hcpu Hl1].
    cbn [app governor_loop List.filter]. cbv zeta.
    destruct (writable fs (cpufreq_path "scaling_governor" cpu)) eqn:Hw;
      cbn [negb]; [|apply IH; assumption].
    unfold write_sysfs_string. rewrite (Hcpu eq_refl). cbn [negb Z.eqb].
    rewrite (IH (log_write fs (cpufreq_path "scaling_governor" cpu) g));
      [|exact Hl1|exact Hl2].
    cbn [written log_write writable map]. rewrite <- app_assoc. reflexivity.
Qed.

(** One guarded write of [rexos_set_cpu_freq]. *)
Lemma write_if_writable (fs fs0 : sysfs) (path : string) (v : Z) :
  same_files fs0 fs ->
  same_files fs0 (if writable fs path
                  then snd (write_sysfs_int path v fs) else fs)
  /\ written (if writable fs path
              then snd (write_sysfs_int path v fs) else fs)
     = written fs ++ List.filter (can_write fs0) [(path, decimal v)].
Proof.
  intros Hsame. pose proof Hsame as (_ & _ & _ & _ & Hws & Hos).
  unfold write_sysfs_int, can_write. cbn [List.filter fst].
  rewrite Hws, Hos.
  destruct (writable fs0 path), (openable fs0 path); cbn [andb snd];
    rewrite ?app_nil_r; auto.
Qed.

Lemma freq_loop_written (min_freq max_freq : Z) (cpus : list Z) :
  0 <= min_freq < 2 ^ 31 ->
  0 <= max_freq < 2 ^ 31 ->
  forall fs fs0,
    same_files fs0 fs ->
    same_files fs0 (freq_loop cpus min_freq max_freq fs)
    /\ written (freq_loop cpus min_freq max_freq fs)
       = written fs
         ++ List.filter (can_write fs0)
              (flat_map (freq_requests min_freq max_freq) cpus).
Proof.
  intros Hmin Hmax.
  assert (Hi : forall v, 0 <= v < 2 ^ 31 -> int_of_uint32 v = v)
    by (intros v Hv; unfold int_of_uint32; destruct (Z.ltb_spec v (2 ^ 31)); lia).
  induction cpus as [|cpu cpus IH]; intros fs fs0 Hsame.
  - cbn. rewrite app_nil_r. split; [exact Hsame | reflexivity].
  - cbn [freq_loop flat_map]. cbv zeta.
    rewrite !Hi by assumption. rewrite List.filter_app.
    assert (Hreq : freq_requests min_freq max_freq cpu
                   = (if min_freq >? 0
                      then [(cpufreq_path "scaling_min_freq" cpu, decimal min_freq)]
                      else [])
                     ++ (if max_freq >? 0
                         then [(cpufreq_path "scaling_max_freq" cpu, decimal max_freq)]
                         else [])) by reflexivity.
    rewrite Hreq, List.filter_app. clear Hreq.
    destruct (min_freq >? 0), (max_freq >? 0).
    + destruct (write_if_writable fs fs0
                  (cpufreq_path "scaling_min_freq" cpu) min_freq Hsame)
        as [Hs1 Hw1].
      destruct (write_if_writable _ fs0
                  (cpufreq_path "scaling_max_freq" cpu) max_freq Hs1)
        as [Hs2 Hw2].
      destruct (IH _ fs0 Hs2) as [Hs3 Hw3].
      split; [exact Hs3|]. rewrite Hw3, Hw2, Hw1.
      rewrite <- !app_assoc. reflexivity.
    + destruct (write_if_writable fs fs0
                  (cpufreq_path "scaling_min_freq" cpu) min_freq Hsame)
        as [Hs1 Hw1].
      destruct (IH _ fs0 Hs1) as [Hs3 Hw3].
      split; [exact Hs3|]. rewrite Hw3, Hw1.
      rewrite <- !app_assoc. reflexivity.
    + destruct (write_if_writable fs fs0
                  (cpufreq_path "scaling_max_freq" cpu) max_freq Hsame)
        as [Hs2 Hw2].
      destruct (IH _ fs0 Hs2) as [Hs3 Hw3].
      split; [exact Hs3|]. rewrite Hw3, Hw2.
      rewrite <- !app_assoc. reflexivity.
    + destruct (IH fs fs0 Hsame) as [Hs3 Hw3].
      split; [exact Hs3|]. rewrite Hw3. reflexivity.
Qed.

End CpufreqFacts.

Section CpufreqProperties.

Import Performance Sysfs.

Lemma sysfs_with_written (fs fs1 : sysfs) :
  same_files fs fs1 -> fs1 = with_written fs (written fs1).
Proof.
  destruct fs, fs1. unfold same_files, with_written. cbn.
  intros (-> & -> & -> & -> & -> & ->). reflexivity.
Qed.

(** X21. Whatever name it is given, [rexos_set_cpu_governor] only ever
    appends to the files written, at most eight times, and each text it
    writes is the name it was given, which is then one of the six known
    governors, to the [scaling_governor] file of one of the CPUs 0 to 7
    that passes [access] and can be opened. *)
Theorem governor_writes_only_valid_names (governor : option string) (fs : sysfs) :
  same_files fs (snd (rexos_set_cpu_governor governor fs))
  /\ exists new,
       written (snd (rexos_set_cpu_governor governor fs)) = written fs ++ new
       /\ (length new <= 8)%nat
       /\ Forall (fun e => governor = Some (snd e)
                           /\ In (snd e) valid_governors
                           /\ cpufreq_write "scaling_governor" (snd e) e
                           /\ writable fs (fst e) = true
                           /\ openable fs (fst e) = true) new.
Proof.
  unfold rexos_set_cpu_governor.
  destruct governor as [g|];
    [destruct (is_valid_governor g) eqn:Hvalid; cbn [negb]|].
  - destruct (governor_loop_writes g cpu_numbers fs fs (same_files_refl fs))
      as (Hsame & new & Hnew & Hlen & Hall); [auto|].
    split; [exact Hsame|]. exists new. repeat split; try assumption.
    eapply Forall_impl; [exact Hall|].
    intros e (Hw & Hwr & Hop). pose proof Hw as [Htext _].
    rewrite Htext.
    split; [reflexivity|]. split; [apply is_valid_governor_In; exact Hvalid|].
    split; [exact Hw|]. split; assumption.
  - split; [apply same_files_refl|]. exists []. rewrite app_nil_r.
    repeat split; [cbn; lia | constructor].
  - split; [apply same_files_refl|]. exists []. rewrite app_nil_r.
    repeat split; [cbn; lia | constructor].
Qed.

(** X22. A null name, and any name that is not exactly one of
    [performance], [powersave], [schedutil], [ondemand], [conservative]
    and [userspace], is rejected with [REXOS_ERR_INVALID_ARG] before any
    file is touched. *)
Theorem governor_rejects_unknown (governor : option string) (fs : sysfs) :
  (forall g, governor = Some g -> ~ In g valid_governors) ->
  rexos_set_cpu_governor governor fs = (REXOS_ERR_INVALID_ARG, fs).
Proof.
  intros Hunknown. unfold rexos_set_cpu_governor.
  destruct governor as [g|]; [|reflexivity].
  destruct (is_valid_governor g) eqn:Hvalid; [|reflexivity].
  exfalso. apply (Hunknown g eq_refl), is_valid_governor_In. exact Hvalid.
Qed.

Lemma governor_rejects_unknown_witness :
  rexos_set_cpu_governor (Some "Performance"%string) handheld_sysfs
  = (REXOS_ERR_INVALID_ARG, handheld_sysfs).
Proof.
  apply governor_rejects_unknown.
  intros g [= <-] H. cbn in H.
  repeat (destruct H as [H|H]; [discriminate H|]). exact H.
Defined.

(** X23. For a known governor the result depends on CPU 0 alone:
    [REXOS_ERR_PERMISSION], with nothing written, when its
    [scaling_governor] file passes [access] but cannot be opened for
    writing; [REXOS_OK] in every other case, including when no CPU has a
    writable file and when the write fails at a later CPU. *)
Theorem governor_result_is_cpu0 (g : string) (fs : sysfs) :
  In g valid_governors ->
  if writable fs (cpufreq_path "scaling_governor" 0)
     && negb (openable fs (cpufreq_path "scaling_governor" 0))
  then rexos_set_cpu_governor (Some g) fs = (REXOS_ERR_PERMISSION, fs)
  else fst (rexos_set_cpu_governor (Some g) fs) = REXOS_OK.
Proof.
  intros Hvalid. apply is_valid_governor_In in Hvalid.
  unfold rexos_set_cpu_governor. rewrite Hvalid. cbn [negb].
  assert (Hrest : ~ In 0 [1; 2; 3; 4; 5; 6; 7])
    by (cbn; intros H; repeat (destruct H as [H|H]; [discriminate H|]); exact H).
  change cpu_numbers with (0 :: [1; 2; 3; 4; 5; 6; 7]).
  generalize dependent [1; 2; 3; 4; 5; 6; 7]. intros rest Hrest.
  cbn [governor_loop]. cbv zeta.
  destruct (writable fs (cpufreq_path "scaling_governor" 0)); cbn [negb andb].
  - unfold write_sysfs_string.
    destruct (openable fs (cpufreq_path "scaling_governor" 0)); cbn [negb].
    + cbn [Z.eqb]. cbv iota. apply governor_loop_ok. exact Hrest.
    + reflexivity.
  - apply governor_loop_ok. exact Hrest.
Qed.

Lemma governor_result_is_cpu0_witness :
  rexos_set_cpu_governor (Some "powersave"%string) locked_sysfs
  = (REXOS_ERR_PERMISSION, locked_sysfs).
Proof.
  apply (governor_result_is_cpu0 "powersave" locked_sysfs).
  cbn. right. left. reflexivity.
Defined.

(** X24. For a known governor, the name is written to the
    [scaling_governor] file of every CPU that passes [access], in CPU
    order, up to the first CPU whose file passes [access] but cannot be
    opened; CPUs whose file does not pass [access] are skipped, and
    nothing is written from the failing CPU on. *)
Theorem governor_stops_at_first_failure (g : string) (fs : sysfs)
    (l1 l2 : list Z) :
  In g valid_governors ->
  cpu_numbers = l1 ++ l2 ->
  Forall (fun cpu => writable fs (cpufreq_path "scaling_governor" cpu) = true ->
                     openable fs (cpufreq_path "scaling_governor" cpu) = true) l1 ->
  match l2 with
  | [] => True
  | k :: _ => writable fs (cpufreq_path "scaling_governor" k) = true
              /\ openable fs (cpufreq_path "scaling_governor" k) = false
  end ->
  written (snd (rexos_set_cpu_governor (Some g) fs))
  = written fs
    ++ map (fun cpu => (cpufreq_path "scaling_governor" cpu, g))
         (List.filter
            (fun cpu => writable fs (cpufreq_path "scaling_governor" cpu)) l1).
Proof.
  intros Hvalid Hsplit Hl1 Hl2. apply is_valid_governor_In in Hvalid.
  unfold rexos_set_cpu_governor. rewrite Hvalid. cbn [negb].
  rewrite Hsplit. apply governor_loop_prefix; assumption.
Qed.

Lemma governor_stops_at_first_failure_witness :
  written (snd (rexos_set_cpu_governor (Some "performance"%string)
                  handheld_sysfs))
  = [("/sys/devices/system/cpu/cpu0/cpufreq/scaling_governor", "performance");
     ("/sys/devices/system/cpu/cpu1/cpufreq/scaling_governor", "performance");
     ("/sys/devices/system/cpu/cpu2/cpufreq/scaling_governor", "performance");
     ("/sys/devices/system/cpu/cpu3/cpufreq/scaling_governor", "performance")]%string.
Proof.
  rewrite (governor_stops_at_first_failure "performance" handheld_sysfs
             cpu_numbers []).
  - vm_compute. reflexivity.
  - cbn. left. reflexivity.
  - rewrite app_nil_r. reflexivity.
  - unfold cpu_numbers.
    repeat (apply Forall_cons; split; [intros _; reflexivity|]).
    apply Forall_nil. exact I.
  - exact I.
Defined.

(** X25. For limits below [2^31], [rexos_set_cpu_freq] always returns
    [REXOS_OK].  For each CPU 0 to 7 in order it writes the lower limit and
    then the upper limit, in decimal, to [scaling_min_freq] and
    [scaling_max_freq]; a limit of zero is not written, and a file that
    does not pass [access] or cannot be opened is skipped without any
    error. *)
Theorem cpu_freq_writes (min_freq max_freq : Z) (fs : sysfs) :
  0 <= min_freq < 2 ^ 31 ->
  0 <= max_freq < 2 ^ 31 ->
  rexos_set_cpu_freq min_freq max_freq fs
  = (REXOS_OK,
     with_written fs
       (written fs
        ++ List.filter (can_write fs)
             (flat_map (freq_requests min_freq max_freq) cpu_numbers))).
Proof.
  intros Hmin Hmax. unfold rexos_set_cpu_freq. f_equal.
  destruct (freq_loop_written min_freq max_freq cpu_numbers Hmin Hmax fs fs
              (same_files_refl fs)) as [Hsame Hw].
  rewrite (sysfs_with_written fs _ Hsame). rewrite Hw. reflexivity.
Qed.

Lemma cpu_freq_writes_witness :
  written (snd (rexos_set_cpu_freq 0 1800000 handheld_sysfs))
  = [("/sys/devices/system/cpu/cpu0/cpufreq/scaling_max_freq", "1800000");
     ("/sys/devices/system/cpu/cpu1/cpufreq/scaling_max_freq", "1800000");
     ("/sys/devices/system/cpu/cpu2/cpufreq/scaling_max_freq", "1800000");
     ("/sys/devices/system/cpu/cpu3/cpufreq/scaling_max_freq", "1800000")]%string.
Proof.
  rewrite (cpu_freq_writes 0 1800000 handheld_sysfs).
  - vm_compute. reflexivity.
  - lia.
  - lia.
Defined.

End CpufreqProperties.

(** ** Display brightness *)

Section DisplayProperties.

Import Sysfs Display.

(** X26. [rexos_set_brightness] never writes a value outside the panel's
    range: the request is raised to 0 and lowered to the content of
    [max_brightness] (255 when that file cannot be read), and the result is
    written in decimal to the brightness file; when that file cannot be
    opened the call returns [REXOS_ERR_PERMISSION] and writes nothing. *)
Theorem set_brightness_clamps (brightness : Z) (fs : sysfs) :
  0 <= Z.min (Z.max brightness 0) (brightness_limit fs) <= brightness_limit fs
  /\ rexos_set_brightness brightness fs
     = if openable fs BRIGHTNESS_PATH
       then (REXOS_OK,
             log_write fs BRIGHTNESS_PATH
               (decimal (Z.min (Z.max brightness 0) (brightness_limit fs))))
       else (REXOS_ERR_PERMISSION, fs).
Proof.
  assert (Hlimit : 0 <= brightness_limit fs).
  { unfold brightness_limit.
    destruct (Z.ltb_spec (read_sysfs_int fs BRIGHTNESS_MAX_PATH) 0); lia. }
  split; [lia|].
  unfold rexos_set_brightness. fold (brightness_limit fs). cbv zeta.
  assert (Hv : (if (if brightness <? 0 then 0 else brightness)
                     >? brightness_limit fs
                then brightness_limit fs
                else if brightness <? 0 then 0 else brightness)
               = Z.min (Z.max brightness 0) (brightness_limit fs)).
  { destruct (Z.ltb_spec brightness 0).
    - destruct (Z.gtb_spec 0 (brightness_limit fs)); lia.
    - destruct (Z.gtb_spec brightness (brightness_limit fs)); lia. }
  rewrite Hv. unfold write_sysfs_int.
  destruct (openable fs BRIGHTNESS_PATH); reflexivity.
Qed.

End DisplayProperties.

(** ** Deadzone and button map *)

Section InputRemapFacts.

Import InputRemap.

Lemma mapping_loop_find (entries : list rexos_button_map_t) (code : Z) :
  mapping_loop entries code
  = match find (fun e => from e =? code) entries with
    | Some e => to e mod 2 ^ 16
    | None => code
    end.
Proof.
  induction entries as [|e entries IH]; [reflexivity|].
  cbn [mapping_loop find]. destruct (from e =? code); [reflexivity | exact IH].
Qed.

End InputRemapFacts.

Section InputRemapProperties.

Import InputRemap.

(** X27. [rexos_set_deadzone] rejects a value outside 0..32767 and leaves
    the state as it was.  A value in range is stored before the RetroArch
    configuration is looked at, so [rexos_get_deadzone] returns it from then
    on even when the call itself reports [REXOS_ERR_MEMORY]; the button map
    is not touched. *)
Theorem set_deadzone_outcomes (deadzone : Z) (cfg : ra_config) (s : input_state) :
  if (0 <=? deadzone) && (deadzone <=? 32767)
  then rexos_get_deadzone (snd (rexos_set_deadzone deadzone cfg s)) = deadzone
       /\ g_button_map (snd (rexos_set_deadzone deadzone cfg s)) = g_button_map s
       /\ g_button_map_count (snd (rexos_set_deadzone deadzone cfg s))
          = g_button_map_count s
       /\ fst (rexos_set_deadzone deadzone cfg s)
          = if cfg_opens cfg && negb (cfg_malloc_ok cfg)
            then REXOS_ERR_MEMORY else REXOS_OK
  else rexos_set_deadzone deadzone cfg s = (REXOS_ERR_INVALID_ARG, s).
Proof.
  unfold rexos_set_deadzone, rexos_get_deadzone.
  destruct (Z.leb_spec 0 deadzone), (Z.leb_spec deadzone 32767);
    destruct (Z.ltb_spec deadzone 0), (Z.gtb_spec deadzone 32767);
    try lia; cbn [andb orb]; try reflexivity.
  destruct (cfg_opens cfg), (cfg_malloc_ok cfg); cbn; auto.
Qed.

(** X28. After [rexos_apply_button_map] has stored a map, [apply_mapping]
    translates a code by the first entry, among the first [count] entries
    of the caller's array and at most 32 of them, whose [from] is that
    code, and returns every other code unchanged; a count of zero or less
    clears the mapping.  The deadzone is not touched and the table keeps
    its 32 cells. *)
Theorem button_map_first_match (m : list rexos_button_map_t) (count : Z)
    (s : input_state) :
  table_ok s ->
  count <= Z.of_nat (length m) ->
  exists s1,
    rexos_apply_button_map (Some m) count s = Some (REXOS_OK, s1)
    /\ table_ok s1
    /\ g_deadzone s1 = g_deadzone s
    /\ forall code,
         apply_mapping code s1
         = match find (fun e => from e =? code)
                   (take (Z.to_nat (Z.min count 32)) m) with
           | Some e => to e mod 2 ^ 16
           | None => code
           end.
Proof.
  unfold table_ok, BUTTON_MAP_SIZE. intros Htable Hcount.
  unfold rexos_apply_button_map, BUTTON_MAP_SIZE.
  assert (Hmin : (if count >? 32 then 32 else count) = Z.min count 32)
    by (destruct (Z.gtb_spec count 32); lia).
  assert (Hc : Z.min count 32 <= 32 /\ Z.min count 32 <= Z.of_nat (length m))
    by lia.
  destruct (count >? 0); cbv zeta; rewrite Hmin; clear Hmin;
    generalize dependent (Z.min count 32); intros c Hc.
  all: destruct (Z.gtb_spec c 0) as [Hpos|Hneg].
  all: try (assert (Hn : (Z.to_nat c <= length m)%nat) by lia;
            destruct (Nat.leb_spec (Z.to_nat c) (length m)); [|lia];
            eexists; split; [reflexivity|];
            assert (Hlen : length (take (Z.to_nat c) m) = Z.to_nat c)
              by (rewrite length_take; lia);
            cbn [g_button_map g_deadzone g_button_map_count];
            split; [|split; [reflexivity|]];
            [ rewrite length_app, Hlen, length_drop, Htable; lia
            | intros code; unfold apply_mapping;
              cbn [g_button_map g_button_map_count];
              rewrite take_app_length' by (symmetry; exact Hlen);
              apply mapping_loop_find ]).
  all: eexists; split; [reflexivity|];
    cbn [g_button_map g_deadzone g_button_map_count];
    split; [exact Htable|]; split; [reflexivity|];
    intros code; unfold apply_mapping;
    cbn [g_button_map g_button_map_count];
    replace (Z.to_nat c) with 0%nat by lia; reflexivity.
Qed.

Lemma button_map_first_match_witness :
  exists s1,
    rexos_apply_button_map (Some swap_a_b) 3 input_initial
      = Some (REXOS_OK, s1)
    /\ table_ok s1
    /\ g_deadzone s1 = g_deadzone input_initial
    /\ forall code,
         apply_mapping code s1
         = match find (fun e => from e =? code)
                   (take (Z.to_nat (Z.min 3 32)) swap_a_b) with
           | Some e => to e mod 2 ^ 16
           | None => code
           end.
Proof.
  apply (button_map_first_match swap_a_b 3 input_initial).
  - reflexivity.
  - cbn. lia.
Defined.

End InputRemapProperties.

(** ** launcher.c *)

Section LauncherProperties.

Import Launcher.

(** X29. For a positive process id, [monitor_emulator] issues one
    [waitpid] without a time limit and returns the exit code of an emulator
    that left through [exit]; for one that was ended by a signal it returns
    -1.  In both cases it prints nothing. *)
Theorem monitor_emulator_result (pid status code sig expected : Z) (p : process) :
  0 < pid ->
  next_answer (os p) = (pid, status) ->
  (status = exited_status code /\ 0 <= code < 256 /\ expected = code)
  \/ (status = signaled_status sig /\ 0 < sig < 128 /\ expected = -1) ->
  fst (monitor_emulator pid p) = expected
  /\ stderr_lines (snd (monitor_emulator pid p)) = stderr_lines p
  /\ trace (os (snd (monitor_emulator pid p)))
     = trace (os p) ++ [sys_waitpid pid 0].
Proof.
  intros Hpid Hnext Hstatus. unfold monitor_emulator.
  destruct (Z.leb_spec pid 0); [lia|].
  unfold lift, waitpid, bind, emit. cbn [trace with_trace with_script waitpid_script].
  unfold next_answer in Hnext. rewrite Hnext. cbn [fst snd].
  destruct (Z.eqb_spec pid (-1)); [lia|].
  destruct Hstatus as [(-> & Hcode & ->) | (-> & Hsig & ->)].
  - destruct (exited_status_decoded code Hcode) as [-> ->].
    cbn. auto.
  - rewrite (signaled_status_not_exited sig Hsig). cbn. auto.
Qed.

Lemma monitor_emulator_result_witness :
  fst (monitor_emulator 4242
         (fresh (with_script quiet_world [(4242, exited_status 3)]))) = 3
  /\ stderr_lines
       (snd (monitor_emulator 4242
               (fresh (with_script quiet_world [(4242, exited_status 3)]))))
     = stderr_lines (fresh (with_script quiet_world [(4242, exited_status 3)]))
  /\ trace (os (snd (monitor_emulator 4242
                       (fresh (with_script quiet_world
                                 [(4242, exited_status 3)])))))
     = trace (os (fresh (with_script quiet_world [(4242, exited_status 3)])))
       ++ [sys_waitpid 4242 0].
Proof.
  apply (monitor_emulator_result 4242 (exited_status 3) 3 0 3).
  - lia.
  - reflexivity.
  - left. split; [reflexivity|]. split; [lia | reflexivity].
Defined.

(** X30. The two interfaces agree: [stop_emulator] and [kill_emulator]
    of launcher.c issue exactly the system calls of [rexos_stop] and
    [rexos_kill] of the bridge (none for a process id of zero or less) and
    return 0 exactly when those return [REXOS_OK], and -1 otherwise. *)
Theorem launcher_agrees_with_bridge (pid : Z) (p : process) :
  kill_posix (os p) ->
  (os (snd (stop_emulator pid p)) = snd (rexos_stop pid (os p))
   /\ fst (stop_emulator pid p)
      = match fst (rexos_stop pid (os p)) with REXOS_OK => 0 | _ => -1 end)
  /\ (os (snd (kill_emulator pid p)) = snd (rexos_kill pid (os p))
      /\ fst (kill_emulator pid p)
         = match fst (rexos_kill pid (os p)) with REXOS_OK => 0 | _ => -1 end).
Proof.
  intros Hposix.
  unfold stop_emulator, kill_emulator, rexos_stop, rexos_kill, rexos_signal.
  destruct (Z.leb_spec pid 0); [cbn; auto|].
  unfold lift, kill, bind, emit, ret.
  cbn [trace with_trace kill_result os stderr_lines fst snd complain].
  split.
  - destruct (Hposix pid SIGTERM) as [Hr|Hr]; rewrite Hr; cbn [Z.eqb Pos.eqb].
    + cbn. auto.
    + change (-1 =? 0) with false. change (-1 =? -1) with true. cbv iota.
      repeat match goal with
             | |- context [if ?b then _ else _] => destruct b
             end; cbn; auto.
  - destruct (Hposix pid SIGKILL) as [Hr|Hr]; rewrite Hr; cbn [Z.eqb Pos.eqb].
    + cbn. auto.
    + change (-1 =? 0) with false. change (-1 =? -1) with true. cbv iota.
      repeat match goal with
             | |- context [if ?b then _ else _] => destruct b
             end; cbn; auto.
Qed.

Lemma launcher_agrees_with_bridge_witness :
  (os (snd (stop_emulator 4242 (fresh quiet_world)))
   = snd (rexos_stop 4242 (os (fresh quiet_world)))
   /\ fst (stop_emulator 4242 (fresh quiet_world))
      = match fst (rexos_stop 4242 (os (fresh quiet_world))) with
        | REXOS_OK => 0 | _ => -1 end)
  /\ (os (snd (kill_emulator 4242 (fresh quiet_world)))
      = snd (rexos_kill 4242 (os (fresh quiet_world)))
      /\ fst (kill_emulator 4242 (fresh quiet_world))
         = match fst (rexos_kill 4242 (os (fresh quiet_world))) with
           | REXOS_OK => 0 | _ => -1 end).
Proof.
  apply (launcher_agrees_with_bridge 4242 (fresh quiet_world)).
  intros pid sig. left. reflexivity.
Defined.

End LauncherProperties.
